(** * A shallow embedding of the fitness-tracking Telegram bot (src/main.py)

    The bot is a set of aiogram message handlers over two pieces of state:
    the per-user conversation context kept by the FSM storage, and the
    module-level dictionary [user_profiles].  The embedding follows the file
    top to bottom:

    - Python numbers: [int] is [Z]; [float] is IEEE 754 binary64, taken from
      the Standard Library's [SpecFloat] at precision 53 and maximal exponent
      1024, with round-to-nearest-even;
    - Python strings: a [str] is kept as its UTF-8 bytes; [int], [float] and
      the command filter read its code points, with the white space and the
      decimal digits of Unicode as CPython has them;
    - exceptions: a handler body is a computation in the [result] monad;
    - the two HTTP look-ups read their answer from an [http_outcome] that the
      environment supplies with each message;
    - the dispatcher tries the handlers in the order main.py registers them.

    Part I holds the definitions, Part II the facts proved about them. *)

From Stdlib Require Import ZArith QArith Qround String Ascii List Bool Lia.
From Stdlib Require Import Floats.SpecFloat.
From stdpp Require Import gmap strings.
Import ListNotations.

Local Open Scope Z_scope.

(** * Part I: the program *)

(** ** Exceptions *)

(** The Python exceptions that the modelled code can raise. [ClientError]
    stands for any exception of the HTTP client (connection refused, time
    out, a body that is not JSON). *)
Inductive exn : Set :=
| ValueError | TypeError | OverflowError | ZeroDivisionError
| KeyError | IndexError | AttributeError | ClientError.

Inductive result (A : Type) : Type :=
| Ok (a : A)
| Raise (e : exn).
Arguments Ok {A} a.
Arguments Raise {A} e.

Definition bind {A B} (c : result A) (k : A -> result B) : result B :=
  match c with
  | Ok a => k a
  | Raise e => Raise e
  end.

Notation "x <- c ;; k" := (bind c (fun x => k))
  (at level 100, c at next level, right associativity).

(** ** Python floats *)

Module PyFloat.

Definition prec : Z := 53.
Definition emax : Z := 1024.

Definition float : Set := spec_float.

Definition add : float -> float -> float := SFadd prec emax.
Definition sub : float -> float -> float := SFsub prec emax.
Definition mul : float -> float -> float := SFmul prec emax.
Definition div : float -> float -> float := SFdiv prec emax.

Definition is_finite (x : float) : bool :=
  match x with
  | S754_zero _ | S754_finite _ _ _ => true
  | S754_infinity _ | S754_nan => false
  end.

Definition is_zero (x : float) : bool :=
  match x with
  | S754_zero _ => true
  | _ => false
  end.

(** The values of [spec_float] that are binary64 numbers: the mantissa of a
    finite one is normalised for its exponent, which is in range. *)
Definition valid (x : float) : bool := valid_binary prec emax x.

(** [x >= 0] on floats: true of both zeros and of [+inf], false of [nan]. *)
Definition nonneg (x : float) : bool :=
  match x with
  | S754_zero _ | S754_finite false _ _ | S754_infinity false => true
  | _ => false
  end.

(** [0 < x]. *)
Definition is_positive (x : float) : bool :=
  match x with
  | S754_finite false _ _ | S754_infinity false => true
  | _ => false
  end.

(** The integer [n], rounded to the nearest float (an overflow gives an
    infinity, which the callers turn into [OverflowError]). *)
Definition of_Z (n : Z) : float := binary_normalize prec emax n 0 false.

(** The quotient [a / b] of two positive integers, correctly rounded; [neg]
    is the sign of the result. *)
Definition of_ratio (neg : bool) (a b : Z) : float :=
  if a =? 0 then S754_zero neg
  else
    let '(q, e, l) := SFdiv_core_binary prec emax a 0 b 0 in
    binary_round_aux prec emax neg q e l.

(** The decimal [d * 10 ^ e10] with [0 <= d], correctly rounded: what a
    float literal and [float(str)] denote. *)
Definition of_decimal (neg : bool) (d e10 : Z) : float :=
  if d =? 0 then S754_zero neg
  else
    match e10 with
    | Zneg p => of_ratio neg d (10 ^ Zpos p)
    | _ => binary_normalize prec emax (cond_Zopp neg (d * 10 ^ e10)) 0 false
    end.

(** The rational a finite float stands for (0 for the others). *)
Definition to_Q (x : float) : Q :=
  match x with
  | S754_finite s m e =>
      match e with
      | Zneg p => cond_Zopp s (Zpos m) # (2 ^ p)%positive
      | _ => inject_Z (cond_Zopp s (Zpos m) * 2 ^ e)
      end
  | _ => 0%Q
  end.

(** The integer part of a finite float: the magnitude is shifted, the bits
    below the point are dropped, and the sign is put back. *)
Definition trunc (x : float) : Z :=
  match x with
  | S754_finite s m e =>
      cond_Zopp s (match e with
                   | Zneg p => Z.shiftr (Zpos m) (Zpos p)
                   | _ => Z.shiftl (Zpos m) e
                   end)
  | _ => 0
  end.

(** Comparison of a float with an integer, exact as in CPython. *)
Definition compare_Z (x : float) (n : Z) : option comparison :=
  match x with
  | S754_nan => None
  | S754_infinity s => Some (if s then Lt else Gt)
  | _ => Some (Qcompare (to_Q x) (inject_Z n))
  end.

End PyFloat.

Abbreviation float := PyFloat.float.

(** ** Python numbers and their arithmetic *)

Inductive pynum : Set :=
| PInt (z : Z)
| PFloat (f : float).

(** Conversion of an operand to float in mixed arithmetic; an int beyond the
    float range raises. *)
Definition to_float (n : pynum) : result float :=
  match n with
  | PFloat f => Ok f
  | PInt z =>
      let f := PyFloat.of_Z z in
      if PyFloat.is_finite f then Ok f else Raise OverflowError
  end.

Definition float_binop (op : float -> float -> float) (a b : pynum)
  : result pynum :=
  x <- to_float a ;; y <- to_float b ;; Ok (PFloat (op x y)).

Definition num_add (a b : pynum) : result pynum :=
  match a, b with
  | PInt x, PInt y => Ok (PInt (x + y))
  | _, _ => float_binop PyFloat.add a b
  end.

Definition num_sub (a b : pynum) : result pynum :=
  match a, b with
  | PInt x, PInt y => Ok (PInt (x - y))
  | _, _ => float_binop PyFloat.sub a b
  end.

Definition num_mul (a b : pynum) : result pynum :=
  match a, b with
  | PInt x, PInt y => Ok (PInt (x * y))
  | _, _ => float_binop PyFloat.mul a b
  end.

(** True division [a / b]: always a float. *)
Definition num_truediv (a b : pynum) : result pynum :=
  match a, b with
  | PInt x, PInt y =>
      if y =? 0 then Raise ZeroDivisionError
      else
        let f := PyFloat.of_ratio (xorb (x <? 0) (y <? 0)) (Z.abs x) (Z.abs y) in
        if PyFloat.is_finite f then Ok (PFloat f) else Raise OverflowError
  | _, _ =>
      x <- to_float a ;;
      y <- to_float b ;;
      if PyFloat.is_zero y then Raise ZeroDivisionError
      else Ok (PFloat (PyFloat.div x y))
  end.

Definition num_compare (a b : pynum) : option comparison :=
  match a, b with
  | PInt x, PInt y => Some (x ?= y)
  | PFloat x, PInt y => PyFloat.compare_Z x y
  | PInt x, PFloat y => option_map CompOpp (PyFloat.compare_Z y x)
  | PFloat x, PFloat y => SFcompare x y
  end.

(** [a > b]; any comparison with [nan] is false. *)
Definition num_gt (a b : pynum) : bool :=
  match num_compare a b with
  | Some Gt => true
  | _ => false
  end.

(** [a >= 0]. *)
Definition num_nonneg (a : pynum) : bool :=
  match num_compare a (PInt 0) with
  | Some (Gt | Eq) => true
  | _ => false
  end.

(** [int(x)]: truncation toward zero; [nan] and the infinities raise. *)
Definition py_int (n : pynum) : result Z :=
  match n with
  | PInt z => Ok z
  | PFloat S754_nan => Raise ValueError
  | PFloat (S754_infinity _) => Raise OverflowError
  | PFloat f => Ok (PyFloat.trunc f)
  end.

(** ** Python objects

    What [json.loads] can return, which is also what the handlers keep of it.
    A [VDict] lists the items of a dict, whose keys are distinct. *)
#[warnings="-register-all"]
Inductive pyval : Set :=
| VNone
| VBool (b : bool)
| VInt (z : Z)
| VFloat (f : float)
| VStr (s : string)
| VList (l : list pyval)
| VDict (d : list (string * pyval)).

(** Truth value of an object, as [if x:] and [x or y] test it. *)
Definition truthy (v : pyval) : bool :=
  match v with
  | VNone => false
  | VBool b => b
  | VInt z => negb (z =? 0)
  | VFloat f => negb (PyFloat.is_zero f)
  | VStr s => negb (String.eqb s EmptyString)
  | VList l => match l with [] => false | _ => true end
  | VDict d => match d with [] => false | _ => true end
  end.

(** [x or y]. *)
Definition py_or (x y : pyval) : pyval := if truthy x then x else y.

(** The operand of an arithmetic operator or an ordering: [bool] is a
    subclass of [int]; anything else that JSON can hold raises. *)
Definition as_num (v : pyval) : result pynum :=
  match v with
  | VBool b => Ok (PInt (Z.b2z b))
  | VInt z => Ok (PInt z)
  | VFloat f => Ok (PFloat f)
  | _ => Raise TypeError
  end.

(** ** The goal calculators (main.py, lines 70-85) *)

(** The literals [20.0] and [6.25]. *)
Definition f20_0 : float := Eval vm_compute in PyFloat.of_decimal false 200 (-1).
Definition f6_25 : float := Eval vm_compute in PyFloat.of_decimal false 625 (-2).

(** [base + extra_for_activity + extra_for_heat], the float handed to [int]. *)
Definition water_sum (weight : float) (activity_minutes : Z)
  (temperature : pyval) : result pynum :=
  base <- num_mul (PFloat weight) (PInt 30) ;;
  let extra_for_activity := PInt ((activity_minutes / 30) * 500) in
  t <- as_num temperature ;;
  let extra_for_heat := PInt (if num_gt t (PInt 25) then 500 else 0) in
  s <- num_add base extra_for_activity ;;
  num_add s extra_for_heat.

Definition calculate_water_goal (weight : float) (activity_minutes : Z)
  (temperature : pyval) : result Z :=
  s <- water_sum weight activity_minutes temperature ;;
  py_int s.

Definition bmr (weight height : float) (age : Z) : result pynum :=
  a <- num_mul (PInt 10) (PFloat weight) ;;
  b <- num_mul (PFloat f6_25) (PFloat height) ;;
  c <- num_add a b ;;
  d <- num_mul (PInt 5) (PInt age) ;;
  num_sub c d.

Definition extra_activity (activity_minutes : Z) : Z :=
  if activity_minutes >? 60 then 400
  else if activity_minutes >? 30 then 200 else 0.

(** [bmr + extra_activity], the float handed to [int]. *)
Definition calorie_sum (weight height : float) (age activity_minutes : Z)
  : result pynum :=
  b <- bmr weight height age ;;
  num_add b (PInt (extra_activity activity_minutes)).

Definition calculate_calorie_goal (weight height : float)
  (age activity_minutes : Z) : result Z :=
  s <- calorie_sum weight height age activity_minutes ;;
  py_int s.

(** ** Texts

    A Python [str] is a sequence of Unicode code points.  A [string] of this
    file holds the UTF-8 encoding of the [str], and the functions that look
    at its characters decode it first.  (A [string] that is the encoding of
    no [str] stands for no text; the decoder gives U+FFFD for a byte it
    cannot place.) *)

(** The code points of the UTF-8 bytes [l]; [pending] continuation bytes of
    the character that has the leading bits [acc] are still to come. *)
Fixpoint utf8_decode (pending : nat) (acc : N) (l : list ascii) : list N :=
  match l with
  | [] => match pending with O => [] | S _ => [0xfffd%N] end
  | b :: r =>
      let n := N_of_ascii b in
      match pending with
      | S k =>
          if ((128 <=? n) && (n <? 192))%N then
            let acc := (acc * 64 + (n - 128))%N in
            match k with
            | O => acc :: utf8_decode O 0%N r
            | S _ => utf8_decode k acc r
            end
          else 0xfffd%N :: utf8_decode O 0%N r
      | O =>
          if (n <? 128)%N then n :: utf8_decode O 0%N r
          else if ((192 <=? n) && (n <? 224))%N then
                 utf8_decode 1 (n - 192)%N r
          else if ((224 <=? n) && (n <? 240))%N then
                 utf8_decode 2 (n - 224)%N r
          else if ((240 <=? n) && (n <? 248))%N then
                 utf8_decode 3 (n - 240)%N r
          else 0xfffd%N :: utf8_decode O 0%N r
      end
  end.

Definition code_points (s : string) : list N :=
  utf8_decode O 0%N (list_ascii_of_string s).

(** The continuation bytes at the head of [s]: with the byte before them
    they make the first character. *)
Fixpoint continuation_bytes (s : string) : string :=
  match s with
  | String c r =>
      let n := N_of_ascii c in
      if ((128 <=? n) && (n <? 192))%N then String c (continuation_bytes r)
      else EmptyString
  | EmptyString => EmptyString
  end.

(** [Py_UNICODE_ISSPACE], the white space of [str.split] and [str.isspace]:
    the characters of bidirectional type WS, B or S and of category Zs. *)
Definition Py_UNICODE_ISSPACE (c : N) : bool :=
  (((9 <=? c) && (c <=? 13)) || ((28 <=? c) && (c <=? 32))
   || (c =? 0x85) || (c =? 0xa0) || (c =? 0x1680)
   || ((0x2000 <=? c) && (c <=? 0x200a))
   || (c =? 0x2028) || (c =? 0x2029) || (c =? 0x202f) || (c =? 0x205f)
   || (c =? 0x3000))%N.

(** The zeros of the decimal digits beyond ASCII (Unicode 14.0.0, the
    database of CPython 3.11); the digits 1 to 9 of a script follow its
    zero. *)
Definition decimal_zeros : list N :=
  [ 0x660; 0x6f0; 0x7c0; 0x966; 0x9e6; 0xa66; 0xae6; 0xb66; 0xbe6; 0xc66;
    0xce6; 0xd66; 0xde6; 0xe50; 0xed0; 0xf20; 0x1040; 0x1090; 0x17e0;
    0x1810; 0x1946; 0x19d0; 0x1a80; 0x1a90; 0x1b50; 0x1bb0; 0x1c40; 0x1c50;
    0xa620; 0xa8d0; 0xa900; 0xa9d0; 0xa9f0; 0xaa50; 0xabf0; 0xff10;
    0x104a0; 0x10d30; 0x11066; 0x110f0; 0x11136; 0x111d0; 0x112f0; 0x11450;
    0x114d0; 0x11650; 0x116c0; 0x11730; 0x118e0; 0x11950; 0x11c50; 0x11d50;
    0x11da0; 0x16a60; 0x16ac0; 0x16b50; 0x1d7ce; 0x1d7d8; 0x1d7e2; 0x1d7ec;
    0x1d7f6; 0x1e140; 0x1e2f0; 0x1e950; 0x1fbf0 ]%N.

(** [Py_UNICODE_TODECIMAL]: the value of a decimal digit. *)
Definition Py_UNICODE_TODECIMAL (c : N) : option N :=
  if ((48 <=? c) && (c <? 58))%N then Some (c - 48)%N
  else
    match find (fun z => ((z <=? c) && (c <? z + 10))%N) decimal_zeros with
    | Some z => Some (c - z)%N
    | None => None
    end.

(** [_PyUnicode_TransformDecimalAndSpaceToASCII], through which [int] and
    [float] read a [str]: ASCII stays, any other white space becomes a
    space, any other decimal digit its ASCII digit, and anything else a
    question mark, at which every number ends in error. *)
Definition to_ascii_char (c : N) : ascii :=
  if (c <? 127)%N then ascii_of_N c
  else if Py_UNICODE_ISSPACE c then " "%char
  else
    match Py_UNICODE_TODECIMAL c with
    | Some d => ascii_of_N (48 + d)
    | None => "?"%char
    end.

Definition TransformDecimalAndSpaceToASCII (s : string) : list ascii :=
  map to_ascii_char (code_points s).

(** ** [int(str)] and [float(str)]

    The grammar CPython accepts in the transformed text: surrounding white
    space of the C locale ([Py_ISSPACE], which has not the separators 28 to
    31 of [str.isspace]), a sign, decimal digits with single underscores
    between them, and for floats a fraction, an exponent, and the words inf,
    infinity and nan in any case.  (Recent versions refuse an [int] of more
    than 4300 digits; a Telegram message has at most 4096 characters.) *)

(** [Py_ISSPACE]. *)
Definition is_space (c : ascii) : bool :=
  let n := N_of_ascii c in
  (((9 <=? n) && (n <=? 13)) || (n =? 32))%N.

Definition digit_of (c : ascii) : option Z :=
  let n := Z.of_nat (nat_of_ascii c) in
  if (48 <=? n) && (n <=? 57) then Some (n - 48) else None.

Definition is_digit (c : ascii) : bool :=
  match digit_of c with Some _ => true | None => false end.

Fixpoint lstrip (l : list ascii) : list ascii :=
  match l with
  | c :: r => if is_space c then lstrip r else l
  | [] => []
  end.

Definition strip (l : list ascii) : list ascii :=
  rev (lstrip (rev (lstrip l))).

(** Underscores are legal only between two digits; they are dropped. [prev]
    is the character before [l]. *)
Fixpoint drop_underscores (prev : option ascii) (l : list ascii)
  : option (list ascii) :=
  match l with
  | [] => match prev with
          | Some "_"%char => None
          | _ => Some []
          end
  | c :: r =>
      if Ascii.eqb c "_" then
        match prev with
        | Some p => if is_digit p then drop_underscores (Some c) r else None
        | None => None
        end
      else
        match prev with
        | Some "_"%char =>
            if is_digit c then option_map (cons c) (drop_underscores (Some c) r)
            else None
        | _ => option_map (cons c) (drop_underscores (Some c) r)
        end
  end.

(** An optional sign; [true] is minus. *)
Definition split_sign (l : list ascii) : bool * list ascii :=
  match l with
  | "-"%char :: r => (true, r)
  | "+"%char :: r => (false, r)
  | _ => (false, l)
  end.

(** The longest run of digits at the head of [l], read after the digits
    already in [acc]: its value, how many digits there were, and the rest. *)
Fixpoint digits (l : list ascii) (acc : Z) (n : Z) : Z * Z * list ascii :=
  match l with
  | c :: r =>
      match digit_of c with
      | Some d => digits r (10 * acc + d) (n + 1)
      | None => (acc, n, l)
      end
  | [] => (acc, n, [])
  end.

(** [int(s)]: [None] stands for [ValueError]. *)
Definition parse_int (s : string) : option Z :=
  match
    drop_underscores None (strip (TransformDecimalAndSpaceToASCII s))
  with
  | None => None
  | Some l =>
      let '(neg, l) := split_sign l in
      match digits l 0 0 with
      | (v, n, []) => if 0 <? n then Some (cond_Zopp neg v) else None
      | _ => None
      end
  end.

Definition lower (c : ascii) : ascii :=
  let n := nat_of_ascii c in
  if ((65 <=? n) && (n <=? 90))%nat then ascii_of_nat (n + 32) else c.

Definition is_word (w : string) (l : list ascii) : bool :=
  String.eqb (string_of_list_ascii (map lower l)) w.

(** The exponent part: e or E, a sign, at least one digit, nothing after. *)
Definition parse_exponent (l : list ascii) : option Z :=
  match l with
  | [] => Some 0
  | c :: r =>
      if Ascii.eqb (lower c) "e" then
        let '(neg, r) := split_sign r in
        match digits r 0 0 with
        | (v, n, []) => if 0 <? n then Some (cond_Zopp neg v) else None
        | _ => None
        end
      else None
  end.

(** [float(s)]: [None] stands for [ValueError]. *)
Definition parse_float (s : string) : option float :=
  match
    drop_underscores None (strip (TransformDecimalAndSpaceToASCII s))
  with
  | None => None
  | Some l =>
      let '(neg, l) := split_sign l in
      if is_word "inf" l || is_word "infinity" l then Some (S754_infinity neg)
      else if is_word "nan" l then Some S754_nan
      else
        let '(ip, ni, r1) := digits l 0 0 in
        let '(m, nf, r2) :=
          match r1 with
          | "."%char :: r => digits r ip 0
          | _ => (ip, 0, r1)
          end in
        if 0 <? ni + nf then
          match parse_exponent r2 with
          | Some e => Some (PyFloat.of_decimal neg m (e - nf))
          | None => None
          end
        else None
  end.

(** [int(message.text)] and [float(message.text)]: a message without text
    (a photo, a sticker) has [text = None], on which both raise [TypeError]. *)
Definition py_int_of_text (t : option string) : result Z :=
  match t with
  | None => Raise TypeError
  | Some s => match parse_int s with
              | Some z => Ok z
              | None => Raise ValueError
              end
  end.

Definition py_float_of_text (t : option string) : result float :=
  match t with
  | None => Raise TypeError
  | Some s => match parse_float s with
              | Some f => Ok f
              | None => Raise ValueError
              end
  end.

(** ** The two gateways (main.py, lines 28-67)

    What the network answers is an input of the model. *)

Inductive http_outcome : Set :=
| TransportFailure
    (* opening the session or sending the request raises *)
| Response (status : Z) (body : option pyval).
    (* [body = None]: [response.json()] raises *)

Fixpoint assoc (k : string) (d : list (string * pyval)) : option pyval :=
  match d with
  | [] => None
  | (k', v) :: r => if String.eqb k k' then Some v else assoc k r
  end.

(** [v[k]] for a string key. *)
Definition getitem (v : pyval) (k : string) : result pyval :=
  match v with
  | VDict d => match assoc k d with
               | Some x => Ok x
               | None => Raise KeyError
               end
  | _ => Raise TypeError
  end.

(** [v[0]]. *)
Definition getitem0 (v : pyval) : result pyval :=
  match v with
  | VList (x :: _) => Ok x
  | VList [] => Raise IndexError
  | VStr (String c r) => Ok (VStr (String c (continuation_bytes r)))
  | VStr EmptyString => Raise IndexError
  | VDict _ => Raise KeyError
  | _ => Raise TypeError
  end.

(** [d.get(k, default)] on a dict. *)
Definition get_or (d : list (string * pyval)) (k : string) (default : pyval)
  : pyval :=
  match assoc k d with
  | Some x => x
  | None => default
  end.

(** [v.get(k, default)]: only a dict has the method. *)
Definition dict_get (v : pyval) (k : string) (default : pyval) : result pyval :=
  match v with
  | VDict d => Ok (get_or d k default)
  | _ => Raise AttributeError
  end.

(** The body of the [try] of [get_weather_temp]. *)
Definition get_weather_temp_body (net : http_outcome) : result pyval :=
  match net with
  | TransportFailure => Raise ClientError
  | Response status body =>
      if negb (status =? 200) then Ok VNone
      else
        match body with
        | None => Raise ClientError
        | Some data =>
            main <- getitem data "main" ;;
            getitem main "temp"
        end
  end.

(** [except Exception: return None]. *)
Definition get_weather_temp (city : option string) (net : http_outcome) : pyval :=
  match get_weather_temp_body net with
  | Ok v => v
  | Raise _ => VNone
  end.

(** The dict [{'name': ..., 'calories': ...}]. *)
Record food_info : Set := { name : pyval; calories : pyval }.

(** The body of the [try] of [get_food_info]. *)
Definition get_food_info_body (net : http_outcome) : result (option food_info) :=
  match net with
  | TransportFailure => Raise ClientError
  | Response status body =>
      if negb (status =? 200) then Ok None
      else
        match body with
        | None => Raise ClientError
        | Some data =>
            products <- dict_get data "products" (VList []) ;;
            if truthy products then
              first_product <- getitem0 products ;;
              n <- dict_get first_product "product_name" (VStr "Unknown") ;;
              nutriments <- dict_get first_product "nutriments" (VDict []) ;;
              c <- dict_get nutriments "energy-kcal_100g" (VInt 0) ;;
              Ok (Some {| name := n; calories := c |})
            else Ok None
        end
  end.

Definition get_food_info (product_name : option string) (net : http_outcome)
  : option food_info :=
  match get_food_info_body net with
  | Ok r => r
  | Raise _ => None
  end.

(** ** Conversation states, scratch data and profiles (lines 24-25, 100-115) *)

Inductive State : Set :=
| ProfileStates_weight
| ProfileStates_height
| ProfileStates_age
| ProfileStates_activity
| ProfileStates_city
| LogWaterStates_amount
| LogFoodStates_food_name
| LogFoodStates_food_amount
| FoodInfoStates_food_name.

#[global] Instance State_eq_dec : EqDecision State.
Proof. solve_decision. Defined.

(** The FSM data of one conversation. The handlers write five keys, each
    with values of one type, so the dict is a record of optional fields;
    [None] is an absent key, which is what [data.get] returns for it. *)
Record fsm_data : Set := {
  data_weight : option float;
  data_height : option float;
  data_age : option Z;
  data_activity : option Z;
  data_current_food : option food_info
}.

Definition no_data : fsm_data :=
  {| data_weight := None; data_height := None; data_age := None;
     data_activity := None; data_current_food := None |}.

(** What the storage keeps for one user: [state = None] is the idle state. *)
Record FSMContext : Set := { state : option State; data : fsm_data }.

Definition idle : FSMContext := {| state := None; data := no_data |}.

(** An entry of [user_profiles]. *)
Record profile : Set := {
  weight : float;
  height : float;
  age : Z;
  activity : Z;
  city : option string;
  temperature : pyval;
  water_goal : Z;
  calorie_goal : Z;
  logged_water : Z;
  logged_calories : pynum;
  burned_calories : Z
}.

(** The globals of main.py: the two stores and the bot.  Both stores are
    keyed by the user's id: the bot talks in private chats, where the key of
    the FSM storage is that id.  Of the bot the handlers' filters read the
    user name, [(await bot.me()).username], which Telegram makes of ASCII
    letters, digits and underscores. *)
Record world : Type := {
  storage : gmap Z FSMContext;
  user_profiles : gmap Z profile;
  bot_username : option string
}.

(** The world when polling starts, for a bot of the given user name. *)
Definition startup (username : option string) : world :=
  {| storage := ∅; user_profiles := ∅; bot_username := username |}.

(** Of a message the code reads the sender, the text and, in the command
    filter, the caption (a photo has a caption and no text). *)
Record Message : Set := {
  from_user_id : Z;
  text : option string;
  caption : option string
}.

(** ** Replies

    One constructor per message text of main.py, with the values its f-string
    interpolates; the rendering of numbers is not modelled. *)

Inductive reply_markup : Set :=
| get_main_menu
| ReplyKeyboardRemove
| no_markup.

Inductive reply_text : Set :=
| Welcome                     (* "Welcome! Use the buttons below ..." *)
| EnterWeight                 (* "Enter your weight (kg):" *)
| InvalidWeight               (* "Please enter a valid weight in kg (e.g., 70)." *)
| EnterHeight                 (* "Enter your height (cm):" *)
| InvalidHeight               (* "Please enter a valid height in cm (e.g., 170)." *)
| EnterAge                    (* "Enter your age:" *)
| InvalidAge                  (* "Please enter a valid age (e.g., 30)." *)
| EnterActivity               (* "How many minutes of activity do you have per day?" *)
| InvalidActivity             (* "Please enter a valid number for activity minutes ..." *)
| EnterCity                   (* "Which city do you live in?" *)
| ProfileSet (p : profile)    (* "Profile set! ... Your daily goals: ..." *)
| SetProfileFirstButton       (* "Please set your profile first using the 'Set Profile' button." *)
| SetProfileFirst             (* "Please set your profile first." *)
| EnterWater                  (* "How many milliliters of water did you drink?" *)
| WaterGoalReached (current : Z)
                              (* "Great! You've reached your water goal: {current} ml." *)
| WaterLogged (amount remaining : Z)
                              (* "Logged: {amount} ml. Remaining: {remaining} ml." *)
| InvalidNumber250            (* "Please enter a valid number (e.g., 250)." *)
| EnterFoodToLog              (* "Enter the name of the food you'd like to log:" *)
| FoodFound (f : food_info)   (* "Found: {name} Calories per 100g: ... How many grams ...?" *)
| FoodNotFound                (* "Could not find information about this food. ..." *)
| SomethingWentWrong          (* "Something went wrong. Please try again." *)
| FoodLogged (f : food_info) (amount : Z) (total_calories updated : pynum)
                              (* "Logged: {name} ({amount}g) Total Calories: ... " *)
| InvalidNumber150            (* "Please enter a valid number (e.g., 150)." *)
| Progress (p : profile)      (* "Progress: Water: Consumed: ... Burned: ..." *)
| EnterFoodToCheck            (* "Enter the name of the food you'd like to check:" *)
| ProductInfo (f : food_info) (* "Product: {name} Calories per 100g: {calories} kcal." *)
| ProductNotFound             (* "Could not find information about this product. ..." *)
| DidNotUnderstand.           (* "I didn't understand that. Use the buttons ..." *)

Record reply : Set := { body : reply_text; markup : reply_markup }.

(** ** Handler computations

    A handler reads and writes the world, sends replies and may raise.  What
    it wrote and sent before an exception stays written and sent, as in
    Python. *)

Definition M (A : Type) : Type := world -> result A * world * list reply.

Definition retM {A} (a : A) : M A := fun w => (Ok a, w, []).

Definition bindM {A B} (c : M A) (k : A -> M B) : M B :=
  fun w =>
    match c w with
    | (Ok a, w1, out1) => let '(r, w2, out2) := k a w1 in (r, w2, out1 ++ out2)
    | (Raise e, w1, out1) => (Raise e, w1, out1)
    end.

Notation "x <~ c ;; k" := (bindM c (fun x => k))
  (at level 100, c at next level, right associativity).
Notation "c ;;; k" := (bindM c (fun _ => k))
  (at level 100, right associativity).

Definition lift {A} (r : result A) : M A := fun w => (r, w, []).

(** [try: body except ValueError: handler]. *)
Definition try_except_ValueError (body handler : M unit) : M unit :=
  fun w =>
    match body w with
    | (Raise ValueError, w1, out1) =>
        let '(r, w2, out2) := handler w1 in (r, w2, out1 ++ out2)
    | other => other
    end.

(** The context of a user; a user the storage has never seen is idle. *)
Definition get_ctx (uid : Z) (w : world) : FSMContext :=
  default idle (storage w !! uid).

Definition set_ctx (uid : Z) (c : FSMContext) (w : world) : world :=
  {| storage := <[uid := c]> (storage w); user_profiles := user_profiles w;
     bot_username := bot_username w |}.

Definition set_profile (uid : Z) (p : profile) (w : world) : world :=
  {| storage := storage w; user_profiles := <[uid := p]> (user_profiles w);
     bot_username := bot_username w |}.

(** [await state.clear()]: no state and no data. *)
Definition state_clear (message : Message) : M unit :=
  fun w => (Ok tt, set_ctx (from_user_id message) idle w, []).

(** [await state.set_state(s)]: the data stay. *)
Definition state_set_state (message : Message) (s : State) : M unit :=
  fun w =>
    let uid := from_user_id message in
    (Ok tt, set_ctx uid {| state := Some s; data := data (get_ctx uid w) |} w, []).

(** [await state.update_data(key=value)]. *)
Definition state_update_data (message : Message) (f : fsm_data -> fsm_data)
  : M unit :=
  fun w =>
    let uid := from_user_id message in
    let c := get_ctx uid w in
    (Ok tt, set_ctx uid {| state := state c; data := f (data c) |} w, []).

Definition state_get_data (message : Message) : M fsm_data :=
  fun w => (Ok (data (get_ctx (from_user_id message) w)), w, []).

(** [user_profiles.get(message.from_user.id)]. *)
Definition user_profiles_get (message : Message) : M (option profile) :=
  fun w => (Ok (user_profiles w !! from_user_id message), w, []).

(** [user_profiles[message.from_user.id] = p], also the effect of an update
    in place of the dict stored there. *)
Definition user_profiles_set (message : Message) (p : profile) : M unit :=
  fun w => (Ok tt, set_profile (from_user_id message) p w, []).

(** [await message.answer(text, reply_markup=markup)]. *)
Definition answer (t : reply_text) (k : reply_markup) : M unit :=
  fun w => (Ok tt, w, [{| body := t; markup := k |}]).

Definition with_weight (v : float) (d : fsm_data) : fsm_data :=
  {| data_weight := Some v; data_height := data_height d;
     data_age := data_age d; data_activity := data_activity d;
     data_current_food := data_current_food d |}.

Definition with_height (v : float) (d : fsm_data) : fsm_data :=
  {| data_weight := data_weight d; data_height := Some v;
     data_age := data_age d; data_activity := data_activity d;
     data_current_food := data_current_food d |}.

Definition with_age (v : Z) (d : fsm_data) : fsm_data :=
  {| data_weight := data_weight d; data_height := data_height d;
     data_age := Some v; data_activity := data_activity d;
     data_current_food := data_current_food d |}.

Definition with_activity (v : Z) (d : fsm_data) : fsm_data :=
  {| data_weight := data_weight d; data_height := data_height d;
     data_age := data_age d; data_activity := Some v;
     data_current_food := data_current_food d |}.

Definition with_current_food (v : food_info) (d : fsm_data) : fsm_data :=
  {| data_weight := data_weight d; data_height := data_height d;
     data_age := data_age d; data_activity := data_activity d;
     data_current_food := Some v |}.

Definition with_logged_water (v : Z) (p : profile) : profile :=
  {| weight := weight p; height := height p; age := age p;
     activity := activity p; city := city p; temperature := temperature p;
     water_goal := water_goal p; calorie_goal := calorie_goal p;
     logged_water := v; logged_calories := logged_calories p;
     burned_calories := burned_calories p |}.

Definition with_logged_calories (v : pynum) (p : profile) : profile :=
  {| weight := weight p; height := height p; age := age p;
     activity := activity p; city := city p; temperature := temperature p;
     water_goal := water_goal p; calorie_goal := calorie_goal p;
     logged_water := logged_water p; logged_calories := v;
     burned_calories := burned_calories p |}.

(** A value read with [data.get] that is [None]: the first arithmetic on it
    raises [TypeError]. *)
Definition operand {A} (o : option A) : result A :=
  match o with
  | Some a => Ok a
  | None => Raise TypeError
  end.

(** ** The handlers (main.py, lines 118-341) *)

Definition cmd_start (message : Message) : M unit :=
  answer Welcome get_main_menu.

Definition cmd_set_profile (message : Message) : M unit :=
  state_clear message ;;;
  state_set_state message ProfileStates_weight ;;;
  answer EnterWeight ReplyKeyboardRemove.

Definition process_weight (message : Message) : M unit :=
  try_except_ValueError
    (weight <~ lift (py_float_of_text (text message)) ;;
     state_update_data message (with_weight weight) ;;;
     state_set_state message ProfileStates_height ;;;
     answer EnterHeight no_markup)
    (answer InvalidWeight no_markup).

Definition process_height (message : Message) : M unit :=
  try_except_ValueError
    (height <~ lift (py_float_of_text (text message)) ;;
     state_update_data message (with_height height) ;;;
     state_set_state message ProfileStates_age ;;;
     answer EnterAge no_markup)
    (answer InvalidHeight no_markup).

Definition process_age (message : Message) : M unit :=
  try_except_ValueError
    (age <~ lift (py_int_of_text (text message)) ;;
     state_update_data message (with_age age) ;;;
     state_set_state message ProfileStates_activity ;;;
     answer EnterActivity no_markup)
    (answer InvalidAge no_markup).

Definition process_activity (message : Message) : M unit :=
  try_except_ValueError
    (activity <~ lift (py_int_of_text (text message)) ;;
     state_update_data message (with_activity activity) ;;;
     state_set_state message ProfileStates_city ;;;
     answer EnterCity no_markup)
    (answer InvalidActivity no_markup).

Definition process_city (message : Message) (net : http_outcome) : M unit :=
  let city := text message in
  data <~ state_get_data message ;;
  let weight := data_weight data in
  let height := data_height data in
  let age := data_age data in
  let activity := data_activity data in
  let temp := py_or (get_weather_temp city net) (VFloat f20_0) in
  water_goal <~ lift (w <- operand weight ;; a <- operand activity ;;
                      calculate_water_goal w a temp) ;;
  calorie_goal <~ lift (w <- operand weight ;; h <- operand height ;;
                        g <- operand age ;; a <- operand activity ;;
                        calculate_calorie_goal w h g a) ;;
  (* The two calls have used the four fields: none of them is [None] here. *)
  w <~ lift (operand weight) ;;
  h <~ lift (operand height) ;;
  g <~ lift (operand age) ;;
  a <~ lift (operand activity) ;;
  let p := {| weight := w; height := h; age := g; activity := a;
              city := city; temperature := temp;
              water_goal := water_goal; calorie_goal := calorie_goal;
              logged_water := 0; logged_calories := PInt 0;
              burned_calories := 0 |} in
  user_profiles_set message p ;;;
  state_clear message ;;;
  answer (ProfileSet p) get_main_menu.

Definition cmd_log_water (message : Message) : M unit :=
  user_profile <~ user_profiles_get message ;;
  match user_profile with
  | None => answer SetProfileFirstButton get_main_menu
  | Some _ =>
      state_set_state message LogWaterStates_amount ;;;
      answer EnterWater ReplyKeyboardRemove
  end.

Definition process_log_water (message : Message) : M unit :=
  user_profile <~ user_profiles_get message ;;
  match user_profile with
  | None =>
      state_clear message ;;;
      answer SetProfileFirst get_main_menu
  | Some user_profile =>
      try_except_ValueError
        (amount <~ lift (py_int_of_text (text message)) ;;
         let current := logged_water user_profile + amount in
         user_profiles_set message (with_logged_water current user_profile) ;;;
         let goal := water_goal user_profile in
         let remaining := Z.max (goal - current) 0 in
         state_clear message ;;;
         if remaining <=? 0
         then answer (WaterGoalReached current) get_main_menu
         else answer (WaterLogged amount remaining) get_main_menu)
        (answer InvalidNumber250 no_markup)
  end.

Definition cmd_log_food (message : Message) : M unit :=
  user_profile <~ user_profiles_get message ;;
  match user_profile with
  | None => answer SetProfileFirstButton get_main_menu
  | Some _ =>
      state_set_state message LogFoodStates_food_name ;;;
      answer EnterFoodToLog ReplyKeyboardRemove
  end.

Definition process_log_food_name (message : Message) (net : http_outcome)
  : M unit :=
  match get_food_info (text message) net with
  | Some food_info =>
      state_update_data message (with_current_food food_info) ;;;
      state_set_state message LogFoodStates_food_amount ;;;
      answer (FoodFound food_info) no_markup
  | None => answer FoodNotFound no_markup
  end.

Definition process_log_food_amount (message : Message) : M unit :=
  try_except_ValueError
    (amount <~ lift (py_int_of_text (text message)) ;;
     data <~ state_get_data message ;;
     match data_current_food data with
     | None =>
         state_clear message ;;;
         answer SomethingWentWrong get_main_menu
     | Some food_info =>
         total_calories <~ lift (calories_per_100g <- as_num (calories food_info) ;;
                                 per_gram <- num_truediv calories_per_100g (PInt 100) ;;
                                 num_mul per_gram (PInt amount)) ;;
         user_profile <~ user_profiles_get message ;;
         user_profile <~ lift (match user_profile with
                               | Some p => Ok p
                               | None => Raise KeyError
                               end) ;;
         updated <~ lift (num_add (logged_calories user_profile) total_calories) ;;
         user_profiles_set message (with_logged_calories updated user_profile) ;;;
         state_clear message ;;;
         answer (FoodLogged food_info amount total_calories updated) get_main_menu
     end)
    (answer InvalidNumber150 no_markup).

Definition cmd_check_progress (message : Message) : M unit :=
  user_profile <~ user_profiles_get message ;;
  match user_profile with
  | None => answer SetProfileFirstButton get_main_menu
  | Some user_profile => answer (Progress user_profile) get_main_menu
  end.

Definition cmd_check_food_info (message : Message) : M unit :=
  state_set_state message FoodInfoStates_food_name ;;;
  answer EnterFoodToCheck ReplyKeyboardRemove.

Definition process_food_info (message : Message) (net : http_outcome) : M unit :=
  let food_info := get_food_info (text message) net in
  state_clear message ;;;
  match food_info with
  | Some food_info => answer (ProductInfo food_info) get_main_menu
  | None => answer ProductNotFound get_main_menu
  end.

Definition fallback_handler (message : Message) : M unit :=
  answer DidNotUnderstand get_main_menu.

(** ** The dispatcher

    aiogram offers a message to the handlers in the order of their
    registration and runs the first one whose filter passes.  A handler
    registered with a text or a command filter and no state filter runs in
    every state. *)

Inductive filter : Set :=
| Command_start               (* Command("start") *)
| F_text (s : string)         (* F.text == s *)
| In_state (s : State)        (* a state of a StatesGroup *)
| No_filter.

(** [str.split]: the white space before the first word, and the word. *)
Fixpoint lstrip_ws (l : list N) : list N :=
  match l with
  | c :: r => if Py_UNICODE_ISSPACE c then lstrip_ws r else l
  | [] => []
  end.

Fixpoint take_token (l : list N) : list N :=
  match l with
  | c :: r => if Py_UNICODE_ISSPACE c then [] else c :: take_token r
  | [] => []
  end.

(** The first element of [text.split(maxsplit=1)], when there is one. *)
Definition first_word (l : list N) : option (list N) :=
  match lstrip_ws l with
  | [] => None
  | l' => Some (take_token l')
  end.

(** [s.partition("@")]: what is before the first "@" and what is after
    it. *)
Fixpoint partition_at (l : list N) : list N * list N :=
  match l with
  | [] => ([], [])
  | c :: r =>
      if (c =? 64)%N then ([], r)
      else let '(before, after) := partition_at r in (c :: before, after)
  end.

(** The lower case of a character when it is ASCII: that of an ASCII
    character and of the Kelvin sign.  The lower case of every other
    character has a character that is not ASCII. *)
Definition lower_to_ascii (c : N) : option N :=
  if (c <? 128)%N then
    Some (if ((65 <=? c) && (c <=? 90))%N then c + 32 else c)%N
  else if (c =? 0x212a)%N then Some 107%N
  else None.

Fixpoint lower_ascii (l : list N) : option (list N) :=
  match l with
  | [] => Some []
  | c :: r =>
      match lower_to_ascii c, lower_ascii r with
      | Some c', Some r' => Some (c' :: r')
      | _, _ => None
      end
  end.

(** [validate_mention]: a mention that is not empty is compared, in lower
    case, with the user name of the bot when the bot has one. *)
Definition validate_mention (username : option string) (mention : list N)
  : bool :=
  match mention, username with
  | [], _ | _, None | _, Some EmptyString => true
  | _, Some u =>
      match lower_ascii mention with
      | Some m => bool_decide (Some m = lower_ascii (code_points u))
      | None => false
      end
  end.

(** [message.text or message.caption]. *)
Definition text_or_caption (message : Message) : option string :=
  match text message with
  | Some EmptyString | None => caption message
  | Some s => Some s
  end.

(** aiogram's [Command("start")]: the first word of the text, or of the
    caption, is the prefix "/", the command [start] and possibly "@" and a
    mention that [validate_mention] lets pass. *)
Definition is_start_command (username : option string) (message : Message)
  : bool :=
  match text_or_caption message with
  | Some s =>
      match first_word (code_points s) with
      | Some (prefix :: rest) =>
          let '(command, mention) := partition_at rest in
          (prefix =? 47)%N
          && validate_mention username mention
          && bool_decide (command = code_points "start")
      | _ => false
      end
  | None => false
  end.

(** [F.text == s]. *)
Definition has_text (message : Message) (s : string) : bool :=
  match text message with
  | Some t => String.eqb t s
  | None => false
  end.

Definition passes (username : option string) (f : filter)
  (message : Message) (st : option State) : bool :=
  match f with
  | Command_start => is_start_command username message
  | F_text s => has_text message s
  | In_state s => bool_decide (st = Some s)
  | No_filter => true
  end.

Definition handler : Type := Message -> http_outcome -> M unit.

Definition dp : list (filter * handler) :=
  [ (Command_start, fun m _ => cmd_start m);
    (F_text "Set Profile", fun m _ => cmd_set_profile m);
    (In_state ProfileStates_weight, fun m _ => process_weight m);
    (In_state ProfileStates_height, fun m _ => process_height m);
    (In_state ProfileStates_age, fun m _ => process_age m);
    (In_state ProfileStates_activity, fun m _ => process_activity m);
    (In_state ProfileStates_city, process_city);
    (F_text "Log Water", fun m _ => cmd_log_water m);
    (In_state LogWaterStates_amount, fun m _ => process_log_water m);
    (F_text "Log Food", fun m _ => cmd_log_food m);
    (In_state LogFoodStates_food_name, process_log_food_name);
    (In_state LogFoodStates_food_amount, fun m _ => process_log_food_amount m);
    (F_text "Check Progress", fun m _ => cmd_check_progress m);
    (F_text "Check Food Info", fun m _ => cmd_check_food_info m);
    (In_state FoodInfoStates_food_name, process_food_info);
    (No_filter, fun m _ => fallback_handler m) ].

Fixpoint first_match (hs : list (filter * handler))
  (username : option string) (message : Message) (st : option State)
  : option handler :=
  match hs with
  | [] => None
  | (f, h) :: r =>
      if passes username f message st then Some h
      else first_match r username message st
  end.

Definition dispatch (message : Message) (net : http_outcome) : M unit :=
  fun w =>
    match first_match dp (bot_username w) message
            (state (get_ctx (from_user_id message) w)) with
    | Some h => h message net w
    | None => (Ok tt, w, [])
    end.

(** One turn: an exception that leaves the handler is logged by the framework
    and the bot goes on with the world as the handler left it. *)
Definition step (w : world) (message : Message) (net : http_outcome)
  : world * list reply :=
  let '(_, w', out) := dispatch message net w in (w', out).

Definition event : Type := Message * http_outcome.

(** The world after a sequence of turns. *)
Definition run (w : world) (events : list event) : world :=
  fold_left (fun w ev => fst (step w (fst ev) (snd ev))) events w.

(** The worlds the bot can be in. *)
Inductive reachable : world -> Prop :=
| reachable_startup username : reachable (startup username)
| reachable_step w message net :
    reachable w -> reachable (fst (step w message net)).


(** ** Vocabulary of the statements *)

(** The integer part of a rational: the floor of a value that is not
    negative, the ceiling of a negative one. *)
Definition Qtrunc (q : Q) : Z := if Qle_bool 0 q then Qfloor q else Qceiling q.

(** Adding the int [n] to the float [x] rounds nothing: the conversion of
    [n] and the sum are finite, and the sum is the rational sum. *)
Definition exact_add (x : float) (n : Z) : bool :=
  PyFloat.is_finite (PyFloat.of_Z n)
  && PyFloat.is_finite (PyFloat.add x (PyFloat.of_Z n))
  && Qeq_bool (PyFloat.to_Q (PyFloat.add x (PyFloat.of_Z n)))
              (PyFloat.to_Q x + inject_Z n).

(** A float that carries the sign [s]: a zero, a finite number or an
    infinity, and not [nan]. *)
Definition has_sign (s : bool) (x : float) : Prop :=
  match x with
  | S754_zero s' | S754_infinity s' | S754_finite s' _ _ => s' = s
  | S754_nan => False
  end.

(** What the first word of a command leaves at the head of the transformed
    text once [int] or [float] has skipped its white space: the slash, or
    one of the separators 28 to 31, which [str.split] skips and they do
    not. *)
Definition command_heads : list ascii :=
  [ "/"; "028"; "029"; "030"; "031" ]%char.

(** The logs of a profile are not negative. *)
Definition profile_ok (p : profile) : Prop :=
  0 <= logged_water p /\ num_nonneg (logged_calories p) = true.

(** A looked-up food whose calories are a finite number that is not
    negative. (Calories that are no number make the food-amount step raise
    before it writes anything.) *)
Definition food_ok (f : food_info) : bool :=
  match as_num (calories f) with
  | Ok (PInt z) => 0 <=? z
  | Ok (PFloat x) =>
      PyFloat.nonneg x && PyFloat.is_finite x && PyFloat.valid x
  | Raise _ => true
  end.

Definition data_ok (d : fsm_data) : Prop :=
  forall f, data_current_food d = Some f -> food_ok f = true.

Definition Inv (w : world) : Prop :=
  (forall uid p, user_profiles w !! uid = Some p -> profile_ok p)
  /\ (forall uid c, storage w !! uid = Some c -> data_ok (data c)).

(** A turn that feeds the logs nothing negative: the amount that the water
    or the food-amount step is about to accept is not negative, and the food
    that the food-name step is about to keep is [food_ok]. *)
Definition benign (w : world) (message : Message) (net : http_outcome) : bool :=
  match state (get_ctx (from_user_id message) w) with
  | Some LogWaterStates_amount | Some LogFoodStates_food_amount =>
      match py_int_of_text (text message) with
      | Ok amount => 0 <=? amount
      | Raise _ => true
      end
  | Some LogFoodStates_food_name =>
      match get_food_info (text message) net with
      | Some f => food_ok f
      | None => true
      end
  | _ => true
  end.

Inductive benign_reachable : world -> Prop :=
| benign_startup username : benign_reachable (startup username)
| benign_step w message net :
    benign_reachable w -> benign w message net = true ->
    benign_reachable (fst (step w message net)).

Fixpoint benign_trace (w : world) (events : list event) : bool :=
  match events with
  | [] => true
  | (message, net) :: r =>
      benign w message net && benign_trace (fst (step w message net)) r
  end.

(** The world and the result a computation ends with. *)
Definition post {A} (c : M A) (w : world) : world := snd (fst (c w)).
Definition value {A} (c : M A) (w : world) : result A := fst (fst (c w)).

(** [c] keeps [Inv] and, when it returns, returns a value in [Q]. *)
Definition hoare {A} (c : M A) (Q : A -> Prop) : Prop :=
  forall w, Inv w -> Inv (post c w) /\ forall a, value c w = Ok a -> Q a.

(** ** A conversation used in the examples

    User 7 sets a profile (70 kg, 170 cm, 30 years, 45 minutes) while the
    weather service is down, then asks to log water. *)

(** The world when the example bot starts. *)
Definition initial : world := startup (Some "fit_tracker_bot").

Definition says (uid : Z) (s : string) : Message :=
  {| from_user_id := uid; text := Some s; caption := None |}.

Definition offline (message : Message) : event := (message, TransportFailure).

Definition to_weight : list event := [ offline (says 7 "Set Profile") ].

Definition to_height : list event := to_weight ++ [ offline (says 7 "70") ].

Definition to_city : list event :=
  to_height ++ [ offline (says 7 "170"); offline (says 7 "30");
                 offline (says 7 "45") ].

Definition to_profile : list event := to_city ++ [ offline (says 7 "Oslo") ].

Definition to_water : list event := to_profile ++ [ offline (says 7 "Log Water") ].

Definition oslo_profile : profile :=
  {| weight := PyFloat.of_Z 70; height := PyFloat.of_Z 170; age := 30;
     activity := 45; city := Some "Oslo"; temperature := VFloat f20_0;
     water_goal := 2600; calorie_goal := 1812; logged_water := 0;
     logged_calories := PInt 0; burned_calories := 0 |}.

(** The weather service answers [{"main": {"temp": t}}]. *)
Definition weather (t : pyval) : http_outcome :=
  Response 200 (Some (VDict [("main", VDict [("temp", t)])])).

(** The food service answers [{"products": l}]. *)
Definition products (l : list pyval) : http_outcome :=
  Response 200 (Some (VDict [("products", VList l)])).

(** A benign conversation: 250 ml of water, then 150 g of a food of 52 kcal
    per 100 g. *)
Definition drinks_and_eats : list event :=
  to_water
  ++ [ offline (says 7 "250"); offline (says 7 "Log Food");
       (says 7 "apple",
        products [VDict [("product_name", VStr "Apple");
                         ("nutriments",
                          VDict [("energy-kcal_100g", VInt 52)])]]);
       offline (says 7 "150") ].

(** The float next below 120, which [float] reads from
    ["119.99999999999999"]. *)
Definition just_below_120 : float := S754_finite false 8444249301319679 (-46).

(** ** Vocabulary of the further statements *)

(** The profile that the city step commits for the data [d]. *)
Definition city_profile (d : fsm_data) (city : option string) (temp : pyval)
  : result profile :=
  water_goal <- (w <- operand (data_weight d) ;; a <- operand (data_activity d) ;;
                 calculate_water_goal w a temp) ;;
  calorie_goal <- (w <- operand (data_weight d) ;; h <- operand (data_height d) ;;
                   g <- operand (data_age d) ;; a <- operand (data_activity d) ;;
                   calculate_calorie_goal w h g a) ;;
  w <- operand (data_weight d) ;;
  h <- operand (data_height d) ;;
  g <- operand (data_age d) ;;
  a <- operand (data_activity d) ;;
  Ok {| weight := w; height := h; age := g; activity := a;
        city := city; temperature := temp;
        water_goal := water_goal; calorie_goal := calorie_goal;
        logged_water := 0; logged_calories := PInt 0;
        burned_calories := 0 |}.

(** [(calories_per_100g / 100) * amount] for the food [f]. *)
Definition portion (f : food_info) (amount : Z) : result pynum :=
  calories_per_100g <- as_num (calories f) ;;
  per_gram <- num_truediv calories_per_100g (PInt 100) ;;
  num_mul per_gram (PInt amount).

(** The reply of the water step. *)
Definition water_reply (p : profile) (amount : Z) : reply :=
  let current := logged_water p + amount in
  let remaining := Z.max (water_goal p - current) 0 in
  {| body := if remaining <=? 0 then WaterGoalReached current
             else WaterLogged amount remaining;
     markup := get_main_menu |}.

(** The states that only a user with a profile can be in. *)
Definition needs_profile (s : option State) : bool :=
  match s with
  | Some LogWaterStates_amount | Some LogFoodStates_food_name
  | Some LogFoodStates_food_amount => true
  | _ => false
  end.

(** The data that a state presupposes: each profile step has the answers
    of the steps before it, the food-amount step has the food. *)
Definition data_complete (c : FSMContext) : Prop :=
  match state c with
  | Some ProfileStates_height => is_Some (data_weight (data c))
  | Some ProfileStates_age =>
      is_Some (data_weight (data c)) /\ is_Some (data_height (data c))
  | Some ProfileStates_activity =>
      is_Some (data_weight (data c)) /\ is_Some (data_height (data c))
      /\ is_Some (data_age (data c))
  | Some ProfileStates_city =>
      is_Some (data_weight (data c)) /\ is_Some (data_height (data c))
      /\ is_Some (data_age (data c)) /\ is_Some (data_activity (data c))
  | Some LogFoodStates_food_amount => is_Some (data_current_food (data c))
  | _ => True
  end.

(** The goals of a profile are the goals of its fields, its temperature is
    not falsy and nothing was ever burned. *)
Definition profile_consistent (p : profile) : Prop :=
  calculate_water_goal (weight p) (activity p) (temperature p)
  = Ok (water_goal p)
  /\ calculate_calorie_goal (weight p) (height p) (age p) (activity p)
     = Ok (calorie_goal p)
  /\ truthy (temperature p) = true
  /\ burned_calories p = 0.

Definition user_ok (c : FSMContext) (o : option profile) : Prop :=
  data_complete c
  /\ (needs_profile (state c) = true -> is_Some o)
  /\ (forall p, o = Some p -> profile_consistent p).

Definition Good (w : world) : Prop :=
  forall uid, user_ok (get_ctx uid w) (user_profiles w !! uid).

(** Pressing "Log Water" and answering with each text of [texts] in turn. *)
Definition water_turns (uid : Z) (net : http_outcome) (texts : list string)
  : list event :=
  flat_map (fun s => [ (says uid "Log Water", net); (says uid s, net) ]) texts.

Definition sum_Z (l : list Z) : Z := fold_right Z.add 0 l.

(** The texts of the buttons of [get_main_menu] (lines 88-98). *)
Definition main_menu_buttons : list string :=
  [ "Set Profile"; "Log Water"; "Log Food"; "Check Food Info";
    "Check Progress" ].

(** The handler that [dp] registers for a state. *)
Definition state_handler (s : State) : handler :=
  match s with
  | ProfileStates_weight => fun m _ => process_weight m
  | ProfileStates_height => fun m _ => process_height m
  | ProfileStates_age => fun m _ => process_age m
  | ProfileStates_activity => fun m _ => process_activity m
  | ProfileStates_city => process_city
  | LogWaterStates_amount => fun m _ => process_log_water m
  | LogFoodStates_food_name => process_log_food_name
  | LogFoodStates_food_amount => fun m _ => process_log_food_amount m
  | FoodInfoStates_food_name => process_food_info
  end.

(** The handler that [dp] registers for a state and, for no state, the
    handler it registers without a filter. *)
Definition handler_for (st : option State) : handler :=
  match st with
  | Some s => state_handler s
  | None => fun m _ => fallback_handler m
  end.

(** The handler that [dp] registers for the text of a button. *)
Definition button_handler (b : string) : Message -> M unit :=
  if String.eqb b "Set Profile" then cmd_set_profile
  else if String.eqb b "Log Water" then cmd_log_water
  else if String.eqb b "Log Food" then cmd_log_food
  else if String.eqb b "Check Progress" then cmd_check_progress
  else cmd_check_food_info.

(** The button texts whose handlers main.py registers before the handler
    of the state; with no state, before the fallback handler. *)
Definition buttons_before (st : option State) : list string :=
  match st with
  | Some ProfileStates_weight | Some ProfileStates_height
  | Some ProfileStates_age | Some ProfileStates_activity
  | Some ProfileStates_city => [ "Set Profile" ]
  | Some LogWaterStates_amount => [ "Set Profile"; "Log Water" ]
  | Some LogFoodStates_food_name | Some LogFoodStates_food_amount =>
      [ "Set Profile"; "Log Water"; "Log Food" ]
  | Some FoodInfoStates_food_name | None =>
      [ "Set Profile"; "Log Water"; "Log Food"; "Check Progress";
        "Check Food Info" ]
  end.

(** A message that is left to the handler of the state [st]: it is no
    [/start] command and its text is none of [buttons_before st]. *)
Definition for_state (username : option string) (message : Message)
  (st : option State) : bool :=
  negb (is_start_command username message)
  && forallb (fun b => negb (has_text message b)) (buttons_before st).

(** The exceptions that leave a handler. *)
Definition handler_exn (e : exn) : bool :=
  match e with
  | ValueError | TypeError | OverflowError => true
  | _ => false
  end.

(** [c] returns, or raises one of the exceptions of [P]. *)
Definition raises_only {A} (P : exn -> bool) (c : result A) : Prop :=
  match c with
  | Ok _ => True
  | Raise e => P e = true
  end.

(** The states of the profile dialogue. *)
Definition profile_state (s : State) : bool :=
  match s with
  | ProfileStates_weight | ProfileStates_height | ProfileStates_age
  | ProfileStates_activity | ProfileStates_city => true
  | _ => false
  end.

(** The user [uid] sends the texts of [l], one after the other. *)
Definition says_all (uid : Z) (net : http_outcome) (l : list string)
  : list event :=
  map (fun s => (says uid s, net)) l.

(** What of a profile the logging steps leave alone. *)
Definition settings (p : profile)
  : float * float * Z * Z * option string * pyval * Z * Z * Z :=
  (weight p, height p, age p, activity p, city p, temperature p,
   water_goal p, calorie_goal p, burned_calories p).

(** Whether the step of state [st] reads the text [s] as its number; the
    steps that take a name read every text. *)
Definition reads_number (st : State) (s : string) : bool :=
  match st with
  | ProfileStates_weight | ProfileStates_height =>
      bool_decide (is_Some (parse_float s))
  | ProfileStates_age | ProfileStates_activity | LogWaterStates_amount
  | LogFoodStates_food_amount => bool_decide (is_Some (parse_int s))
  | _ => true
  end.

(** The reply of the step of state [st] to a text that is not a number. *)
Definition retry_reply (st : State) : reply_text :=
  match st with
  | ProfileStates_weight => InvalidWeight
  | ProfileStates_height => InvalidHeight
  | ProfileStates_age => InvalidAge
  | ProfileStates_activity => InvalidActivity
  | LogWaterStates_amount => InvalidNumber250
  | _ => InvalidNumber150
  end.
(** * Part II: facts *)

(** ** Truncation and the rational value of a float *)

Lemma pow2_pos (p : positive) : Zpos (2 ^ p) = 2 ^ Zpos p.
Proof. apply Pos2Z.inj_pow. Qed.

Lemma Qtrunc_inject_Z (k : Z) : Qtrunc (inject_Z k) = k.
Proof.
  unfold Qtrunc. destruct (Qle_bool 0 (inject_Z k)).
  - apply Qfloor_Z.
  - apply Qceiling_Z.
Qed.

Lemma Qtrunc_frac (s : bool) (m d : positive) :
  Qtrunc (cond_Zopp s (Zpos m) # d) = cond_Zopp s (Zpos m / Zpos d).
Proof.
  unfold Qtrunc, Qle_bool, Qceiling, Qfloor, Qopp. destruct s; simpl Qnum; simpl Qden; simpl cond_Zopp.
  - destruct (Z.leb_spec (0 * Zpos d) (Zneg m * 1)); [lia|]. rewrite Z.opp_involutive.
    reflexivity.
  - destruct (Z.leb_spec (0 * Zpos d) (Zpos m * 1)); [|lia]. reflexivity.
Qed.

Lemma trunc_Qtrunc (x : float) : PyFloat.trunc x = Qtrunc (PyFloat.to_Q x).
Proof.
  destruct x as [s | s | | s m e]; try reflexivity.
  unfold PyFloat.trunc, PyFloat.to_Q.
  destruct e as [| e | e].
  - rewrite Qtrunc_inject_Z, Z.shiftl_mul_pow2 by lia. now destruct s.
  - rewrite Qtrunc_inject_Z, Z.shiftl_mul_pow2 by lia. destruct s; simpl; lia.
  - rewrite Qtrunc_frac, Z.shiftr_div_pow2, pow2_pos by lia. reflexivity.
Qed.

Lemma Qfloor_plus_Z (q : Q) (n : Z) : Qfloor (q + inject_Z n) = Qfloor q + n.
Proof.
  destruct q as [a b]. unfold Qfloor, Qplus, inject_Z. simpl Qnum; simpl Qden.
  rewrite Pos.mul_1_r, Z.mul_1_r. apply Z.div_add. lia.
Qed.

Lemma trunc_nonneg (x : float) :
  (0 <= PyFloat.to_Q x)%Q -> PyFloat.trunc x = Qfloor (PyFloat.to_Q x).
Proof.
  intros H. rewrite trunc_Qtrunc. unfold Qtrunc.
  apply Qle_bool_iff in H. now rewrite H.
Qed.

(** ** Signs of rounded results *)

Lemma shr_1_nonneg mrs : 0 <= shr_m mrs -> 0 <= shr_m (shr_1 mrs).
Proof.
  destruct mrs as [m r s]. simpl.
  destruct m as [| [p | p |] | p]; simpl; lia.
Qed.

Lemma iter_shr_1_nonneg p : forall mrs,
  0 <= shr_m mrs -> 0 <= shr_m (SpecFloat.iter_pos shr_1 p mrs).
Proof.
  induction p as [p IH | p IH |]; intros mrs H; simpl.
  - apply IH, IH, shr_1_nonneg, H.
  - apply IH, IH, H.
  - apply shr_1_nonneg, H.
Qed.

Lemma shr_fexp_nonneg m e l :
  0 <= m -> 0 <= shr_m (fst (shr_fexp PyFloat.prec PyFloat.emax m e l)).
Proof.
  intros H. unfold shr_fexp, shr.
  assert (H0 : 0 <= shr_m (shr_record_of_loc m l))
    by (destruct l as [| []]; exact H).
  destruct (fexp _ _ _ - e); simpl; auto using iter_shr_1_nonneg.
Qed.

Lemma round_nearest_even_nonneg m l : 0 <= m -> 0 <= round_nearest_even m l.
Proof.
  intros H. destruct l as [| []]; simpl; try lia.
  destruct (Z.even m); lia.
Qed.

Lemma binary_round_aux_sign s m e l :
  0 <= m -> has_sign s (binary_round_aux PyFloat.prec PyFloat.emax s m e l).
Proof.
  intros H. unfold binary_round_aux.
  pose proof (shr_fexp_nonneg m e l H) as H1.
  destruct (shr_fexp _ _ m e l) as [mrs' e']. simpl in H1.
  pose proof (shr_fexp_nonneg _ e' loc_Exact
                (round_nearest_even_nonneg _ (loc_of_shr_record mrs') H1)) as H2.
  destruct (shr_fexp _ _ (round_nearest_even _ _) e' loc_Exact) as [mrs'' e''].
  simpl in H2.
  destruct (shr_m mrs'') as [| q | q]; simpl; try reflexivity; try lia.
  destruct (e'' <=? _); reflexivity.
Qed.

Lemma binary_round_sign s m e :
  has_sign s (binary_round PyFloat.prec PyFloat.emax s m e).
Proof.
  unfold binary_round. destruct (shl_align _ _ _) as [mz ez].
  apply binary_round_aux_sign. lia.
Qed.

Lemma has_sign_nonneg x : has_sign false x -> PyFloat.nonneg x = true.
Proof. destruct x as [| [] | | [] ? ?]; simpl; congruence || tauto. Qed.

Lemma of_Z_nonneg n : 0 <= n -> PyFloat.nonneg (PyFloat.of_Z n) = true.
Proof.
  intros H. unfold PyFloat.of_Z, binary_normalize.
  destruct n as [| p | p]; try lia; try reflexivity.
  apply has_sign_nonneg, binary_round_sign.
Qed.

Lemma add_nonneg x y :
  PyFloat.nonneg x = true -> PyFloat.nonneg y = true ->
  PyFloat.nonneg (PyFloat.add x y) = true.
Proof.
  destruct x as [sx | [] | | [] mx ex]; try discriminate;
    destruct y as [sy | [] | | [] my ey]; try discriminate; intros _ _;
    try reflexivity; try (destruct sx; reflexivity).
  - destruct sx, sy; reflexivity.
  - unfold PyFloat.add, SFadd, binary_normalize. simpl cond_Zopp.
    apply has_sign_nonneg, binary_round_sign.
Qed.

Lemma mul_nonneg x y :
  PyFloat.nonneg x = true -> PyFloat.nonneg y = true ->
  PyFloat.is_finite x = true -> PyFloat.is_finite y = true ->
  PyFloat.nonneg (PyFloat.mul x y) = true.
Proof.
  destruct x as [sx | [] | | [] mx ex]; try discriminate;
    destruct y as [sy | [] | | [] my ey]; try discriminate; intros _ _ _ _;
    try reflexivity.
  apply has_sign_nonneg. unfold PyFloat.mul, SFmul. simpl xorb.
  apply binary_round_aux_sign. lia.
Qed.

(** A positive weight times a positive finite constant. *)
Lemma mul_positive_nonneg x m e :
  PyFloat.is_positive x = true ->
  PyFloat.nonneg (PyFloat.mul x (S754_finite false m e)) = true.
Proof.
  destruct x as [sx | [] | | [] mx ex]; try discriminate; intros _;
    try reflexivity.
  apply has_sign_nonneg. unfold PyFloat.mul, SFmul. simpl xorb.
  apply binary_round_aux_sign. lia.
Qed.

Lemma div_nonneg x m e :
  PyFloat.nonneg x = true -> PyFloat.is_finite x = true ->
  PyFloat.nonneg (PyFloat.div x (S754_finite false m e)) = true.
Proof.
  destruct x as [sx | [] | | [] mx ex]; try discriminate; intros _ _;
    try reflexivity.
  apply has_sign_nonneg. unfold PyFloat.div, SFdiv. simpl xorb.
  unfold SFdiv_core_binary.
  match goal with |- context [Z.div_eucl ?a ?b] =>
    pose proof (Z_div_mod a b eq_refl) as Hd;
    assert (Ha : 0 <= a); [| destruct (Z.div_eucl a b) as [q r] ] end.
  - destruct (_ - _ - _); try lia. apply Z.shiftl_nonneg. lia.
  - apply binary_round_aux_sign. nia.
Qed.

Lemma of_ratio_nonneg a b :
  0 <= a -> 0 < b -> PyFloat.nonneg (PyFloat.of_ratio false a b) = true.
Proof.
  intros Ha Hb. unfold PyFloat.of_ratio.
  destruct (a =? 0); [reflexivity|].
  unfold SFdiv_core_binary.
  match goal with |- context [Z.div_eucl ?a ?b] =>
    pose proof (Z_div_mod a b ltac:(lia)) as Hd;
    assert (Ha' : 0 <= a); [| destruct (Z.div_eucl a b) as [q r] ] end.
  - destruct (_ - _ - _); try lia. apply Z.shiftl_nonneg. lia.
  - apply has_sign_nonneg, binary_round_aux_sign. nia.
Qed.

Lemma to_Q_nonneg x : PyFloat.nonneg x = true -> (0 <= PyFloat.to_Q x)%Q.
Proof.
  destruct x as [sx | [] | | [] m e]; try discriminate; intros _;
    try apply Qle_refl.
  unfold PyFloat.to_Q. simpl cond_Zopp.
  destruct e; unfold Qle; simpl; try lia.
Qed.

Lemma to_Q_finite_pos m e : (0 < PyFloat.to_Q (S754_finite false m e))%Q.
Proof.
  unfold PyFloat.to_Q, Qlt. simpl cond_Zopp.
  destruct e as [| p | p]; simpl Qnum; simpl Qden; try lia;
    pose proof (Z.pow_pos_nonneg 2 (Zpos p)); lia.
Qed.

Lemma to_Q_finite_neg m e : (PyFloat.to_Q (S754_finite true m e) < 0)%Q.
Proof.
  unfold PyFloat.to_Q, Qlt. simpl cond_Zopp.
  destruct e as [| p | p]; simpl Qnum; simpl Qden; try lia;
    pose proof (Z.pow_pos_nonneg 2 (Zpos p)); lia.
Qed.

(** On floats, [num_nonneg] is [PyFloat.nonneg]. *)
Lemma num_nonneg_float x : num_nonneg (PFloat x) = PyFloat.nonneg x.
Proof.
  destruct x as [sx | [] | | [] m e]; try reflexivity.
  - pose proof (to_Q_finite_neg m e) as H. apply Qlt_alt in H.
    change (num_nonneg (PFloat (S754_finite true m e)))
      with (match (PyFloat.to_Q (S754_finite true m e) ?= 0)%Q with
            | Gt | Eq => true
            | Lt => false
            end).
    unfold Qcompare in *. now rewrite H.
  - pose proof (to_Q_finite_pos m e) as H. apply Qgt_alt in H.
    change (num_nonneg (PFloat (S754_finite false m e)))
      with (match (PyFloat.to_Q (S754_finite false m e) ?= 0)%Q with
            | Gt | Eq => true
            | Lt => false
            end).
    unfold Qcompare in *. now rewrite H.
Qed.

(** ** Division by a hundred does not overflow *)

Lemma digits2_pos_size (p : positive) : digits2_pos p = Pos.size p.
Proof. induction p; simpl; congruence. Qed.

Lemma Zdigits2_lt (m : Z) : 0 <= m -> m < 2 ^ Zdigits2 m.
Proof.
  destruct m as [| p | p]; intros H; try lia; cbn [Zdigits2].
  - reflexivity.
  - rewrite digits2_pos_size, <- Pos2Z.inj_pow. apply Pos2Z.pos_lt_pos, Pos.size_gt.
Qed.

Lemma Zdigits2_nonneg (m : Z) : 0 <= Zdigits2 m.
Proof. destruct m; simpl; lia. Qed.

(** A number below [2 ^ k] has at most [k] digits. *)
Lemma Zdigits2_le (m k : Z) : 0 <= m < 2 ^ k -> 0 <= k -> Zdigits2 m <= k.
Proof.
  intros [H0 H1] Hk. destruct m as [| p | p]; cbn [Zdigits2]; try lia.
  rewrite digits2_pos_size.
  destruct (Z.le_gt_cases (Zpos (Pos.size p)) k) as [H | H]; [exact H|].
  exfalso.
  pose proof (Pos.size_le p) as Hs.
  assert (H2 : 2 ^ Zpos (Pos.size p) <= 2 * Zpos p).
  { rewrite <- Pos2Z.inj_pow. change (2 * Zpos p) with (Zpos p~0).
    apply Pos2Z.pos_le_pos, Hs. }
  assert (H3 : 2 ^ (k + 1) <= 2 ^ Zpos (Pos.size p))
    by (apply Z.pow_le_mono_r; lia).
  rewrite Z.pow_add_r in H3 by lia. lia.
Qed.

Lemma shr_1_div2 mrs : 0 <= shr_m mrs -> shr_m (shr_1 mrs) = shr_m mrs / 2.
Proof.
  destruct mrs as [m r s]. simpl. intros H.
  destruct m as [| [p | p |] | p]; try lia; simpl shr_m.
  - reflexivity.
  - rewrite Pos2Z.inj_xI. apply (Z.div_unique _ _ _ 1); lia.
  - rewrite Pos2Z.inj_xO. apply (Z.div_unique _ _ _ 0); lia.
  - reflexivity.
Qed.

Lemma iter_shr_1_div p : forall mrs,
  0 <= shr_m mrs ->
  shr_m (SpecFloat.iter_pos shr_1 p mrs) = shr_m mrs / 2 ^ Zpos p.
Proof.
  induction p as [p IH | p IH |]; intros mrs H; simpl SpecFloat.iter_pos.
  - assert (Hp : 0 < 2 ^ Zpos p) by (apply Z.pow_pos_nonneg; lia).
    rewrite IH, IH, shr_1_div2 by auto using iter_shr_1_nonneg, shr_1_nonneg.
    rewrite (Pos2Z.inj_xI p), Z.pow_add_r, Z.pow_twice_r by lia.
    rewrite (Z.div_div (shr_m mrs / 2)), Z.div_div by nia.
    f_equal. change (2 ^ 1) with 2. lia.
  - assert (Hp : 0 < 2 ^ Zpos p) by (apply Z.pow_pos_nonneg; lia).
    rewrite IH, IH by auto using iter_shr_1_nonneg.
    rewrite (Pos2Z.inj_xO p), Z.pow_twice_r, Z.div_div by lia. reflexivity.
  - rewrite shr_1_div2 by exact H. reflexivity.
Qed.

Lemma fexp_eq (k : Z) :
  fexp PyFloat.prec PyFloat.emax k = Z.max (k - 53) (-1074).
Proof. reflexivity. Qed.

Lemma shr_record_of_loc_m m l : shr_m (shr_record_of_loc m l) = m.
Proof. destruct l as [| []]; reflexivity. Qed.

(** What [shr_fexp] does to the mantissa and the exponent. *)
Lemma shr_fexp_spec m e l :
  0 <= m ->
  let n := fexp PyFloat.prec PyFloat.emax (Zdigits2 m + e) - e in
  let r := shr_fexp PyFloat.prec PyFloat.emax m e l in
  (0 < n -> snd r = e + n /\ shr_m (fst r) = m / 2 ^ n)
  /\ (n <= 0 -> snd r = e /\ shr_m (fst r) = m).
Proof.
  intros Hm n r. unfold r, shr_fexp, shr. fold n.
  destruct n as [| p | p]; split; intros Hn; try lia; simpl fst; simpl snd;
    rewrite ?iter_shr_1_div, ?shr_record_of_loc_m;
    rewrite ?shr_record_of_loc_m; auto.
Qed.

Lemma Zdigits2_div_pow2 m n k :
  0 <= m -> 0 < n -> Zdigits2 m <= k ->
  Zdigits2 (m / 2 ^ n) + n <= Z.max k n.
Proof.
  intros Hm Hn Hk.
  assert (Hp : 0 < 2 ^ n) by (apply Z.pow_pos_nonneg; lia).
  pose proof (Zdigits2_lt m Hm) as Hlt.
  pose proof (Zdigits2_nonneg m) as Hd.
  destruct (Z.le_gt_cases n (Zdigits2 m)) as [H | H].
  - assert (Zdigits2 (m / 2 ^ n) <= Zdigits2 m - n); [|lia].
    apply Zdigits2_le; [|lia]. split; [apply Z.div_pos; lia|].
    apply Z.div_lt_upper_bound; [lia|].
    rewrite <- Z.pow_add_r by lia. now replace (n + (Zdigits2 m - n)) with (Zdigits2 m) by lia.
  - rewrite Z.div_small; [simpl; lia|]. split; [lia|].
    apply Z.lt_le_trans with (2 ^ Zdigits2 m); [exact Hlt|].
    apply Z.pow_le_mono_r; lia.
Qed.

Lemma Zdigits2_succ m k :
  0 <= m -> 0 <= k -> Zdigits2 m <= k -> Zdigits2 (m + 1) <= k + 1.
Proof.
  intros Hm Hk Hd. apply Zdigits2_le; [|lia]. split; [lia|].
  pose proof (Zdigits2_lt m Hm) as Hlt.
  assert (2 ^ Zdigits2 m <= 2 ^ k) by (apply Z.pow_le_mono_r; lia).
  rewrite Z.pow_add_r by lia. change (2 ^ 1) with 2. lia.
Qed.

Lemma round_nearest_even_digits m l k :
  0 <= m -> 0 <= k -> Zdigits2 m <= k ->
  Zdigits2 (round_nearest_even m l) <= k + 1.
Proof.
  intros Hm Hk Hd. destruct l as [| []]; simpl; try lia;
    try (apply Zdigits2_succ; assumption).
  destruct (Z.even m); [lia | now apply Zdigits2_succ].
Qed.

(** A rounded value below [2 ^ 1023] at an exponent in range is finite. *)
Lemma binary_round_aux_finite s m e l B :
  0 <= m -> Zdigits2 m + e <= B -> e <= 971 -> B <= 1023 ->
  PyFloat.is_finite (binary_round_aux PyFloat.prec PyFloat.emax s m e l) = true.
Proof.
  intros Hm Hd He HB. unfold binary_round_aux.
  pose proof (Zdigits2_nonneg m) as Hdm.
  pose proof (shr_fexp_spec m e l Hm) as [S1 S2].
  pose proof (shr_fexp_nonneg m e l Hm) as N1.
  rewrite fexp_eq in S1, S2.
  destruct (shr_fexp _ _ m e l) as [mrs' e1]. simpl fst in *; simpl snd in *.
  set (m1 := round_nearest_even (shr_m mrs') (loc_of_shr_record mrs')).
  assert (Hm1 : 0 <= m1) by (apply round_nearest_even_nonneg, N1).
  assert (He1 : e1 <= 971 /\ Zdigits2 (shr_m mrs') + e1 <= Z.max B e1
                /\ e <= e1).
  { destruct (Z.lt_ge_cases 0 (Z.max (Zdigits2 m + e - 53) (-1074) - e))
      as [Hn | Hn].
    - destruct (S1 Hn) as [-> ->]. split; [lia|]. split; [|lia].
      pose proof (Zdigits2_div_pow2 m _ (Zdigits2 m) Hm Hn (Z.le_refl _)).
      lia.
    - destruct (S2 Hn) as [-> ->]. lia. }
  destruct He1 as (He1 & Hd1 & Hle).
  assert (Hdm1 : Zdigits2 m1 + e1 <= 1024).
  { pose proof (Zdigits2_nonneg (shr_m mrs')).
    pose proof (round_nearest_even_digits (shr_m mrs') (loc_of_shr_record mrs')
                  (Zdigits2 (shr_m mrs')) N1 ltac:(lia) (Z.le_refl _)).
    fold m1 in H0. lia. }
  pose proof (shr_fexp_spec m1 e1 loc_Exact Hm1) as [T1 T2].
  pose proof (shr_fexp_nonneg m1 e1 loc_Exact Hm1) as N2.
  rewrite fexp_eq in T1, T2.
  destruct (shr_fexp _ _ m1 e1 loc_Exact) as [mrs'' e2].
  simpl fst in *; simpl snd in *.
  assert (He2 : e2 <= 971).
  { destruct (Z.lt_ge_cases 0 (Z.max (Zdigits2 m1 + e1 - 53) (-1074) - e1))
      as [Hn | Hn].
    - destruct (T1 Hn) as [-> _]. lia.
    - destruct (T2 Hn) as [-> _]. lia. }
  destruct (shr_m mrs'') as [| q | q]; try reflexivity; [|lia].
  change (PyFloat.emax - PyFloat.prec) with 971.
  destruct (Z.leb_spec e2 971); [reflexivity | lia].
Qed.

Lemma valid_finite_bounds s m e :
  valid_binary PyFloat.prec PyFloat.emax (S754_finite s m e) = true ->
  Zpos (digits2_pos m) <= 53 /\ e <= 971.
Proof.
  unfold valid_binary, bounded, canonical_mantissa. intros H.
  apply andb_prop in H as [H1 H2].
  apply Z.eqb_eq in H1. apply Z.leb_le in H2. rewrite fexp_eq in H1.
  change (PyFloat.emax - PyFloat.prec) with 971 in H2. lia.
Qed.

(** A hundredth of a finite binary64 number is finite. *)
Lemma div_100_finite (x : float) :
  PyFloat.valid x = true ->
  PyFloat.is_finite x = true ->
  PyFloat.is_finite (PyFloat.div x (PyFloat.of_Z 100)) = true.
Proof.
  intros Hv Hf.
  change (PyFloat.of_Z 100) with (S754_finite false 7036874417766400 (-46)).
  destruct x as [sx | sx | | sx mx ex]; try discriminate; [reflexivity|].
  destruct (valid_finite_bounds sx mx ex Hv) as [Hd He].
  unfold PyFloat.div, SFdiv, SFdiv_core_binary.
  change (Zdigits2 (Zpos 7036874417766400)) with 53.
  cbn [Zdigits2]. rewrite fexp_eq.
  set (d1 := Zpos (digits2_pos mx)) in *.
  set (e' := Z.min (Z.max (d1 + ex - (53 + -46) - 53) (-1074)) (ex - -46)).
  set (m' := match ex - -46 - e' with
             | 0 => Zpos mx
             | Zpos _ => Z.shiftl (Zpos mx) (ex - -46 - e')
             | Zneg _ => 0
             end).
  assert (Hs : 0 <= ex - -46 - e') by (unfold e'; lia).
  assert (Hm' : m' = Zpos mx * 2 ^ (ex - -46 - e')).
  { unfold m'. destruct (ex - -46 - e') as [| p | p] eqn:E; try lia.
    - now rewrite Z.shiftl_mul_pow2 by lia. }
  assert (Hmx : Zpos mx < 2 ^ d1).
  { unfold d1. exact (Zdigits2_lt (Zpos mx) ltac:(lia)). }
  pose proof (Z_div_mod m' 7036874417766400 eq_refl) as Hdiv.
  destruct (Z.div_eucl m' 7036874417766400) as [q r].
  destruct Hdiv as [Hq Hr].
  assert (Hp : 0 < 2 ^ (ex - -46 - e')) by (apply Z.pow_pos_nonneg; lia).
  assert (Hq0 : 0 <= q) by nia.
  apply (binary_round_aux_finite _ q e' _ (Z.max (d1 + ex - 6) e'));
    [exact Hq0 | | unfold e'; lia | unfold e'; lia].
  assert (Hq1 : q * 2 ^ 52 < 2 ^ (d1 + (ex - -46 - e'))).
  { rewrite Z.pow_add_r by (unfold d1; lia).
    change (2 ^ 52) with 4503599627370496. nia. }
  destruct (Z.le_gt_cases 52 (d1 + (ex - -46 - e'))) as [H | H].
  - assert (Zdigits2 q <= d1 + (ex - -46 - e') - 52); [|lia].
    apply Zdigits2_le; [|lia]. split; [exact Hq0|].
    replace (d1 + (ex - -46 - e')) with (d1 + (ex - -46 - e') - 52 + 52)
      in Hq1 by lia.
    rewrite Z.pow_add_r in Hq1 by lia. nia.
  - assert (q = 0); [|subst q; simpl; lia].
    assert (2 ^ (d1 + (ex - -46 - e')) <= 2 ^ 52)
      by (apply Z.pow_le_mono_r; lia).
    nia.
Qed.

(** ** Mixed arithmetic *)

Lemma to_float_int n :
  PyFloat.is_finite (PyFloat.of_Z n) = true ->
  to_float (PInt n) = Ok (PyFloat.of_Z n).
Proof. intros H. unfold to_float. now rewrite H. Qed.

Lemma num_mul_float_int x n :
  PyFloat.is_finite (PyFloat.of_Z n) = true ->
  num_mul (PFloat x) (PInt n) = Ok (PFloat (PyFloat.mul x (PyFloat.of_Z n))).
Proof.
  intros H. unfold num_mul, float_binop. rewrite (to_float_int n H). reflexivity.
Qed.

Lemma num_add_float_int x n :
  PyFloat.is_finite (PyFloat.of_Z n) = true ->
  num_add (PFloat x) (PInt n) = Ok (PFloat (PyFloat.add x (PyFloat.of_Z n))).
Proof.
  intros H. unfold num_add, float_binop. rewrite (to_float_int n H). reflexivity.
Qed.

Lemma py_int_finite x :
  PyFloat.is_finite x = true -> py_int (PFloat x) = Ok (PyFloat.trunc x).
Proof. destruct x; simpl; congruence. Qed.

Lemma exact_add_spec x n :
  exact_add x n = true ->
  PyFloat.is_finite (PyFloat.of_Z n) = true
  /\ PyFloat.is_finite (PyFloat.add x (PyFloat.of_Z n)) = true
  /\ (PyFloat.to_Q (PyFloat.add x (PyFloat.of_Z n)) == PyFloat.to_Q x + inject_Z n)%Q.
Proof.
  unfold exact_add. intros H.
  apply andb_prop in H as [H H3]. apply andb_prop in H as [H1 H2].
  apply Qeq_bool_iff in H3. auto.
Qed.

Lemma exact_add_0 x : PyFloat.is_finite x = true -> exact_add x 0 = true.
Proof.
  intros H. unfold exact_add.
  assert (E : PyFloat.to_Q (PyFloat.add x (PyFloat.of_Z 0)) = PyFloat.to_Q x).
  { destruct x as [[] | | | ]; try discriminate; reflexivity. }
  assert (F : PyFloat.is_finite (PyFloat.add x (PyFloat.of_Z 0)) = true).
  { destruct x as [[] | | | ]; try discriminate; reflexivity. }
  rewrite F, E. simpl. apply Qeq_bool_iff. rewrite Qplus_0_r. reflexivity.
Qed.

Lemma Qplus_Z_nonneg (q : Q) (n : Z) :
  (0 <= q)%Q -> 0 <= n -> (0 <= q + inject_Z n)%Q.
Proof.
  destruct q as [a b]. unfold Qle, Qplus. simpl Qnum; simpl Qden. nia.
Qed.

(** A finite sum, difference or product has finite operands. *)
Lemma add_finite (x y : float) :
  PyFloat.is_finite (PyFloat.add x y) = true ->
  PyFloat.is_finite x = true /\ PyFloat.is_finite y = true.
Proof.
  destruct x as [[] | [] | | ? ? ?], y as [[] | [] | | ? ? ?];
    try discriminate; auto.
Qed.

Lemma sub_finite (x y : float) :
  PyFloat.is_finite (PyFloat.sub x y) = true ->
  PyFloat.is_finite x = true /\ PyFloat.is_finite y = true.
Proof.
  destruct x as [[] | [] | | ? ? ?], y as [[] | [] | | ? ? ?];
    try discriminate; auto.
Qed.

Lemma mul_finite (x y : float) :
  PyFloat.is_finite (PyFloat.mul x y) = true ->
  PyFloat.is_finite x = true /\ PyFloat.is_finite y = true.
Proof.
  destruct x as [[] | [] | | ? ? ?], y as [[] | [] | | ? ? ?];
    try discriminate; auto.
Qed.

(** ** The goal calculators *)

(** C1, as amended. For a weight above zero and an activity that is not
    negative, when adding the activity bonus to [weight * 30] rounds
    nothing: for every numeric temperature for which adding the heat bonus
    rounds nothing either, [calculate_water_goal] returns
    [floor(weight * 30) + (activity_minutes // 30) * 500 + heat], the heat
    bonus being 500 above 25 degrees and 0 otherwise; and with the default
    temperature 20.0 it returns
    [floor(weight * 30) + (activity_minutes // 30) * 500]. *)
Theorem calculate_water_goal_exact (weight : float) (activity_minutes : Z) :
  PyFloat.is_positive weight = true ->
  0 <= activity_minutes ->
  let base := PyFloat.mul weight (PyFloat.of_Z 30) in
  let bonus := activity_minutes / 30 * 500 in
  exact_add base bonus = true ->
  (forall (temperature : pyval) (t : pynum),
      as_num temperature = Ok t ->
      let heat := if num_gt t (PInt 25) then 500 else 0 in
      exact_add (PyFloat.add base (PyFloat.of_Z bonus)) heat = true ->
      calculate_water_goal weight activity_minutes temperature
      = Ok (Qfloor (PyFloat.to_Q base) + bonus + heat))
  /\ calculate_water_goal weight activity_minutes (VFloat f20_0)
     = Ok (Qfloor (PyFloat.to_Q base) + bonus).
Proof.
  intros Hw Ha base bonus H1.
  assert (G : forall temperature t,
             as_num temperature = Ok t ->
             let heat := if num_gt t (PInt 25) then 500 else 0 in
             exact_add (PyFloat.add base (PyFloat.of_Z bonus)) heat = true ->
             calculate_water_goal weight activity_minutes temperature
             = Ok (Qfloor (PyFloat.to_Q base) + bonus + heat)).
  { intros temperature t Ht heat H2.
    apply exact_add_spec in H1 as (F1 & G1 & E1).
    apply exact_add_spec in H2 as (F2 & G2 & E2).
    unfold calculate_water_goal, water_sum.
    rewrite num_mul_float_int by reflexivity. cbn [bind].
    rewrite Ht. cbn [bind]. fold base. fold bonus. fold heat.
    rewrite (num_add_float_int base bonus F1). cbn [bind].
    rewrite (num_add_float_int _ heat F2). cbn [bind].
    rewrite (py_int_finite _ G2). f_equal.
    assert (Hb : (0 <= PyFloat.to_Q base)%Q).
    { apply to_Q_nonneg. unfold base. apply mul_positive_nonneg, Hw. }
    assert (Hbonus : 0 <= bonus).
    { unfold bonus. apply Z.mul_nonneg_nonneg; [apply Z.div_pos|]; lia. }
    assert (Hheat : 0 <= heat) by (unfold heat; destruct (num_gt _ _); lia).
    rewrite trunc_nonneg.
    - rewrite E2, E1, !Qfloor_plus_Z. reflexivity.
    - rewrite E2, E1. auto using Qplus_Z_nonneg. }
  split; [exact G|].
  rewrite (G (VFloat f20_0) (PFloat f20_0) eq_refl).
  - change (if num_gt (PFloat f20_0) (PInt 25) then 500 else 0) with 0.
    now rewrite Z.add_0_r.
  - change (if num_gt (PFloat f20_0) (PInt 25) then 500 else 0) with 0.
    apply exact_add_0. now apply exact_add_spec in H1.
Qed.

(** The theorem at 82.5 kg and 60 minutes. *)
Lemma calculate_water_goal_exact_witness :
  (forall (temperature : pyval) (t : pynum),
      as_num temperature = Ok t ->
      exact_add (PyFloat.add (PyFloat.mul (PyFloat.of_decimal false 825 (-1))
                                          (PyFloat.of_Z 30))
                             (PyFloat.of_Z 1000))
                (if num_gt t (PInt 25) then 500 else 0) = true ->
      calculate_water_goal (PyFloat.of_decimal false 825 (-1)) 60 temperature
      = Ok (2475 + 1000 + (if num_gt t (PInt 25) then 500 else 0)))
  /\ calculate_water_goal (PyFloat.of_decimal false 825 (-1)) 60 (VFloat f20_0)
     = Ok 3475.
Proof.
  exact (calculate_water_goal_exact (PyFloat.of_decimal false 825 (-1)) 60
           eq_refl ltac:(lia) ltac:(vm_compute; reflexivity)).
Defined.

(** C1 fails as stated: for the weight 119.99999999999999 and 30 minutes at
    20 degrees the sum 3599.9999999999995 + 500 rounds to 4100.0, so the
    function returns 4100, while [floor(weight * 30) + 500] is 4099, whether
    the product is the float product or the exact one. *)
Lemma calculate_water_goal_rounds_up :
  parse_float "119.99999999999999" = Some just_below_120
  /\ PyFloat.is_positive just_below_120 = true
  /\ calculate_water_goal just_below_120 30 (VFloat f20_0) = Ok 4100
  /\ Qfloor (PyFloat.to_Q (PyFloat.mul just_below_120 (PyFloat.of_Z 30)))
     + 30 / 30 * 500 = 4099
  /\ Qfloor (PyFloat.to_Q just_below_120 * inject_Z 30) + 30 / 30 * 500 = 4099.
Proof. repeat split; vm_compute; reflexivity. Qed.

(** An infinite weight is above zero too, and there the function raises. *)
Lemma calculate_water_goal_infinite :
  parse_float "inf" = Some (S754_infinity false)
  /\ calculate_water_goal (S754_infinity false) 30 (VFloat f20_0)
     = Raise OverflowError.
Proof. split; reflexivity. Qed.

(** C2, as amended. [calculate_calorie_goal] returns [int(bmr + bonus)]
    where, in binary64, [bmr = 10 * weight + 6.25 * height - 5 * age] and
    the bonus is 400 for more than 60 minutes of activity, 200 for more than
    30 and 0 otherwise: the sum truncated toward zero, which is its floor
    when it is not negative and its ceiling when it is negative.  When the
    sum is [nan] or infinite the function raises. *)
Theorem calculate_calorie_goal_truncates (weight height : float)
  (age activity_minutes : Z) :
  let bonus :=
    if activity_minutes >? 60 then 400
    else if activity_minutes >? 30 then 200 else 0 in
  let basal :=
    PyFloat.sub
      (PyFloat.add (PyFloat.mul (PyFloat.of_Z 10) weight)
         (PyFloat.mul (PyFloat.of_decimal false 625 (-2)) height))
      (PyFloat.of_Z (5 * age)) in
  let s := PyFloat.add basal (PyFloat.of_Z bonus) in
  (PyFloat.is_finite s = true ->
   calculate_calorie_goal weight height age activity_minutes
   = Ok (if Qle_bool 0 (PyFloat.to_Q s) then Qfloor (PyFloat.to_Q s)
         else Qceiling (PyFloat.to_Q s)))
  /\ (PyFloat.is_finite s = false ->
      exists e,
        calculate_calorie_goal weight height age activity_minutes = Raise e).
Proof.
  intros bonus basal s.
  assert (Hb : PyFloat.is_finite (PyFloat.of_Z bonus) = true).
  { unfold bonus. destruct (activity_minutes >? 60); [reflexivity|].
    destruct (activity_minutes >? 30); reflexivity. }
  unfold calculate_calorie_goal, calorie_sum, bmr, extra_activity.
  fold bonus.
  unfold num_mul, num_add, num_sub, float_binop.
  rewrite (to_float_int 10) by reflexivity.
  change f6_25 with (PyFloat.of_decimal false 625 (-2)).
  rewrite (to_float_int bonus Hb). cbn [bind to_float].
  destruct (PyFloat.is_finite (PyFloat.of_Z (5 * age))) eqn:H5.
  - cbn [bind to_float]. fold basal. fold s. split.
    + intros Hf. rewrite (py_int_finite s Hf), trunc_Qtrunc. reflexivity.
    + intros Hf. destruct s as [| [] | |]; try discriminate Hf;
        cbn [py_int]; eauto.
  - cbn [bind]. split; [|eauto]. intros Hf. exfalso.
    apply add_finite in Hf as [Hf _]. apply sub_finite in Hf as [_ Hf].
    congruence.
Qed.

(** The theorem at the spec's example: (70, 170, 30, 45) gives 1812. *)
Lemma calculate_calorie_goal_truncates_witness :
  calculate_calorie_goal (PyFloat.of_Z 70) (PyFloat.of_Z 170) 30 45 = Ok 1812.
Proof.
  apply (proj1 (calculate_calorie_goal_truncates (PyFloat.of_Z 70)
                  (PyFloat.of_Z 170) 30 45)).
  vm_compute. reflexivity.
Defined.

(** C2 fails as stated: for 40 kg, 150.5 cm and the age 300 the sum is
    -159.375; the function returns -159 and the floor is -160. *)
Lemma calculate_calorie_goal_not_floor :
  calorie_sum (PyFloat.of_Z 40) (PyFloat.of_decimal false 1505 (-1)) 300 0
  = Ok (PFloat (PyFloat.of_decimal true 159375 (-3)))
  /\ calculate_calorie_goal (PyFloat.of_Z 40)
       (PyFloat.of_decimal false 1505 (-1)) 300 0 = Ok (-159)
  /\ Qfloor (PyFloat.to_Q (PyFloat.of_decimal true 159375 (-3))) = -160.
Proof. repeat split; vm_compute; reflexivity. Qed.

(** The sum always is a float. *)
Lemma calorie_sum_float (weight height : float) (age activity_minutes : Z)
  (n : pynum) :
  calorie_sum weight height age activity_minutes = Ok n ->
  exists s, n = PFloat s.
Proof.
  unfold calorie_sum, bmr, num_mul, num_add, num_sub, float_binop.
  repeat match goal with
         | |- context [to_float ?x] => destruct (to_float x); cbn [bind]
         end; try discriminate; intros [= <-]; eauto.
Qed.

(** C3, as amended: [calculate_water_goal(70, 45, 30.0)] is 3100, the base
    2100, 500 for the one full half hour of activity and 500 for the heat. *)
Theorem calculate_water_goal_70_45_30 :
  calculate_water_goal (PyFloat.of_Z 70) 45 (VFloat (PyFloat.of_Z 30)) = Ok 3100.
Proof. vm_compute. reflexivity. Qed.

(** C3 fails as stated: the result is not 2600. *)
Lemma calculate_water_goal_70_45_30_not_2600 :
  calculate_water_goal (PyFloat.of_Z 70) 45 (VFloat (PyFloat.of_Z 30))
  <> Ok 2600.
Proof. vm_compute. discriminate. Qed.

(** ** Texts that are numbers are not commands *)

Lemma lstrip_app_nonspace (c : ascii) :
  is_space c = false -> forall l, exists l', lstrip (l ++ [c]) = l' ++ [c].
Proof.
  intros Hc. induction l as [| a l IH]; simpl.
  - rewrite Hc. now exists [].
  - destruct (is_space a).
    + exact IH.
    + now exists (a :: l).
Qed.

Lemma strip_head (c : ascii) (r : list ascii) :
  is_space c = false -> exists r', strip (c :: r) = c :: r'.
Proof.
  intros Hc. unfold strip. simpl lstrip at 2. rewrite Hc.
  simpl rev at 2.
  destruct (lstrip_app_nonspace c Hc (rev r)) as [l' E]. rewrite E.
  rewrite rev_app_distr. simpl. eauto.
Qed.

Lemma strip_lstrip (l : list ascii) : strip (lstrip l) = strip l.
Proof.
  unfold strip. f_equal. f_equal. f_equal.
  induction l as [| a l IH]; simpl; [reflexivity|].
  destruct (is_space a) eqn:E; [exact IH|]. simpl. now rewrite E.
Qed.

Lemma decimal_digit_lt (c d : N) :
  Py_UNICODE_TODECIMAL c = Some d -> (d < 10)%N.
Proof.
  unfold Py_UNICODE_TODECIMAL.
  destruct (((48 <=? c) && (c <? 58))%N) eqn:E.
  - intros [= <-]. apply andb_true_iff in E as [E1 E2].
    apply N.leb_le in E1. apply N.ltb_lt in E2. lia.
  - destruct (find _ decimal_zeros) as [z |] eqn:F; [|discriminate].
    intros [= <-]. apply find_some in F as [_ F].
    apply andb_true_iff in F as [F1 F2].
    apply N.leb_le in F1. apply N.ltb_lt in F2. lia.
Qed.

Lemma is_space_spec (n : N) :
  (n < 256)%N ->
  is_space (ascii_of_N n) = true <-> (9 <= n <= 13)%N \/ n = 32%N.
Proof.
  intros H. unfold is_space. rewrite (N_ascii_embedding n H).
  rewrite orb_true_iff, andb_true_iff, !N.leb_le, N.eqb_eq. tauto.
Qed.

Lemma Py_UNICODE_ISSPACE_ascii (c : N) :
  (c < 127)%N ->
  Py_UNICODE_ISSPACE c = true <-> (9 <= c <= 13)%N \/ (28 <= c <= 32)%N.
Proof.
  intros H. unfold Py_UNICODE_ISSPACE.
  rewrite !orb_true_iff, !andb_true_iff, !N.leb_le, !N.eqb_eq.
  change 0x85%N with 133%N. change 0xa0%N with 160%N.
  change 0x1680%N with 5760%N. change 0x2000%N with 8192%N.
  change 0x200a%N with 8202%N. change 0x2028%N with 8232%N.
  change 0x2029%N with 8233%N. change 0x202f%N with 8239%N.
  change 0x205f%N with 8287%N. change 0x3000%N with 12288%N.
  lia.
Qed.

(** White space for [int] and [float] is white space for [str.split]. *)
Lemma to_ascii_space (c : N) :
  is_space (to_ascii_char c) = true -> Py_UNICODE_ISSPACE c = true.
Proof.
  unfold to_ascii_char. destruct (N.ltb_spec c 127) as [H | H].
  - intros E. apply is_space_spec in E; [|lia].
    apply Py_UNICODE_ISSPACE_ascii; [exact H | lia].
  - destruct (Py_UNICODE_ISSPACE c); [reflexivity|].
    destruct (Py_UNICODE_TODECIMAL c) as [d |] eqn:D; [|discriminate].
    apply decimal_digit_lt in D. intros E.
    apply is_space_spec in E; lia.
Qed.

(** The white space of [str.split] that [int] and [float] do not skip. *)
Lemma to_ascii_separator (c : N) :
  Py_UNICODE_ISSPACE c = true -> is_space (to_ascii_char c) = false ->
  In (to_ascii_char c) command_heads.
Proof.
  unfold to_ascii_char. destruct (N.ltb_spec c 127) as [H | H].
  - intros E1 E2. apply Py_UNICODE_ISSPACE_ascii in E1; [|exact H].
    assert (E3 : ~ ((9 <= c <= 13)%N \/ c = 32%N)).
    { intros E. apply is_space_spec in E; [congruence | lia]. }
    assert (E : c = 28%N \/ c = 29%N \/ c = 30%N \/ c = 31%N) by lia.
    destruct E as [-> | [-> | [-> | ->]]]; cbn; tauto.
  - intros ->. discriminate.
Qed.

Lemma command_heads_nonspace (c : ascii) :
  In c command_heads -> is_space c = false.
Proof. intros [<- | [<- | [<- | [<- | [<- | []]]]]]; reflexivity. Qed.

Lemma lstrip_ws_slash (l : list N) :
  forall r, lstrip_ws l = 47%N :: r ->
  exists c r', lstrip (map to_ascii_char l) = c :: r' /\ In c command_heads.
Proof.
  induction l as [| a l IH]; intros r H; [discriminate|].
  cbn [lstrip_ws] in H. cbn [map lstrip].
  destruct (Py_UNICODE_ISSPACE a) eqn:E.
  - destruct (is_space (to_ascii_char a)) eqn:E'.
    + exact (IH r H).
    + exists (to_ascii_char a), (map to_ascii_char l).
      split; [reflexivity|]. now apply to_ascii_separator.
  - injection H as -> ->.
    change (to_ascii_char 47) with "/"%char.
    change (is_space "/") with false. cbv iota.
    exists "/"%char, (map to_ascii_char r). split; [reflexivity|].
    left. reflexivity.
Qed.

Lemma first_word_slash (l rest : list N) (prefix : N) :
  first_word l = Some (prefix :: rest) -> (prefix =? 47)%N = true ->
  exists r, lstrip_ws l = 47%N :: r.
Proof.
  unfold first_word. intros H E. apply N.eqb_eq in E. subst prefix.
  destruct (lstrip_ws l) as [| c r]; [discriminate|].
  cbn [take_token] in H.
  destruct (Py_UNICODE_ISSPACE c); [discriminate|].
  injection H as -> _. eauto.
Qed.

(** The transformed text of a [/start] command begins, after its white
    space, with a character at which no number begins. *)
Lemma start_command_head (username : option string) (message : Message)
  (s : string) :
  text_or_caption message = Some s ->
  is_start_command username message = true ->
  exists c r,
    strip (TransformDecimalAndSpaceToASCII s) = c :: r
    /\ In c command_heads.
Proof.
  unfold is_start_command. intros -> H.
  destruct (first_word (code_points s)) as [[| prefix rest] |] eqn:F;
    try discriminate.
  destruct (partition_at rest) as [command mention].
  apply andb_true_iff in H as [H _]. apply andb_true_iff in H as [H _].
  destruct (first_word_slash _ _ _ F H) as [r E].
  destruct (lstrip_ws_slash _ _ E) as (c & r' & E' & Hc).
  unfold TransformDecimalAndSpaceToASCII. rewrite <- strip_lstrip, E'.
  destruct (strip_head c r' (command_heads_nonspace c Hc)) as [r'' ->].
  eauto.
Qed.

Lemma drop_underscores_head (c : ascii) (r : list ascii) :
  In c command_heads ->
  drop_underscores None (c :: r) = None
  \/ exists r', drop_underscores None (c :: r) = Some (c :: r').
Proof.
  intros [<- | [<- | [<- | [<- | [<- | []]]]]]; simpl;
    match goal with
    | |- context [drop_underscores ?p r] =>
        destruct (drop_underscores p r); simpl; eauto
    end.
Qed.

Lemma parse_int_head (s : string) (c : ascii) (r : list ascii) :
  strip (TransformDecimalAndSpaceToASCII s) = c :: r ->
  In c command_heads -> parse_int s = None.
Proof.
  intros E Hc. unfold parse_int. rewrite E.
  destruct (drop_underscores_head c r Hc) as [-> | [r' ->]]; [reflexivity|].
  destruct Hc as [<- | [<- | [<- | [<- | [<- | []]]]]]; reflexivity.
Qed.

Lemma parse_float_head (s : string) (c : ascii) (r : list ascii) :
  strip (TransformDecimalAndSpaceToASCII s) = c :: r ->
  In c command_heads -> parse_float s = None.
Proof.
  intros E Hc. unfold parse_float. rewrite E.
  destruct (drop_underscores_head c r Hc) as [-> | [r' ->]]; [reflexivity|].
  destruct Hc as [<- | [<- | [<- | [<- | [<- | []]]]]]; reflexivity.
Qed.

(** A message whose text is not empty is read by its text. *)
Lemma text_or_caption_text (message : Message) (s : string) :
  text message = Some s -> s <> EmptyString ->
  text_or_caption message = Some s.
Proof. unfold text_or_caption. intros -> H. now destruct s. Qed.

Lemma parse_int_not_command (username : option string) (message : Message)
  (s : string) (n : Z) :
  text message = Some s -> parse_int s = Some n ->
  is_start_command username message = false.
Proof.
  intros Ht H. destruct (is_start_command username message) eqn:E;
    [|reflexivity].
  assert (Hs : s <> EmptyString) by (intros ->; discriminate H).
  destruct (start_command_head username message s
              (text_or_caption_text message s Ht Hs) E) as (c & r & E' & Hc).
  rewrite (parse_int_head s c r E' Hc) in H. discriminate.
Qed.

Lemma parse_float_not_command (username : option string) (message : Message)
  (s : string) (x : float) :
  text message = Some s -> parse_float s = Some x ->
  is_start_command username message = false.
Proof.
  intros Ht H. destruct (is_start_command username message) eqn:E;
    [|reflexivity].
  assert (Hs : s <> EmptyString) by (intros ->; discriminate H).
  destruct (start_command_head username message s
              (text_or_caption_text message s Ht Hs) E) as (c & r & E' & Hc).
  rewrite (parse_float_head s c r E' Hc) in H. discriminate.
Qed.

Lemma parse_int_not_text (s t : string) (n : Z) :
  parse_int s = Some n -> parse_int t = None -> String.eqb s t = false.
Proof.
  intros H1 H2. destruct (String.eqb_spec s t); [congruence | reflexivity].
Qed.

Lemma parse_float_not_text (s t : string) (x : float) :
  parse_float s = Some x -> parse_float t = None -> String.eqb s t = false.
Proof.
  intros H1 H2. destruct (String.eqb_spec s t); [congruence | reflexivity].
Qed.

(** ** The storage *)

Lemma get_ctx_set_ctx (uid : Z) (c : FSMContext) (w : world) :
  get_ctx uid (set_ctx uid c w) = c.
Proof. unfold get_ctx, set_ctx. simpl. now rewrite lookup_insert_eq. Qed.

Lemma get_ctx_set_ctx_ne (uid uid' : Z) (c : FSMContext) (w : world) :
  uid <> uid' -> get_ctx uid' (set_ctx uid c w) = get_ctx uid' w.
Proof. intros H. unfold get_ctx, set_ctx. simpl. now rewrite lookup_insert_ne. Qed.

Lemma set_ctx_set_ctx (uid : Z) (c c' : FSMContext) (w : world) :
  set_ctx uid c' (set_ctx uid c w) = set_ctx uid c' w.
Proof. unfold set_ctx. simpl. now rewrite insert_insert_eq. Qed.

(** ** Routing *)

(** A message that is left to the handler of its state reaches it. *)
Lemma first_match_for_state (username : option string) (message : Message)
  (st : option State) :
  for_state username message st = true ->
  first_match dp username message st = Some (handler_for st).
Proof.
  unfold for_state. intros H. apply andb_true_iff in H as [Hc Hb].
  apply negb_true_iff in Hc. unfold dp, first_match, passes. rewrite Hc.
  destruct st as [[] |]; cbn [buttons_before forallb] in Hb;
    repeat match type of Hb with
           | (negb _ && _)%bool = true =>
               let H := fresh "H" in
               apply andb_true_iff in Hb as [H Hb];
               apply negb_true_iff in H; rewrite H
           end;
    reflexivity.
Qed.

Lemma step_for_state (w : world) (message : Message) (net : http_outcome) :
  for_state (bot_username w) message
    (state (get_ctx (from_user_id message) w)) = true ->
  step w message net
  = let '(_, w', out) :=
      handler_for (state (get_ctx (from_user_id message) w)) message net w in
    (w', out).
Proof.
  intros H. unfold step, dispatch.
  now rewrite (first_match_for_state _ message _ H).
Qed.

(** A text that [int] or [float] reads is neither a command nor the text
    of a button: it is left to the handler of the state. *)
Lemma for_state_int (username : option string) (message : Message)
  (s : string) (n : Z) (st : option State) :
  text message = Some s -> parse_int s = Some n ->
  for_state username message st = true.
Proof.
  intros Ht Hp. unfold for_state.
  rewrite (parse_int_not_command username message s n Ht Hp).
  pose proof (parse_int_not_text s "Set Profile" n Hp eq_refl) as H1.
  pose proof (parse_int_not_text s "Log Water" n Hp eq_refl) as H2.
  pose proof (parse_int_not_text s "Log Food" n Hp eq_refl) as H3.
  pose proof (parse_int_not_text s "Check Progress" n Hp eq_refl) as H4.
  pose proof (parse_int_not_text s "Check Food Info" n Hp eq_refl) as H5.
  destruct st as [[] |]; cbn [buttons_before forallb negb andb];
    unfold has_text; rewrite Ht, ?H1, ?H2, ?H3, ?H4, ?H5; reflexivity.
Qed.

Lemma for_state_float (username : option string) (message : Message)
  (s : string) (x : float) (st : option State) :
  text message = Some s -> parse_float s = Some x ->
  for_state username message st = true.
Proof.
  intros Ht Hp. unfold for_state.
  rewrite (parse_float_not_command username message s x Ht Hp).
  pose proof (parse_float_not_text s "Set Profile" x Hp eq_refl) as H1.
  pose proof (parse_float_not_text s "Log Water" x Hp eq_refl) as H2.
  pose proof (parse_float_not_text s "Log Food" x Hp eq_refl) as H3.
  pose proof (parse_float_not_text s "Check Progress" x Hp eq_refl) as H4.
  pose proof (parse_float_not_text s "Check Food Info" x Hp eq_refl) as H5.
  destruct st as [[] |]; cbn [buttons_before forallb negb andb];
    unfold has_text; rewrite Ht, ?H1, ?H2, ?H3, ?H4, ?H5; reflexivity.
Qed.

Lemma route_set_profile (username : option string) (uid : Z)
  (st : option State) :
  first_match dp username (says uid "Set Profile") st
  = Some (fun m _ => cmd_set_profile m).
Proof. reflexivity. Qed.

(** Outside the profile dialogue the text "Log Water" reaches
    [cmd_log_water]. *)
Lemma route_log_water_text (username : option string) (message : Message)
  (st : option State) :
  text message = Some "Log Water" ->
  (forall s, st = Some s -> profile_state s = false) ->
  first_match dp username message st = Some (fun m _ => cmd_log_water m).
Proof.
  destruct message as [u t c]. cbn [text]. intros -> H.
  destruct st as [[] |];
    try (specialize (H _ eq_refl); discriminate H); reflexivity.
Qed.

Lemma route_idle_log_water (username : option string) (uid : Z) :
  first_match dp username (says uid "Log Water") None
  = Some (fun m _ => cmd_log_water m).
Proof. reflexivity. Qed.

(** ** What [int], [float] and the command filter read *)

(** [int] and [float] skip the white space of C and of the scripts beyond
    ASCII, not the separators 28 to 31, and read the decimal digits of every
    script. *)
Example int_separator :
  parse_int (String "5" (String "031" EmptyString)) = None
  /\ parse_float (String "028" (String "5" EmptyString)) = None.
Proof. split; vm_compute; reflexivity. Qed.

Example int_other_digits :
  parse_int "۷۰" = Some 70
  /\ parse_int "-٥٠٠" = Some (-500)
  /\ parse_float "۷۰" = Some (PyFloat.of_Z 70)
  /\ parse_int " １２ " = Some 12.
Proof. repeat split; vm_compute; reflexivity. Qed.

(** The command filter takes the first word as [str.split] cuts it, lets
    an empty mention and the mention of the bot pass, and reads the caption
    of a message without text. *)
Example start_command_forms :
  is_start_command (Some "fit_tracker_bot") (says 7 "/start@") = true
  /\ is_start_command (Some "fit_tracker_bot")
       (says 7 "/start@Fit_Tracker_Bot now") = true
  /\ is_start_command (Some "fit_tracker_bot") (says 7 "/start@other_bot")
     = false
  /\ is_start_command (Some "fit_tracker_bot") (says 7 "/start x") = true
  /\ is_start_command (Some "fit_tracker_bot")
       {| from_user_id := 7; text := None; caption := Some "/start" |}
     = true.
Proof. repeat split; vm_compute; reflexivity. Qed.

(** ** Logging water *)

(** C4. In the water-amount state, for a user with a profile [p] and a text
    that [int] reads as [amount]: the turn adds [amount] to the logged
    water of [p] and leaves the rest of the profile as it was, clears the
    conversation, and sends one reply, the goal-reached message exactly
    when [remaining = max(goal - logged, 0)] is zero and otherwise the
    message with [remaining]; [remaining] is never negative. *)
Theorem process_log_water_logs (w : world) (message : Message)
  (net : http_outcome) (p : profile) (s : string) (amount : Z) :
  state (get_ctx (from_user_id message) w) = Some LogWaterStates_amount ->
  user_profiles w !! from_user_id message = Some p ->
  text message = Some s ->
  parse_int s = Some amount ->
  let uid := from_user_id message in
  let current := logged_water p + amount in
  let remaining := Z.max (water_goal p - current) 0 in
  step w message net
  = (set_ctx uid idle (set_profile uid (with_logged_water current p) w),
     [ {| body := if remaining =? 0 then WaterGoalReached current
                  else WaterLogged amount remaining;
          markup := get_main_menu |} ])
  /\ (exists p',
        user_profiles (fst (step w message net)) !! uid = Some p'
        /\ logged_water p' = logged_water p + amount
        /\ water_goal p' = water_goal p
        /\ calorie_goal p' = calorie_goal p
        /\ logged_calories p' = logged_calories p
        /\ burned_calories p' = burned_calories p
        /\ weight p' = weight p /\ height p' = height p
        /\ age p' = age p /\ activity p' = activity p
        /\ city p' = city p /\ temperature p' = temperature p)
  /\ get_ctx uid (fst (step w message net)) = idle
  /\ 0 <= remaining.
Proof.
  intros Hs Hp Ht Hn uid current remaining.
  assert (E : step w message net
              = (set_ctx uid idle
                   (set_profile uid (with_logged_water current p) w),
                 [ {| body := if remaining =? 0 then WaterGoalReached current
                              else WaterLogged amount remaining;
                      markup := get_main_menu |} ])).
  { rewrite (step_for_state w message net)
      by (rewrite Hs; exact (for_state_int _ message s amount _ Ht Hn)).
    rewrite Hs. cbn [handler_for state_handler].
    unfold process_log_water, bindM, user_profiles_get. rewrite Hp.
    unfold try_except_ValueError, bindM, lift, py_int_of_text.
    rewrite Ht, Hn. cbn -[Z.max Z.leb Z.eqb Z.add Z.sub].
    fold uid. fold current. fold remaining.
    destruct (Z.leb_spec remaining 0) as [H | H];
      destruct (Z.eqb_spec remaining 0) as [E | E]; try lia; reflexivity. }
  split; [exact E|]. rewrite E. cbn [fst].
  split; [|split; [apply get_ctx_set_ctx | lia]].
  exists (with_logged_water current p). split.
  - unfold set_ctx, set_profile. cbn [user_profiles].
    apply lookup_insert_eq.
  - repeat split.
Qed.

Lemma oslo_profile_stored :
  user_profiles (run initial to_water) !! 7 = Some oslo_profile.
Proof. vm_compute. reflexivity. Qed.

(** The theorem at the example conversation: 250 ml of 2600 leave 2350. *)
Lemma process_log_water_logs_witness :
  step (run initial to_water) (says 7 "250") TransportFailure
  = (set_ctx 7 idle
       (set_profile 7 (with_logged_water 250 oslo_profile)
          (run initial to_water)),
     [ {| body := WaterLogged 250 2350; markup := get_main_menu |} ])
  /\ (exists p',
        user_profiles
          (fst (step (run initial to_water) (says 7 "250") TransportFailure))
          !! 7 = Some p'
        /\ logged_water p' = 0 + 250
        /\ water_goal p' = 2600
        /\ calorie_goal p' = 1812
        /\ logged_calories p' = PInt 0
        /\ burned_calories p' = 0
        /\ weight p' = PyFloat.of_Z 70 /\ height p' = PyFloat.of_Z 170
        /\ age p' = 30 /\ activity p' = 45
        /\ city p' = Some "Oslo" /\ temperature p' = VFloat f20_0)
  /\ get_ctx 7
       (fst (step (run initial to_water) (says 7 "250") TransportFailure))
     = idle
  /\ 0 <= 2350.
Proof.
  exact (process_log_water_logs (run initial to_water) (says 7 "250")
           TransportFailure oslo_profile "250" 250
           ltac:(vm_compute; reflexivity) oslo_profile_stored eq_refl
           ltac:(vm_compute; reflexivity)).
Defined.

(** Past the goal the reply is the goal-reached message. *)
Example water_beyond_goal :
  snd (step (run initial to_water) (says 7 "3000") TransportFailure)
  = [ {| body := WaterGoalReached 3000; markup := get_main_menu |} ].
Proof. vm_compute. reflexivity. Qed.

(** C6, as amended. For a user without a profile: the text "Log Water",
    sent in any state outside the profile dialogue, is answered with the
    request to set the profile first and changes nothing, so the
    conversation stays in the state it was in (idle when it was idle), no
    profile is created and nothing is logged; and a message that reaches the
    water-amount step is answered with the request to set the profile
    first, the conversation is cleared to idle, and [user_profiles] is as
    before. *)
Theorem log_water_without_profile (w : world) (message : Message)
  (net : http_outcome) :
  user_profiles w !! from_user_id message = None ->
  let uid := from_user_id message in
  (text message = Some "Log Water" ->
   (forall s, state (get_ctx uid w) = Some s -> profile_state s = false) ->
   step w message net
   = (w, [ {| body := SetProfileFirstButton; markup := get_main_menu |} ]))
  /\ (state (get_ctx uid w) = Some LogWaterStates_amount ->
      for_state (bot_username w) message (Some LogWaterStates_amount)
      = true ->
      step w message net
      = (set_ctx uid idle w,
         [ {| body := SetProfileFirst; markup := get_main_menu |} ])
      /\ user_profiles (fst (step w message net)) = user_profiles w
      /\ get_ctx uid (fst (step w message net)) = idle).
Proof.
  intros Hp uid. split.
  - intros Ht Hs. unfold step, dispatch. fold uid.
    rewrite (route_log_water_text _ message _ Ht Hs).
    unfold cmd_log_water, bindM, user_profiles_get. now rewrite Hp.
  - subst uid. intros Hs Hf.
    assert (E : step w message net
                = (set_ctx (from_user_id message) idle w,
                   [ {| body := SetProfileFirst;
                        markup := get_main_menu |} ])).
    { rewrite (step_for_state w message net) by (now rewrite Hs).
      rewrite Hs. cbn [handler_for state_handler].
      unfold process_log_water, bindM, user_profiles_get. now rewrite Hp. }
    rewrite E. cbn [fst]. rewrite get_ctx_set_ctx. repeat split.
Qed.

(** The theorem at a user the bot has never seen. *)
Lemma log_water_without_profile_witness :
  step initial (says 7 "Log Water") TransportFailure
  = (initial, [ {| body := SetProfileFirstButton; markup := get_main_menu |} ]).
Proof.
  apply (proj1 (log_water_without_profile initial (says 7 "Log Water")
                  TransportFailure eq_refl)).
  - reflexivity.
  - intros s H. vm_compute in H. discriminate H.
Defined.

(** C6 fails as stated.  A user without a profile who is asked for the city
    and presses "Log Water" gets no request to set the profile first: the
    text is taken for the city and a profile is created.  And pressed while
    the bot waits for the name of a food to look up, the button is answered
    with the request, but the conversation stays in that state, not idle. *)
Lemma log_water_without_profile_in_a_flow :
  user_profiles (run initial to_city) !! 7 = None
  /\ option_map city
       (user_profiles
          (fst (step (run initial to_city) (says 7 "Log Water")
                  TransportFailure)) !! 7)
     = Some (Some "Log Water")
  /\ user_profiles (run initial [ offline (says 7 "Check Food Info") ]) !! 7
     = None
  /\ snd (step (run initial [ offline (says 7 "Check Food Info") ])
            (says 7 "Log Water") TransportFailure)
     = [ {| body := SetProfileFirstButton; markup := get_main_menu |} ]
  /\ state
       (get_ctx 7
          (fst (step (run initial [ offline (says 7 "Check Food Info") ])
                  (says 7 "Log Water") TransportFailure)))
     = Some FoodInfoStates_food_name.
Proof. repeat split; vm_compute; reflexivity. Qed.

(** ** Menu buttons in the middle of a flow *)

(** C8, as amended. In every conversation state the text "Set Profile"
    discards the data collected so far and restarts the flow at the weight
    prompt: the state becomes [ProfileStates.weight] (not idle), the data
    are empty, the profiles are untouched and the reply asks for the
    weight. (The other menu texts cancel nothing while a profile is being
    set: they are read as the answer to the pending question.) *)
Theorem set_profile_restarts (w : world) (uid : Z) (net : http_outcome) :
  step w (says uid "Set Profile") net
  = (set_ctx uid {| state := Some ProfileStates_weight; data := no_data |} w,
     [ {| body := EnterWeight; markup := ReplyKeyboardRemove |} ]).
Proof.
  unfold step, dispatch. rewrite route_set_profile.
  unfold cmd_set_profile, bindM, state_clear, state_set_state, answer.
  cbn [from_user_id says app]. now rewrite get_ctx_set_ctx, set_ctx_set_ctx.
Qed.

(** C8 fails as stated: while the bot waits for the height, with the weight
    already kept, the text "Log Water" is taken for a height; the reply is
    the height re-prompt, the state stays and the weight stays. *)
Lemma log_water_text_does_not_cancel :
  state (get_ctx 7 (run initial to_height)) = Some ProfileStates_height
  /\ step (run initial to_height) (says 7 "Log Water") TransportFailure
     = (run initial to_height,
        [ {| body := InvalidHeight; markup := no_markup |} ])
  /\ data_weight (data (get_ctx 7 (run initial to_height)))
     = Some (PyFloat.of_Z 70).
Proof. repeat split; vm_compute; reflexivity. Qed.

(** In the city state a menu text even becomes the city of the profile. *)
Example menu_text_as_city :
  option_map city
    (user_profiles (fst (step (run initial to_city) (says 7 "Check Progress")
                           TransportFailure)) !! 7)
  = Some (Some "Check Progress").
Proof. vm_compute. reflexivity. Qed.

(** ** The weight step *)

(** C9, as amended. In the weight state, for a message with a text that is
    neither a [/start] command nor "Set Profile": if [float] reads the text,
    whatever the number (zero, negative, with an exponent, infinite or
    [nan]), the number is kept under [weight], the state becomes
    [ProfileStates.height] and the reply asks for the height; if [float]
    does not read it, nothing changes and the reply is the weight
    re-prompt. *)
Theorem process_weight_accepts_float (w : world) (message : Message)
  (s : string) (net : http_outcome) :
  state (get_ctx (from_user_id message) w) = Some ProfileStates_weight ->
  text message = Some s ->
  is_start_command (bot_username w) message = false ->
  String.eqb s "Set Profile" = false ->
  let uid := from_user_id message in
  step w message net
  = match parse_float s with
    | Some weight =>
        (set_ctx uid {| state := Some ProfileStates_height;
                        data := with_weight weight (data (get_ctx uid w)) |} w,
         [ {| body := EnterHeight; markup := no_markup |} ])
    | None => (w, [ {| body := InvalidWeight; markup := no_markup |} ])
    end.
Proof.
  intros Hs Ht Hc Hn uid.
  rewrite (step_for_state w message net).
  - rewrite Hs. cbn [handler_for state_handler].
    unfold process_weight, try_except_ValueError, bindM, lift,
      py_float_of_text.
    rewrite Ht. destruct (parse_float s) as [x |]; cbn; [|reflexivity].
    fold uid. now rewrite get_ctx_set_ctx, set_ctx_set_ctx.
  - rewrite Hs. unfold for_state, has_text. cbn [buttons_before forallb].
    now rewrite Hc, Ht, Hn.
Qed.

(** The theorem at a text that is no number. *)
Lemma process_weight_accepts_float_witness :
  step (run initial to_weight) (says 7 "seventy") TransportFailure
  = (run initial to_weight,
     [ {| body := InvalidWeight; markup := no_markup |} ]).
Proof.
  exact (process_weight_accepts_float (run initial to_weight)
           (says 7 "seventy") "seventy" TransportFailure
           ltac:(vm_compute; reflexivity) eq_refl
           ltac:(vm_compute; reflexivity) ltac:(vm_compute; reflexivity)).
Defined.

(** C9 fails as stated: "-5" is no positive decimal, and the weight step
    accepts it: -5.0 is stored and the flow goes on to the height. *)
Lemma negative_weight_accepted :
  parse_float "-5" = Some (PyFloat.of_Z (-5))
  /\ PyFloat.is_positive (PyFloat.of_Z (-5)) = false
  /\ state (get_ctx 7 (run initial to_weight)) = Some ProfileStates_weight
  /\ get_ctx 7 (fst (step (run initial to_weight) (says 7 "-5") TransportFailure))
     = {| state := Some ProfileStates_height;
          data := with_weight (PyFloat.of_Z (-5)) no_data |}.
Proof. repeat split; vm_compute; reflexivity. Qed.

(** So are [nan] and zero. *)
Example nan_weight_accepted :
  data_weight (data (get_ctx 7 (fst (step (run initial to_weight) (says 7 "nan")
                                       TransportFailure))))
  = Some S754_nan.
Proof. vm_compute. reflexivity. Qed.

(** The texts at which the weight step and [float] were said to differ:
    a separator before the digits is no number, the digits of another
    script are, and [/start@] does not reach the step. *)
Example weight_step_texts :
  snd (step (run initial to_weight)
         (says 7 (String "028" (String "5" EmptyString))) TransportFailure)
  = [ {| body := InvalidWeight; markup := no_markup |} ]
  /\ snd (step (run initial to_weight) (says 7 "۷۰") TransportFailure)
     = [ {| body := EnterHeight; markup := no_markup |} ]
  /\ snd (step (run initial to_weight) (says 7 "/start@") TransportFailure)
     = [ {| body := Welcome; markup := get_main_menu |} ].
Proof. repeat split; vm_compute; reflexivity. Qed.

(** A message without text makes [float] raise [TypeError], which the
    handler does not catch: nothing changes and nothing is sent. *)
Lemma process_weight_no_text (w : world) (message : Message) :
  text message = None -> process_weight message w = (Raise TypeError, w, []).
Proof.
  intros H. unfold process_weight, try_except_ValueError, bindM, lift.
  now rewrite H.
Qed.

(** ** The city step *)

(** X2. After a look-up that failed (the transport raises, the status is
    not 200, or the body is no JSON), [get_weather_temp(city) or 20.0] is
    20.0. *)
Lemma get_weather_temp_failure (city : option string) (net : http_outcome) :
  net = TransportFailure
  \/ (exists status body, net = Response status body /\ status <> 200)
  \/ (exists status, net = Response status None) ->
  py_or (get_weather_temp city net) (VFloat f20_0) = VFloat f20_0.
Proof.
  intros [-> | [(status & body & -> & H) | (status & ->)]];
    unfold get_weather_temp, get_weather_temp_body; try reflexivity.
  - destruct (Z.eqb_spec status 200); [contradiction | reflexivity].
  - destruct (negb (status =? 200)); reflexivity.
Qed.

(** The lemma at a 503 answer. *)
Lemma get_weather_temp_failure_witness :
  py_or (get_weather_temp (Some "Oslo") (Response 503 None)) (VFloat f20_0)
  = VFloat f20_0.
Proof.
  apply (get_weather_temp_failure (Some "Oslo") (Response 503 None)).
  right; left. exists 503, None. split; [reflexivity | lia].
Defined.

Lemma py_or_truthy (x y : pyval) : truthy x = true -> py_or x y = x.
Proof. unfold py_or. now intros ->. Qed.

(** X1. When both goals can be computed, the city step commits a profile
    with the collected fields, the temperature
    [get_weather_temp(city) or 20.0], the two goals and empty logs, clears
    the conversation and replies with the summary. *)
Lemma process_city_commits (w : world) (message : Message)
  (net : http_outcome) (d : fsm_data) (weight height : float)
  (age activity water calorie : Z) :
  let uid := from_user_id message in
  let temp := py_or (get_weather_temp (text message) net) (VFloat f20_0) in
  data (get_ctx uid w) = d ->
  data_weight d = Some weight -> data_height d = Some height ->
  data_age d = Some age -> data_activity d = Some activity ->
  calculate_water_goal weight activity temp = Ok water ->
  calculate_calorie_goal weight height age activity = Ok calorie ->
  let p := {| weight := weight; height := height; age := age;
              activity := activity; city := text message;
              temperature := temp; water_goal := water;
              calorie_goal := calorie; logged_water := 0;
              logged_calories := PInt 0; burned_calories := 0 |} in
  process_city message net w
  = (Ok tt, set_ctx uid idle (set_profile uid p w),
     [ {| body := ProfileSet p; markup := get_main_menu |} ]).
Proof.
  intros uid temp Hd Hw Hh Ha Hact Hwater Hcal p.
  unfold process_city, bindM, state_get_data, lift. fold uid. rewrite Hd.
  cbn [fst snd]. rewrite Hw, Hh, Ha, Hact. cbn [operand bind].
  fold temp. rewrite Hwater, Hcal. reflexivity.
Qed.

(** The lemma at the example conversation, with the weather service down. *)
Lemma process_city_commits_witness :
  process_city (says 7 "Oslo") TransportFailure (run initial to_city)
  = (Ok tt, set_ctx 7 idle (set_profile 7 oslo_profile (run initial to_city)),
     [ {| body := ProfileSet oslo_profile; markup := get_main_menu |} ]).
Proof.
  exact (process_city_commits (run initial to_city) (says 7 "Oslo")
           TransportFailure
           (with_activity 45
              (with_age 30
                 (with_height (PyFloat.of_Z 170)
                    (with_weight (PyFloat.of_Z 70) no_data))))
           (PyFloat.of_Z 70) (PyFloat.of_Z 170) 30 45 2600 1812
           ltac:(vm_compute; reflexivity) ltac:(vm_compute; reflexivity)
           ltac:(vm_compute; reflexivity) eq_refl eq_refl
           ltac:(vm_compute; reflexivity) ltac:(vm_compute; reflexivity)).
Defined.

(** C5: the code at the failing input. The weather service answers 0.0
    degrees for the city; [0.0 or 20.0] is [20.0], so the committed profile
    stores 20.0, the temperature of a failed look-up. *)
Theorem process_city_zero_temperature :
  get_weather_temp (Some "Oslo") (weather (VFloat (S754_zero false)))
  = VFloat (S754_zero false)
  /\ user_profiles (fst (step (run initial to_city) (says 7 "Oslo")
                           (weather (VFloat (S754_zero false))))) !! 7
     = Some oslo_profile
  /\ temperature oslo_profile = VFloat f20_0.
Proof. repeat split; vm_compute; reflexivity. Qed.

(** A temperature that is not zero is stored as it came. *)
Example process_city_warm :
  option_map temperature
    (user_profiles (fst (step (run initial to_city) (says 7 "Oslo")
                           (weather (VFloat (PyFloat.of_Z 30))))) !! 7)
  = Some (VFloat (PyFloat.of_Z 30)).
Proof. vm_compute. reflexivity. Qed.

(** With a weight for which the water goal cannot be computed, here an
    infinite one, the city step raises: no profile, no reply, same state. *)
Example process_city_infinite_weight :
  step (run initial [ offline (says 7 "Set Profile"); offline (says 7 "inf");
                      offline (says 7 "170"); offline (says 7 "30");
                      offline (says 7 "45") ])
       (says 7 "Oslo") TransportFailure
  = (run initial [ offline (says 7 "Set Profile"); offline (says 7 "inf");
                   offline (says 7 "170"); offline (says 7 "30");
                   offline (says 7 "45") ], []).
Proof. vm_compute. reflexivity. Qed.

(** ** The nutrition gateway *)

Lemma get_or_Some d k default v : assoc k d = Some v -> get_or d k default = v.
Proof. unfold get_or. now intros ->. Qed.

Lemma get_or_None d k default : assoc k d = None -> get_or d k default = default.
Proof. unfold get_or. now intros ->. Qed.

(** C10, as amended. [get_food_info] returns a match exactly on a response
    of status 200 whose body is a JSON object with a list under [products]
    whose first element is an object with [nutriments] absent or an object.
    The name of the match is [product_name], or "Unknown" when the key is
    missing; its calories are [energy-kcal_100g], or 0 when that key or
    [nutriments] is missing.  In every other case it returns [None]. *)
Theorem get_food_info_found_or_cause (product_name : option string)
  (net : http_outcome) (f : food_info) :
  get_food_info product_name net = Some f
  <-> exists d pd rest,
        net = Response 200 (Some (VDict d))
        /\ assoc "products" d = Some (VList (VDict pd :: rest))
        /\ name f = match assoc "product_name" pd with
                    | Some n => n
                    | None => VStr "Unknown"
                    end
        /\ ((assoc "nutriments" pd = None /\ calories f = VInt 0)
            \/ exists nd,
                 assoc "nutriments" pd = Some (VDict nd)
                 /\ calories f = match assoc "energy-kcal_100g" nd with
                                 | Some c => c
                                 | None => VInt 0
                                 end).
Proof.
  unfold get_food_info, get_food_info_body. split.
  - intros H. destruct net as [| status body]; [discriminate|].
    destruct (Z.eqb_spec status 200) as [-> | Hs]; cbn [negb] in H;
      [|discriminate].
    destruct body as [data |]; [|discriminate].
    destruct data as [| | | | | | d]; try discriminate.
    cbn [dict_get bind] in H. unfold get_or in H.
    destruct (assoc "products" d) as [prods |] eqn:Ep; [|discriminate].
    destruct prods as [| b | z | x | t | l | pd0]; cbn [truthy] in H.
    + discriminate.
    + destruct b; discriminate.
    + destruct (negb (z =? 0)); discriminate.
    + destruct (negb (PyFloat.is_zero x)); discriminate.
    + destruct t; discriminate.
    + destruct l as [| first rest]; [discriminate|].
      cbn [getitem0 bind] in H.
      destruct first as [| | | | | | pd]; try discriminate.
      cbn [dict_get bind] in H. unfold get_or in H.
      exists d, pd, rest. split; [reflexivity|]. split; [exact Ep|].
      destruct (assoc "nutriments" pd) as [nv |] eqn:En.
      * destruct nv as [| | | | | | nd]; try discriminate.
        cbn [dict_get bind] in H. injection H as <-. cbn [name calories].
        split; [reflexivity|]. right. exists nd. split; reflexivity.
      * cbn [dict_get bind get_or assoc] in H. injection H as <-.
        cbn [name calories]. split; [reflexivity|]. left. split; reflexivity.
    + destruct pd0; discriminate.
  - intros (d & pd & rest & -> & Hp & Hn & Hc).
    cbn [Z.eqb Pos.eqb negb dict_get bind]. unfold get_or. rewrite Hp.
    cbn [truthy getitem0 bind dict_get]. unfold get_or.
    destruct f as [fname fcal]. cbn [name calories] in Hn, Hc.
    destruct Hc as [[-> ->] | (nd & -> & ->)]; cbn [dict_get bind assoc];
      unfold get_or; rewrite Hn; reflexivity.
Qed.

(** A first product that has neither a name nor nutriments is a match. *)
Example get_food_info_defaults :
  get_food_info (Some "apple") (products [VDict []])
  = Some {| name := VStr "Unknown"; calories := VInt 0 |}.
Proof. reflexivity. Qed.

Example get_food_info_empty_list :
  get_food_info (Some "apple") (products []) = None.
Proof. reflexivity. Qed.

(** C10 fails as stated: on a response of status 200 with a product list
    that is not empty the function still returns [None] when the first
    product has [nutriments: null] (the [.get] on [None] raises
    [AttributeError] inside the [try]), and when the first element of the
    list is no object. *)
Lemma get_food_info_null_nutriments :
  products [VDict [("nutriments", VNone)]]
  = Response 200
      (Some (VDict [("products", VList [VDict [("nutriments", VNone)]])]))
  /\ get_food_info_body (products [VDict [("nutriments", VNone)]])
     = Raise AttributeError
  /\ get_food_info (Some "apple") (products [VDict [("nutriments", VNone)]])
     = None
  /\ get_food_info (Some "apple") (products [VStr "apple"]) = None.
Proof. repeat split; reflexivity. Qed.

Example get_food_info_no_calories :
  get_food_info (Some "apple")
    (products [VDict [("product_name", VStr "Apple"); ("nutriments", VDict [])]])
  = Some {| name := VStr "Apple"; calories := VInt 0 |}.
Proof. reflexivity. Qed.

(** ** The logs are not negative on benign runs

    The invariant [Inv] is kept by every primitive of the handler monad,
    hence by every handler, hence by every benign turn. *)

Lemma Inv_startup (username : option string) : Inv (startup username).
Proof.
  split; intros uid x H; unfold startup in H; simpl in H;
    rewrite lookup_empty in H; discriminate.
Qed.

Lemma Inv_get_ctx uid w : Inv w -> data_ok (data (get_ctx uid w)).
Proof.
  intros [_ H]. unfold get_ctx.
  destruct (storage w !! uid) as [c |] eqn:E; simpl.
  - exact (H uid c E).
  - intros f Hf. discriminate.
Qed.

Lemma Inv_set_ctx uid c w : Inv w -> data_ok (data c) -> Inv (set_ctx uid c w).
Proof.
  intros [H1 H2] Hc. split; [exact H1|].
  intros uid' c'. unfold set_ctx. simpl. rewrite lookup_insert.
  destruct (decide (uid = uid')); [intros [= <-]; exact Hc | apply H2].
Qed.

Lemma Inv_set_profile uid p w :
  Inv w -> profile_ok p -> Inv (set_profile uid p w).
Proof.
  intros [H1 H2] Hp. split; [|exact H2].
  intros uid' p'. unfold set_profile. simpl. rewrite lookup_insert.
  destruct (decide (uid = uid')); [intros [= <-]; exact Hp | apply H1].
Qed.

Lemma hoare_weaken {A} (c : M A) (Q R : A -> Prop) :
  hoare c Q -> (forall a, Q a -> R a) -> hoare c R.
Proof.
  intros H HQ w Hw. destruct (H w Hw) as [H1 H2]. split; auto.
Qed.

Lemma hoare_ret {A} (a : A) (Q : A -> Prop) : Q a -> hoare (retM a) Q.
Proof. intros H w Hw. split; [exact Hw|]. intros a' [= <-]. exact H. Qed.

Lemma hoare_lift {A} (r : result A) (Q : A -> Prop) :
  (forall a, r = Ok a -> Q a) -> hoare (lift r) Q.
Proof. intros H w Hw. split; [exact Hw | exact H]. Qed.

Lemma hoare_bind {A B} (c : M A) (k : A -> M B) (R : A -> Prop)
  (Q : B -> Prop) :
  hoare c R -> (forall a, R a -> hoare (k a) Q) -> hoare (bindM c k) Q.
Proof.
  intros Hc Hk w Hw. destruct (Hc w Hw) as [H1 H2].
  unfold post, value, bindM in *.
  destruct (c w) as [[[a | e] w1] out1]; simpl in *.
  - specialize (Hk a (H2 a eq_refl) w1 H1).
    unfold post, value in Hk.
    destruct (k a w1) as [[r w2] out2]. exact Hk.
  - split; [exact H1 | discriminate].
Qed.

Lemma hoare_try (b h : M unit) :
  hoare b (fun _ => True) -> hoare h (fun _ => True) ->
  hoare (try_except_ValueError b h) (fun _ => True).
Proof.
  intros Hb Hh w Hw. destruct (Hb w Hw) as [H1 _].
  unfold post, value, try_except_ValueError in *.
  destruct (b w) as [[[a | e] w1] out1]; simpl in *; [auto|].
  destruct e; auto.
  destruct (Hh w1 H1) as [H3 _]. unfold post in H3.
  destruct (h w1) as [[r w2] out2]. auto.
Qed.

Lemma hoare_answer t k : hoare (answer t k) (fun _ => True).
Proof. intros w Hw. auto. Qed.

Lemma hoare_state_clear message : hoare (state_clear message) (fun _ => True).
Proof.
  intros w Hw. split; [|auto]. apply Inv_set_ctx; [exact Hw|].
  intros f Hf. discriminate.
Qed.

Lemma hoare_state_set_state message s :
  hoare (state_set_state message s) (fun _ => True).
Proof.
  intros w Hw. split; [|auto]. apply Inv_set_ctx; [exact Hw|].
  apply Inv_get_ctx, Hw.
Qed.

Lemma hoare_state_update_data message (f : fsm_data -> fsm_data) :
  (forall d, data_ok d -> data_ok (f d)) ->
  hoare (state_update_data message f) (fun _ => True).
Proof.
  intros Hf w Hw. split; [|auto]. apply Inv_set_ctx; [exact Hw|].
  apply Hf, Inv_get_ctx, Hw.
Qed.

Lemma hoare_state_get_data message : hoare (state_get_data message) data_ok.
Proof.
  intros w Hw. split; [exact Hw|]. intros d [= <-]. apply Inv_get_ctx, Hw.
Qed.

Lemma hoare_user_profiles_get message :
  hoare (user_profiles_get message)
        (fun o => forall p, o = Some p -> profile_ok p).
Proof.
  intros w Hw. split; [exact Hw|]. intros o [= <-] p Hp.
  destruct Hw as [H _]. exact (H _ _ Hp).
Qed.

Lemma hoare_user_profiles_set message p :
  profile_ok p -> hoare (user_profiles_set message p) (fun _ => True).
Proof.
  intros Hp w Hw. split; [|auto]. apply Inv_set_profile; assumption.
Qed.


Ltac hoare_unit :=
  first [ apply hoare_answer | apply hoare_state_clear
        | apply hoare_state_set_state
        | apply hoare_state_update_data; intros ? H; exact H ].

Ltac hoare_seq :=
  repeat first
    [ hoare_unit
    | eapply hoare_bind; [ hoare_unit | intros _ _ ] ].

Lemma hoare_lift_eq {A} (r : result A) : hoare (lift r) (fun a => r = Ok a).
Proof. apply hoare_lift. auto. Qed.

Section Handlers.

Variable message : Message.

Lemma cmd_start_Inv : hoare (cmd_start message) (fun _ => True).
Proof. unfold cmd_start. hoare_seq. Qed.

Lemma cmd_set_profile_Inv :
  hoare (cmd_set_profile message) (fun _ => True).
Proof. unfold cmd_set_profile. hoare_seq. Qed.

Lemma process_weight_Inv : hoare (process_weight message) (fun _ => True).
Proof.
  unfold process_weight. apply hoare_try; [|hoare_seq].
  eapply hoare_bind; [apply hoare_lift_eq | intros x _]. hoare_seq.
Qed.

Lemma process_height_Inv : hoare (process_height message) (fun _ => True).
Proof.
  unfold process_height. apply hoare_try; [|hoare_seq].
  eapply hoare_bind; [apply hoare_lift_eq | intros x _]. hoare_seq.
Qed.

Lemma process_age_Inv : hoare (process_age message) (fun _ => True).
Proof.
  unfold process_age. apply hoare_try; [|hoare_seq].
  eapply hoare_bind; [apply hoare_lift_eq | intros x _]. hoare_seq.
Qed.

Lemma process_activity_Inv :
  hoare (process_activity message) (fun _ => True).
Proof.
  unfold process_activity. apply hoare_try; [|hoare_seq].
  eapply hoare_bind; [apply hoare_lift_eq | intros x _]. hoare_seq.
Qed.

Lemma process_city_Inv net :
  hoare (process_city message net) (fun _ => True).
Proof.
  unfold process_city.
  eapply hoare_bind; [apply hoare_state_get_data | intros d _].
  do 6 (eapply hoare_bind; [apply hoare_lift_eq | intros ? _]).
  eapply hoare_bind; [|intros _ _; hoare_seq].
  apply hoare_user_profiles_set. split; simpl; [lia | reflexivity].
Qed.

Lemma cmd_log_water_Inv : hoare (cmd_log_water message) (fun _ => True).
Proof.
  unfold cmd_log_water.
  eapply hoare_bind; [apply hoare_user_profiles_get | intros [p |] _];
    hoare_seq.
Qed.

Lemma process_log_water_Inv :
  (forall amount, py_int_of_text (text message) = Ok amount -> 0 <= amount) ->
  hoare (process_log_water message) (fun _ => True).
Proof.
  intros Hpos. unfold process_log_water.
  eapply hoare_bind; [apply hoare_user_profiles_get | intros [p |] Hp];
    [|hoare_seq].
  apply hoare_try; [|hoare_seq].
  eapply hoare_bind; [apply hoare_lift_eq | intros amount Ha].
  eapply hoare_bind.
  - apply hoare_user_profiles_set. destruct (Hp p eq_refl) as [H1 H2].
    split; simpl; [|exact H2]. specialize (Hpos amount Ha). lia.
  - intros _ _. eapply hoare_bind; [hoare_unit | intros _ _].
    destruct (_ <=? 0); hoare_seq.
Qed.

Lemma cmd_log_food_Inv : hoare (cmd_log_food message) (fun _ => True).
Proof.
  unfold cmd_log_food.
  eapply hoare_bind; [apply hoare_user_profiles_get | intros [p |] _];
    hoare_seq.
Qed.

Lemma process_log_food_name_Inv net :
  (forall f, get_food_info (text message) net = Some f -> food_ok f = true) ->
  hoare (process_log_food_name message net) (fun _ => True).
Proof.
  intros Hf. unfold process_log_food_name.
  destruct (get_food_info (text message) net) as [f |]; [|hoare_seq].
  eapply hoare_bind; [|intros _ _; hoare_seq].
  apply hoare_state_update_data. intros d _ f' [= <-]. now apply Hf.
Qed.

(** The calories of a portion are not negative. *)
Lemma portion_nonneg (f : food_info) (amount : Z) (total : pynum) :
  food_ok f = true -> 0 <= amount ->
  (calories_per_100g <- as_num (calories f) ;;
   per_gram <- num_truediv calories_per_100g (PInt 100) ;;
   num_mul per_gram (PInt amount)) = Ok total ->
  exists t, total = PFloat t /\ PyFloat.nonneg t = true.
Proof.
  unfold food_ok. intros Hf Ha.
  destruct (as_num (calories f)) as [[z | x] | e]; [| | discriminate];
    cbn [bind]; unfold num_truediv.
  - apply Z.leb_le in Hf. change (100 =? 0) with false. cbv iota.
    replace (z <? 0) with false by (symmetry; apply Z.ltb_ge, Hf).
    change (xorb false (100 <? 0)) with false.
    destruct (PyFloat.is_finite (PyFloat.of_ratio _ _ _)) eqn:F;
      [|discriminate].
    cbn [bind]. unfold num_mul, float_binop, to_float. cbn [bind].
    destruct (PyFloat.is_finite (PyFloat.of_Z amount)) eqn:G; [|discriminate].
    cbn [bind]. intros [= <-]. eexists; split; [reflexivity|].
    apply mul_nonneg; auto using of_Z_nonneg. apply of_ratio_nonneg; lia.
  - apply andb_prop in Hf as [Hf Hv]. apply andb_prop in Hf as [Hn Hfin].
    unfold to_float.
    change (PyFloat.is_finite (PyFloat.of_Z 100)) with true. cbn [bind].
    change (PyFloat.is_zero (PyFloat.of_Z 100)) with false. cbv iota.
    cbn [bind]. unfold num_mul, float_binop, to_float. cbn [bind].
    destruct (PyFloat.is_finite (PyFloat.of_Z amount)) eqn:G; [|discriminate].
    cbn [bind]. intros [= <-]. eexists; split; [reflexivity|].
    apply mul_nonneg; auto using of_Z_nonneg, div_100_finite.
    change (PyFloat.of_Z 100) with (S754_finite false 7036874417766400 (-46)).
    now apply div_nonneg.
Qed.

Lemma num_add_nonneg (a b c : pynum) (t : float) :
  num_nonneg a = true -> b = PFloat t -> PyFloat.nonneg t = true ->
  num_add a b = Ok c -> num_nonneg c = true.
Proof.
  intros Ha -> Ht. destruct a as [z | x]; unfold num_add, float_binop, to_float.
  - destruct (PyFloat.is_finite (PyFloat.of_Z z)) eqn:F; [|discriminate].
    cbn [bind]. intros [= <-]. rewrite num_nonneg_float.
    apply add_nonneg; [|exact Ht]. apply of_Z_nonneg.
    unfold num_nonneg, num_compare in Ha.
    destruct (Z.compare_spec z 0); lia || discriminate.
  - cbn [bind]. intros [= <-]. rewrite num_nonneg_float in *.
    now apply add_nonneg.
Qed.

Lemma process_log_food_amount_Inv :
  (forall amount, py_int_of_text (text message) = Ok amount -> 0 <= amount) ->
  hoare (process_log_food_amount message) (fun _ => True).
Proof.
  intros Hpos. unfold process_log_food_amount. apply hoare_try; [|hoare_seq].
  eapply hoare_bind; [apply hoare_lift_eq | intros amount Ha].
  eapply hoare_bind; [apply hoare_state_get_data | intros d Hd].
  destruct (data_current_food d) as [f |] eqn:Ef; [|hoare_seq].
  eapply hoare_bind; [apply hoare_lift_eq | intros total Ht].
  eapply hoare_bind; [apply hoare_user_profiles_get | intros o Ho].
  eapply hoare_bind; [apply hoare_lift_eq | intros p Hp].
  eapply hoare_bind; [apply hoare_lift_eq | intros updated Hu].
  eapply hoare_bind; [|intros _ _; hoare_seq].
  apply hoare_user_profiles_set.
  destruct o as [p' |]; [|discriminate]. injection Hp as ->.
  destruct (Ho p eq_refl) as [H1 H2]. split; simpl; [exact H1|].
  destruct (portion_nonneg f amount total (Hd f Ef) (Hpos amount Ha) Ht)
    as (t & Et & Hn).
  exact (num_add_nonneg _ _ _ t H2 Et Hn Hu).
Qed.

Lemma cmd_check_progress_Inv :
  hoare (cmd_check_progress message) (fun _ => True).
Proof.
  unfold cmd_check_progress.
  eapply hoare_bind; [apply hoare_user_profiles_get | intros [p |] _];
    hoare_seq.
Qed.

Lemma cmd_check_food_info_Inv :
  hoare (cmd_check_food_info message) (fun _ => True).
Proof. unfold cmd_check_food_info. hoare_seq. Qed.

Lemma process_food_info_Inv net :
  hoare (process_food_info message net) (fun _ => True).
Proof.
  unfold process_food_info.
  eapply hoare_bind; [hoare_unit | intros _ _].
  destruct (get_food_info _ _); hoare_seq.
Qed.

Lemma fallback_handler_Inv :
  hoare (fallback_handler message) (fun _ => True).
Proof. unfold fallback_handler. hoare_seq. Qed.

End Handlers.

Lemma dispatch_Inv (w : world) (message : Message) (net : http_outcome)
  (h : handler) :
  benign w message net = true ->
  first_match dp (bot_username w) message
    (state (get_ctx (from_user_id message) w)) = Some h ->
  hoare (h message net) (fun _ => True).
Proof.
  intros Hb. unfold benign in Hb. unfold dp, first_match.
  repeat match goal with
         | |- context [passes ?u ?f message ?s] =>
             let E := fresh "E" in
             destruct (passes u f message s) eqn:E;
             [ intros [= <-];
               try (apply bool_decide_eq_true in E; rewrite E in Hb) | ]
         end;
    try discriminate;
    auto using cmd_start_Inv, cmd_set_profile_Inv, process_weight_Inv,
      process_height_Inv, process_age_Inv, process_activity_Inv,
      process_city_Inv, cmd_log_water_Inv, cmd_log_food_Inv,
      cmd_check_progress_Inv, cmd_check_food_info_Inv, process_food_info_Inv,
      fallback_handler_Inv.
  - apply process_log_water_Inv. intros amount Ha. rewrite Ha in Hb.
    now apply Z.leb_le.
  - apply process_log_food_name_Inv. intros f Hf. now rewrite Hf in Hb.
  - apply process_log_food_amount_Inv. intros amount Ha. rewrite Ha in Hb.
    now apply Z.leb_le.
Qed.

Lemma step_Inv (w : world) (message : Message) (net : http_outcome) :
  Inv w -> benign w message net = true -> Inv (fst (step w message net)).
Proof.
  intros Hw Hb. unfold step, dispatch.
  destruct (first_match dp _ message _) as [h |] eqn:E; [|exact Hw].
  destruct (dispatch_Inv w message net h Hb E w Hw) as [H _].
  unfold post in H. now destruct (h message net w) as [[r w'] out].
Qed.

Lemma benign_reachable_Inv (w : world) : benign_reachable w -> Inv w.
Proof.
  induction 1 as [| w message net _ IH Hb].
  - apply Inv_startup.
  - now apply step_Inv.
Qed.


Lemma run_app (w : world) (l l' : list event) :
  run w (l ++ l') = run (run w l) l'.
Proof. apply fold_left_app. Qed.

Lemma run_reachable (events : list event) :
  forall w, reachable w -> reachable (run w events).
Proof.
  induction events as [| [message net] r IH]; intros w Hw; [exact Hw|].
  apply IH. now apply reachable_step.
Qed.

Lemma benign_reachable_reachable (w : world) : benign_reachable w -> reachable w.
Proof. induction 1; [constructor | now constructor]. Qed.

Lemma benign_trace_reachable (events : list event) :
  forall w, benign_reachable w -> benign_trace w events = true ->
            benign_reachable (run w events).
Proof.
  induction events as [| [message net] r IH]; intros w Hw Hb; [exact Hw|].
  simpl in Hb. apply andb_prop in Hb as [H1 H2].
  apply IH; [now apply benign_step | exact H2].
Qed.

(** C7, as amended. The water and the food-amount steps accept every
    integer, the negative ones too. In every world reached by benign turns
    (each amount that these two steps accept is not negative, and each food
    kept by the food-name step has calories that are finite and not
    negative), every profile has a logged water and logged calories that
    are not negative. *)
Theorem logs_nonneg_on_benign_runs (w : world) (uid : Z) (p : profile) :
  benign_reachable w ->
  user_profiles w !! uid = Some p ->
  0 <= logged_water p /\ num_nonneg (logged_calories p) = true.
Proof.
  intros Hw Hp. destruct (benign_reachable_Inv w Hw) as [H _].
  exact (H uid p Hp).
Qed.

(** The theorem at the end of that conversation: 250 ml and 78.0 kcal. *)
Lemma logs_nonneg_on_benign_runs_witness :
  0 <= 250 /\ num_nonneg (PFloat (PyFloat.of_Z 78)) = true.
Proof.
  exact (logs_nonneg_on_benign_runs (run initial drinks_and_eats) 7
           (with_logged_calories (PFloat (PyFloat.of_Z 78))
              (with_logged_water 250 oslo_profile))
           (benign_trace_reachable drinks_and_eats initial (benign_startup _)
              ltac:(vm_compute; reflexivity))
           ltac:(vm_compute; reflexivity)).
Defined.

(** C7 fails as stated: the water step accepts "-500", after which the
    logged water of a reachable world is -500. *)
Lemma negative_water_reachable :
  reachable (run initial (to_water ++ [ offline (says 7 "-500") ]))
  /\ parse_int "-500" = Some (-500)
  /\ option_map logged_water
       (user_profiles (run initial (to_water ++ [ offline (says 7 "-500") ]))
        !! 7)
     = Some (-500).
Proof.
  split; [apply run_reachable; constructor|].
  split; vm_compute; reflexivity.
Qed.

(** The food-amount step accepts negative grams as well. *)
Example negative_grams_reachable :
  option_map (fun p => num_nonneg (logged_calories p))
    (user_profiles
       (run initial
          (to_profile
           ++ [ offline (says 7 "Log Food");
                (says 7 "apple",
                 products [VDict [("nutriments",
                                   VDict [("energy-kcal_100g", VInt 52)])]]);
                offline (says 7 "-150") ])) !! 7)
  = Some false.
Proof. vm_compute. reflexivity. Qed.
(** ** What each handler does, in closed form *)

Section Effects.

Variable message : Message.
Variable w : world.

Local Abbreviation uid := (from_user_id message).
Local Abbreviation ctx := (get_ctx (from_user_id message) w).

Lemma cmd_set_profile_effect :
  cmd_set_profile message w
  = (Ok tt,
     set_ctx uid {| state := Some ProfileStates_weight; data := no_data |} w,
     [ {| body := EnterWeight; markup := ReplyKeyboardRemove |} ]).
Proof.
  unfold cmd_set_profile, bindM, state_clear, state_set_state, answer.
  cbn [app]. now rewrite get_ctx_set_ctx, set_ctx_set_ctx.
Qed.

Lemma process_weight_effect :
  process_weight message w
  = match py_float_of_text (text message) with
    | Ok x =>
        (Ok tt,
         set_ctx uid {| state := Some ProfileStates_height;
                        data := with_weight x (data ctx) |} w,
         [ {| body := EnterHeight; markup := no_markup |} ])
    | Raise ValueError =>
        (Ok tt, w, [ {| body := InvalidWeight; markup := no_markup |} ])
    | Raise e => (Raise e, w, [])
    end.
Proof.
  unfold process_weight, try_except_ValueError, bindM, lift.
  destruct (py_float_of_text (text message)) as [x | []]; try reflexivity.
  unfold state_update_data, state_set_state, answer. cbn [app].
  now rewrite get_ctx_set_ctx, set_ctx_set_ctx.
Qed.

Lemma process_height_effect :
  process_height message w
  = match py_float_of_text (text message) with
    | Ok x =>
        (Ok tt,
         set_ctx uid {| state := Some ProfileStates_age;
                        data := with_height x (data ctx) |} w,
         [ {| body := EnterAge; markup := no_markup |} ])
    | Raise ValueError =>
        (Ok tt, w, [ {| body := InvalidHeight; markup := no_markup |} ])
    | Raise e => (Raise e, w, [])
    end.
Proof.
  unfold process_height, try_except_ValueError, bindM, lift.
  destruct (py_float_of_text (text message)) as [x | []]; try reflexivity.
  unfold state_update_data, state_set_state, answer. cbn [app].
  now rewrite get_ctx_set_ctx, set_ctx_set_ctx.
Qed.

Lemma process_age_effect :
  process_age message w
  = match py_int_of_text (text message) with
    | Ok x =>
        (Ok tt,
         set_ctx uid {| state := Some ProfileStates_activity;
                        data := with_age x (data ctx) |} w,
         [ {| body := EnterActivity; markup := no_markup |} ])
    | Raise ValueError =>
        (Ok tt, w, [ {| body := InvalidAge; markup := no_markup |} ])
    | Raise e => (Raise e, w, [])
    end.
Proof.
  unfold process_age, try_except_ValueError, bindM, lift.
  destruct (py_int_of_text (text message)) as [x | []]; try reflexivity.
  unfold state_update_data, state_set_state, answer. cbn [app].
  now rewrite get_ctx_set_ctx, set_ctx_set_ctx.
Qed.

Lemma process_activity_effect :
  process_activity message w
  = match py_int_of_text (text message) with
    | Ok x =>
        (Ok tt,
         set_ctx uid {| state := Some ProfileStates_city;
                        data := with_activity x (data ctx) |} w,
         [ {| body := EnterCity; markup := no_markup |} ])
    | Raise ValueError =>
        (Ok tt, w, [ {| body := InvalidActivity; markup := no_markup |} ])
    | Raise e => (Raise e, w, [])
    end.
Proof.
  unfold process_activity, try_except_ValueError, bindM, lift.
  destruct (py_int_of_text (text message)) as [x | []]; try reflexivity.
  unfold state_update_data, state_set_state, answer. cbn [app].
  now rewrite get_ctx_set_ctx, set_ctx_set_ctx.
Qed.

Lemma process_city_effect (net : http_outcome) :
  process_city message net w
  = match city_profile (data ctx) (text message)
            (py_or (get_weather_temp (text message) net) (VFloat f20_0)) with
    | Ok p =>
        (Ok tt, set_ctx uid idle (set_profile uid p w),
         [ {| body := ProfileSet p; markup := get_main_menu |} ])
    | Raise e => (Raise e, w, [])
    end.
Proof.
  unfold process_city, city_profile, bindM, state_get_data, lift. cbn [fst snd].
  repeat match goal with
         | |- context [bind ?r _] =>
             destruct r as [? | ?]; cbn [bind]; [|reflexivity]
         | |- context [operand ?o] =>
             destruct o as [? |]; cbn [operand bind]; [|reflexivity]
         end.
  reflexivity.
Qed.

Lemma cmd_log_water_effect :
  cmd_log_water message w
  = match user_profiles w !! uid with
    | None =>
        (Ok tt, w,
         [ {| body := SetProfileFirstButton; markup := get_main_menu |} ])
    | Some _ =>
        (Ok tt,
         set_ctx uid
           {| state := Some LogWaterStates_amount; data := data ctx |} w,
         [ {| body := EnterWater; markup := ReplyKeyboardRemove |} ])
    end.
Proof.
  unfold cmd_log_water, bindM, user_profiles_get.
  destruct (user_profiles w !! uid); reflexivity.
Qed.

Lemma process_log_water_effect :
  process_log_water message w
  = match user_profiles w !! uid with
    | None =>
        (Ok tt, set_ctx uid idle w,
         [ {| body := SetProfileFirst; markup := get_main_menu |} ])
    | Some p =>
        match py_int_of_text (text message) with
        | Ok amount =>
            (Ok tt,
             set_ctx uid idle
               (set_profile uid
                  (with_logged_water (logged_water p + amount) p) w),
             [ water_reply p amount ])
        | Raise ValueError =>
            (Ok tt, w, [ {| body := InvalidNumber250; markup := no_markup |} ])
        | Raise e => (Raise e, w, [])
        end
    end.
Proof.
  unfold process_log_water, bindM, user_profiles_get.
  destruct (user_profiles w !! uid) as [p |]; [|reflexivity].
  unfold try_except_ValueError, bindM, lift.
  destruct (py_int_of_text (text message)) as [amount | []]; try reflexivity.
  unfold water_reply. cbn -[Z.max Z.leb Z.add Z.sub].
  destruct (Z.max _ _ <=? 0); reflexivity.
Qed.

Lemma cmd_log_food_effect :
  cmd_log_food message w
  = match user_profiles w !! uid with
    | None =>
        (Ok tt, w,
         [ {| body := SetProfileFirstButton; markup := get_main_menu |} ])
    | Some _ =>
        (Ok tt,
         set_ctx uid
           {| state := Some LogFoodStates_food_name; data := data ctx |} w,
         [ {| body := EnterFoodToLog; markup := ReplyKeyboardRemove |} ])
    end.
Proof.
  unfold cmd_log_food, bindM, user_profiles_get.
  destruct (user_profiles w !! uid); reflexivity.
Qed.

Lemma process_log_food_name_effect (net : http_outcome) :
  process_log_food_name message net w
  = match get_food_info (text message) net with
    | Some f =>
        (Ok tt,
         set_ctx uid {| state := Some LogFoodStates_food_amount;
                        data := with_current_food f (data ctx) |} w,
         [ {| body := FoodFound f; markup := no_markup |} ])
    | None => (Ok tt, w, [ {| body := FoodNotFound; markup := no_markup |} ])
    end.
Proof.
  unfold process_log_food_name.
  destruct (get_food_info (text message) net) as [f |]; [|reflexivity].
  unfold bindM, state_update_data, state_set_state, answer.
  cbn [app]. now rewrite get_ctx_set_ctx, set_ctx_set_ctx.
Qed.

Lemma process_log_food_amount_effect :
  process_log_food_amount message w
  = match py_int_of_text (text message) with
    | Ok amount =>
        match data_current_food (data ctx) with
        | None =>
            (Ok tt, set_ctx uid idle w,
             [ {| body := SomethingWentWrong; markup := get_main_menu |} ])
        | Some f =>
            match portion f amount with
            | Ok total =>
                match user_profiles w !! uid with
                | Some p =>
                    match num_add (logged_calories p) total with
                    | Ok updated =>
                        (Ok tt,
                         set_ctx uid idle
                           (set_profile uid (with_logged_calories updated p) w),
                         [ {| body := FoodLogged f amount total updated;
                              markup := get_main_menu |} ])
                    | Raise ValueError =>
                        (Ok tt, w,
                         [ {| body := InvalidNumber150; markup := no_markup |} ])
                    | Raise e => (Raise e, w, [])
                    end
                | None => (Raise KeyError, w, [])
                end
            | Raise ValueError =>
                (Ok tt, w,
                 [ {| body := InvalidNumber150; markup := no_markup |} ])
            | Raise e => (Raise e, w, [])
            end
        end
    | Raise ValueError =>
        (Ok tt, w, [ {| body := InvalidNumber150; markup := no_markup |} ])
    | Raise e => (Raise e, w, [])
    end.
Proof.
  unfold process_log_food_amount, try_except_ValueError, bindM, lift,
    state_get_data, user_profiles_get.
  destruct (py_int_of_text (text message)) as [amount | []]; try reflexivity.
  cbn [fst snd]. destruct (data_current_food (data ctx)) as [f |];
    [|reflexivity].
  fold (portion f amount).
  destruct (portion f amount) as [total | []]; try reflexivity.
  cbn [fst snd]. destruct (user_profiles w !! uid) as [p |]; [|reflexivity].
  destruct (num_add (logged_calories p) total) as [updated | []];
    reflexivity.
Qed.

Lemma cmd_check_progress_effect :
  cmd_check_progress message w
  = (Ok tt, w,
     [ {| body := match user_profiles w !! uid with
                  | Some p => Progress p
                  | None => SetProfileFirstButton
                  end;
          markup := get_main_menu |} ]).
Proof.
  unfold cmd_check_progress, bindM, user_profiles_get.
  destruct (user_profiles w !! uid); reflexivity.
Qed.

Lemma cmd_check_food_info_effect :
  cmd_check_food_info message w
  = (Ok tt,
     set_ctx uid
       {| state := Some FoodInfoStates_food_name; data := data ctx |} w,
     [ {| body := EnterFoodToCheck; markup := ReplyKeyboardRemove |} ]).
Proof. reflexivity. Qed.

Lemma process_food_info_effect (net : http_outcome) :
  process_food_info message net w
  = (Ok tt, set_ctx uid idle w,
     [ {| body := match get_food_info (text message) net with
                  | Some f => ProductInfo f
                  | None => ProductNotFound
                  end;
          markup := get_main_menu |} ]).
Proof.
  unfold process_food_info, bindM, state_clear.
  destruct (get_food_info (text message) net); reflexivity.
Qed.

End Effects.
(** The cases of a turn: which handler runs, and what it makes of its
    input. *)
Ltac step_cases message :=
  unfold step, dispatch, dp, first_match;
  repeat match goal with
         | |- context [passes ?u ?f message ?s] =>
             let E := fresh "E" in
             destruct (passes u f message s) eqn:E;
             [ try apply bool_decide_eq_true in E | ]
         end;
  try discriminate;
  rewrite ?cmd_set_profile_effect, ?process_weight_effect,
    ?process_height_effect, ?process_age_effect, ?process_activity_effect,
    ?process_city_effect, ?cmd_log_water_effect, ?process_log_water_effect,
    ?cmd_log_food_effect, ?process_log_food_name_effect,
    ?process_log_food_amount_effect, ?cmd_check_progress_effect,
    ?cmd_check_food_info_effect, ?process_food_info_effect;
  unfold cmd_start, fallback_handler, answer;
  repeat match goal with
         | |- context [match ?x with _ => _ end] =>
             lazymatch x with
             | context [match _ with _ => _ end] => fail
             | _ => destruct x eqn:?
             end
         end;
  cbn [fst snd].

(** A turn writes at most the context and the profile of the user who sent
    the message; when it writes the profile, the user was at the city step
    or had a profile already. *)
Lemma step_shape (w : world) (message : Message) (net : http_outcome) :
  let uid := from_user_id message in
  let w' := fst (step w message net) in
  w' = w
  \/ (exists c, w' = set_ctx uid c w)
  \/ (exists c p, w' = set_ctx uid c (set_profile uid p w)
                  /\ (state (get_ctx uid w) = Some ProfileStates_city
                      \/ is_Some (user_profiles w !! uid))).
Proof.
  intros uid w'. unfold w', uid.
  step_cases message; eauto 8.
Qed.
(** ** Users do not interfere, and profiles stay *)

(** X3. Users do not interfere: a turn leaves the context and the profile
    of every user other than the sender as they were. *)
Theorem step_other_user (w : world) (message : Message) (net : http_outcome)
  (uid : Z) :
  uid <> from_user_id message ->
  storage (fst (step w message net)) !! uid = storage w !! uid
  /\ user_profiles (fst (step w message net)) !! uid = user_profiles w !! uid.
Proof.
  intros Hne.
  destruct (step_shape w message net) as [-> | [[c ->] | (c & p & -> & _)]];
    unfold set_ctx, set_profile; cbn [storage user_profiles];
    rewrite ?lookup_insert_ne by congruence; auto.
Qed.

Lemma step_profile_stays (w : world) (message : Message) (net : http_outcome)
  (uid : Z) :
  is_Some (user_profiles w !! uid) ->
  is_Some (user_profiles (fst (step w message net)) !! uid).
Proof.
  intros H.
  destruct (step_shape w message net) as [-> | [[c ->] | (c & p & -> & _)]];
    unfold set_ctx, set_profile; cbn [storage user_profiles]; auto.
  rewrite lookup_insert. destruct (decide _); eauto.
Qed.

(** X4. A profile is never deleted: whoever has a profile has one after
    any sequence of turns. *)
Theorem profile_stays (events : list event) :
  forall (w : world) (uid : Z),
    is_Some (user_profiles w !! uid) ->
    is_Some (user_profiles (run w events) !! uid).
Proof.
  induction events as [| [message net] r IH]; intros w uid H; [exact H|].
  apply IH. now apply step_profile_stays.
Qed.

(** X5. Only the city step creates a profile: when a turn gives a profile
    to a user who had none, the user is the sender and was at the city
    step. *)
Theorem profile_created_by_city_step (w : world) (message : Message)
  (net : http_outcome) (uid : Z) :
  user_profiles w !! uid = None ->
  is_Some (user_profiles (fst (step w message net)) !! uid) ->
  uid = from_user_id message
  /\ state (get_ctx uid w) = Some ProfileStates_city.
Proof.
  intros Hn Hs.
  destruct (step_shape w message net) as [E | [[c E] | (c & p & E & Hc)]];
    rewrite E in Hs; unfold set_ctx, set_profile in Hs;
    cbn [storage user_profiles] in Hs;
    try (rewrite Hn in Hs; destruct Hs; discriminate).
  rewrite lookup_insert in Hs. destruct (decide _) as [<- | Hne].
  - split; [reflexivity|]. destruct Hc as [Hc | [p' Hc]]; [exact Hc|].
    congruence.
  - rewrite Hn in Hs. destruct Hs; discriminate.
Qed.

Lemma step_other_user_witness :
  storage (fst (step (run initial to_water) (says 7 "250") TransportFailure))
    !! 8
  = storage (run initial to_water) !! 8
  /\ user_profiles
       (fst (step (run initial to_water) (says 7 "250") TransportFailure))
       !! 8
     = user_profiles (run initial to_water) !! 8.
Proof.
  apply (step_other_user (run initial to_water) (says 7 "250")
           TransportFailure 8).
  vm_compute. discriminate.
Defined.

Lemma profile_stays_witness :
  is_Some
    (user_profiles
       (run (run initial to_profile)
          [ offline (says 7 "Set Profile"); offline (says 7 "/start") ])
     !! 7).
Proof.
  apply (profile_stays
           [ offline (says 7 "Set Profile"); offline (says 7 "/start") ]
           (run initial to_profile) 7).
  exists oslo_profile. vm_compute. reflexivity.
Defined.

Lemma profile_created_by_city_step_witness :
  7 = from_user_id (says 7 "Oslo")
  /\ state (get_ctx 7 (run initial to_city)) = Some ProfileStates_city.
Proof.
  apply (profile_created_by_city_step (run initial to_city) (says 7 "Oslo")
           TransportFailure 7).
  - vm_compute. reflexivity.
  - exists oslo_profile. vm_compute. reflexivity.
Defined.

(** ** What reachable worlds look like *)

Lemma Good_startup (username : option string) : Good (startup username).
Proof.
  intros uid. unfold get_ctx, startup. cbn [storage user_profiles].
  rewrite !lookup_empty. repeat split; try discriminate.
Qed.

Lemma Good_set_ctx (uid : Z) (c : FSMContext) (w : world) :
  Good w -> user_ok c (user_profiles w !! uid) -> Good (set_ctx uid c w).
Proof.
  intros H Hc uid'. destruct (decide (uid = uid')) as [<- | Hne].
  - now rewrite get_ctx_set_ctx.
  - rewrite get_ctx_set_ctx_ne by exact Hne. apply H.
Qed.

Lemma Good_set_both (uid : Z) (c : FSMContext) (p : profile) (w : world) :
  Good w -> user_ok c (Some p) -> Good (set_ctx uid c (set_profile uid p w)).
Proof.
  intros H Hc uid'. destruct (decide (uid = uid')) as [<- | Hne].
  - rewrite get_ctx_set_ctx. unfold set_ctx, set_profile.
    cbn [user_profiles]. now rewrite lookup_insert_eq.
  - rewrite get_ctx_set_ctx_ne by exact Hne. unfold set_ctx, set_profile.
    cbn [user_profiles]. rewrite lookup_insert_ne by exact Hne. apply H.
Qed.

Lemma truthy_py_or (x y : pyval) : truthy y = true -> truthy (py_or x y) = true.
Proof. intros H. unfold py_or. now destruct (truthy x) eqn:E. Qed.

Lemma city_profile_consistent (d : fsm_data) (city : option string)
  (temp : pyval) (p : profile) :
  truthy temp = true -> city_profile d city temp = Ok p ->
  profile_consistent p /\ logged_water p = 0 /\ logged_calories p = PInt 0.
Proof.
  intros Ht. unfold city_profile.
  destruct (data_weight d) as [x |]; [|discriminate].
  destruct (data_activity d) as [a |]; [|discriminate]. cbn [operand bind].
  destruct (calculate_water_goal x a temp) as [wg |] eqn:Ew; [|discriminate].
  destruct (data_height d) as [h |]; [|discriminate].
  destruct (data_age d) as [g |]; [|discriminate]. cbn [operand bind].
  destruct (calculate_calorie_goal x h g a) as [cg |] eqn:Ec; [|discriminate].
  cbn [bind]. intros [= <-]. repeat split; assumption.
Qed.
Lemma with_logged_water_consistent (v : Z) (p : profile) :
  profile_consistent p -> profile_consistent (with_logged_water v p).
Proof. exact (fun H => H). Qed.

Lemma with_logged_calories_consistent (v : pynum) (p : profile) :
  profile_consistent p -> profile_consistent (with_logged_calories v p).
Proof. exact (fun H => H). Qed.

Lemma step_Good (w : world) (message : Message) (net : http_outcome) :
  Good w -> Good (fst (step w message net)).
Proof.
  intros HG.
  step_cases message; trivial;
    try (apply Good_set_ctx; [exact HG|]);
    try (apply Good_set_both; [exact HG|]);
    pose proof (HG (from_user_id message)) as (Hd & Hn & Hc);
    unfold data_complete in Hd;
    repeat match goal with
           | H : state _ = Some _ |- _ => rewrite H in Hd, Hn; clear H
           end;
    cbn iota in Hd;
    unfold user_ok, data_complete; cbn [state data needs_profile
      with_weight with_height with_age with_activity with_current_food
      data_weight data_height data_age data_activity data_current_food
      idle no_data];
    (split; [|split]);
    first
      [ exact I
      | exact Hc
      | intros; discriminate
      | intros _; first [ eexists; eassumption | eexists; reflexivity
                        | apply Hn; reflexivity ]
      | intros ? [= <-];
        first [ apply with_logged_water_consistent, Hc; assumption
              | apply with_logged_calories_consistent, Hc; assumption
              | eapply city_profile_consistent; [|eassumption];
                apply truthy_py_or; reflexivity ]
      | try decompose [and] Hd; repeat split;
        first [ assumption | eexists; reflexivity ] ].
Qed.

Lemma reachable_Good (w : world) : reachable w -> Good w.
Proof.
  induction 1 as [| w message net _ IH]; [apply Good_startup|].
  now apply step_Good.
Qed.
(** ** The order of the handlers *)

(** X6. Which handler a message gets.  A [/start] command gets [cmd_start]
    in every state.  Any other message whose text is that of a button
    registered before the handler of the sender's state gets the handler of
    the first such button.  Every other message gets the handler of the
    state, and the fallback handler when the sender is in no state. *)
Theorem dispatch_routing (w : world) (message : Message) (net : http_outcome) :
  let st := state (get_ctx (from_user_id message) w) in
  dispatch message net w
  = if is_start_command (bot_username w) message then cmd_start message w
    else
      match find (has_text message) (buttons_before st) with
      | Some b => button_handler b message w
      | None => handler_for st message net w
      end.
Proof.
  intros st. unfold dispatch, dp, first_match, passes. fold st.
  destruct (is_start_command (bot_username w) message); [reflexivity|].
  destruct st as [[] |]; cbn [buttons_before find];
    repeat match goal with
           | |- context [has_text message ?b] =>
               destruct (has_text message b)
           end;
    reflexivity.
Qed.

(** ** More on the goal calculators *)

Lemma py_int_Ok (n : pynum) (z : Z) :
  py_int n = Ok z ->
  match n with PInt _ => True | PFloat x => PyFloat.is_finite x = true end.
Proof. destruct n as [| []]; simpl; intros H; try discriminate; auto. Qed.

Lemma float_binop_Ok (op : float -> float -> float) (a b r : pynum) :
  float_binop op a b = Ok r ->
  exists x y, to_float a = Ok x /\ to_float b = Ok y /\ r = PFloat (op x y).
Proof.
  unfold float_binop. destruct (to_float a) as [x |]; [|discriminate].
  destruct (to_float b) as [y |]; [|discriminate]. cbn [bind].
  intros [= <-]. eauto.
Qed.

Lemma to_float_Ok_int (z : Z) (x : float) :
  to_float (PInt z) = Ok x -> x = PyFloat.of_Z z /\ PyFloat.is_finite x = true.
Proof.
  unfold to_float. destruct (PyFloat.is_finite (PyFloat.of_Z z)) eqn:E;
    [|discriminate].
  intros [= <-]. auto.
Qed.

Lemma num_add_float_int_Ok (x : float) (n : Z) (r : pynum) :
  num_add (PFloat x) (PInt n) = Ok r ->
  PyFloat.is_finite (PyFloat.of_Z n) = true
  /\ r = PFloat (PyFloat.add x (PyFloat.of_Z n)).
Proof.
  unfold num_add. intros H.
  apply float_binop_Ok in H as (x' & y' & [= <-] & Hy & ->).
  apply to_float_Ok_int in Hy as [-> Hfin]. auto.
Qed.

(** What [water_sum] returns is the float sum. *)
Lemma water_sum_Ok (weight : float) (activity_minutes : Z)
  (temperature : pyval) (s : pynum) :
  water_sum weight activity_minutes temperature = Ok s ->
  exists t heat,
    as_num temperature = Ok t
    /\ heat = (if num_gt t (PInt 25) then 500 else 0)
    /\ PyFloat.is_finite (PyFloat.of_Z (activity_minutes / 30 * 500)) = true
    /\ s = PFloat (PyFloat.add
                     (PyFloat.add (PyFloat.mul weight (PyFloat.of_Z 30))
                        (PyFloat.of_Z (activity_minutes / 30 * 500)))
                     (PyFloat.of_Z heat)).
Proof.
  unfold water_sum. rewrite num_mul_float_int by reflexivity. cbn [bind].
  destruct (as_num temperature) as [t |]; [|discriminate]. cbn [bind].
  intros H.
  destruct (num_add _ (PInt (activity_minutes / 30 * 500)))
    as [s1 |] eqn:E1; [|discriminate].
  cbn [bind] in H.
  apply num_add_float_int_Ok in E1 as [Hfin ->].
  apply num_add_float_int_Ok in H as [_ ->].
  eauto 6.
Qed.

(** X7. The water goal is computed only for a finite weight: [nan] and the
    infinities make [int] raise. *)
Theorem calculate_water_goal_finite_weight (weight : float)
  (activity_minutes : Z) (temperature : pyval) (goal : Z) :
  calculate_water_goal weight activity_minutes temperature = Ok goal ->
  PyFloat.is_finite weight = true.
Proof.
  unfold calculate_water_goal.
  destruct (water_sum weight activity_minutes temperature) as [s |] eqn:E;
    [|discriminate].
  cbn [bind]. intros H. apply py_int_Ok in H.
  apply water_sum_Ok in E as (t & heat & _ & _ & _ & ->).
  apply add_finite in H as [H _]. apply add_finite in H as [H _].
  now apply mul_finite in H.
Qed.

(** X8. For a weight above zero and an activity that is not negative, a
    water goal that is computed is not negative. *)
Theorem calculate_water_goal_nonneg (weight : float) (activity_minutes : Z)
  (temperature : pyval) (goal : Z) :
  PyFloat.is_positive weight = true ->
  0 <= activity_minutes ->
  calculate_water_goal weight activity_minutes temperature = Ok goal ->
  0 <= goal.
Proof.
  intros Hw Ha. unfold calculate_water_goal.
  destruct (water_sum weight activity_minutes temperature) as [s |] eqn:E;
    [|discriminate].
  cbn [bind]. intros H.
  apply water_sum_Ok in E as (t & heat & _ & Hheat & _ & ->).
  pose proof (py_int_Ok _ _ H) as Hfin. cbv beta iota in Hfin.
  rewrite (py_int_finite _ Hfin) in H. injection H as <-.
  assert (Hn : PyFloat.nonneg
                 (PyFloat.add
                    (PyFloat.add (PyFloat.mul weight (PyFloat.of_Z 30))
                       (PyFloat.of_Z (activity_minutes / 30 * 500)))
                    (PyFloat.of_Z heat)) = true).
  { apply add_nonneg; [apply add_nonneg|].
    - let v := eval vm_compute in (PyFloat.of_Z 30) in
      change (PyFloat.of_Z 30) with v.
      now apply mul_positive_nonneg.
    - apply of_Z_nonneg.
      pose proof (Z.div_pos activity_minutes 30 Ha ltac:(lia)). lia.
    - apply of_Z_nonneg. subst heat. destruct (num_gt t (PInt 25)); lia. }
  rewrite trunc_nonneg by now apply to_Q_nonneg.
  change 0 with (Qfloor (inject_Z 0)) at 1.
  apply Qfloor_resp_le. now apply to_Q_nonneg.
Qed.

Lemma calculate_water_goal_nonneg_witness :
  calculate_water_goal (PyFloat.of_decimal false 705 (-1)) 45 (VFloat (PyFloat.of_Z 30))
  = Ok 3115
  /\ 0 <= 3115.
Proof.
  split; [vm_compute; reflexivity|].
  apply (calculate_water_goal_nonneg (PyFloat.of_decimal false 705 (-1)) 45
           (VFloat (PyFloat.of_Z 30)) 3115);
    [vm_compute; reflexivity | lia | vm_compute; reflexivity].
Defined.

Lemma calculate_water_goal_finite_weight_witness :
  PyFloat.is_finite (PyFloat.of_Z 70) = true.
Proof.
  apply (calculate_water_goal_finite_weight (PyFloat.of_Z 70) 45
           (VFloat (PyFloat.of_Z 20)) 2600).
  vm_compute. reflexivity.
Defined.

(** X9. The calorie goal is computed only for a finite weight and a finite
    height. *)
Theorem calculate_calorie_goal_finite_inputs (weight height : float)
  (age activity_minutes goal : Z) :
  calculate_calorie_goal weight height age activity_minutes = Ok goal ->
  PyFloat.is_finite weight = true /\ PyFloat.is_finite height = true.
Proof.
  unfold calculate_calorie_goal.
  destruct (calorie_sum weight height age activity_minutes) as [s |] eqn:E;
    [|discriminate].
  cbn [bind]. intros H. apply py_int_Ok in H. revert E H.
  unfold calorie_sum, bmr, num_mul, num_add, num_sub, float_binop.
  repeat match goal with
         | |- context [to_float ?x] => destruct (to_float x) eqn:?; cbn [bind]
         end; try discriminate.
  intros [= <-] H.
  repeat match goal with
         | H : to_float (PFloat _) = Ok _ |- _ => injection H as <-
         end.
  apply add_finite in H as [H _]. apply sub_finite in H as [H _].
  apply add_finite in H as [H1 H2].
  apply mul_finite in H1 as [_ H1]. apply mul_finite in H2 as [_ H2]. auto.
Qed.

Lemma calculate_calorie_goal_finite_inputs_witness :
  PyFloat.is_finite (PyFloat.of_Z 70) = true
  /\ PyFloat.is_finite (PyFloat.of_Z 175) = true.
Proof.
  apply (calculate_calorie_goal_finite_inputs (PyFloat.of_Z 70)
           (PyFloat.of_Z 175) 30 45 1843).
  vm_compute. reflexivity.
Defined.
(** ** What holds in every world the bot can be in *)

(** X10. A user who is asked for an amount of water, for the name of a food
    to log or for its grams has a profile. *)
Theorem log_states_have_profile (w : world) (uid : Z) :
  reachable w ->
  needs_profile (state (get_ctx uid w)) = true ->
  is_Some (user_profiles w !! uid).
Proof.
  intros Hr. destruct (reachable_Good w Hr uid) as (_ & H & _). exact H.
Qed.

Lemma log_states_have_profile_witness :
  is_Some (user_profiles (run initial to_water) !! 7).
Proof.
  apply (log_states_have_profile (run initial to_water) 7);
    [ apply run_reachable; exact (reachable_startup _)
    | vm_compute; reflexivity ].
Defined.

(** X11. The context of a user holds what the state presupposes: at each
    profile step the answers of the steps before it, at the food-amount step
    the food that was found. *)
Theorem state_data_complete (w : world) (uid : Z) :
  reachable w -> data_complete (get_ctx uid w).
Proof.
  intros Hr. destruct (reachable_Good w Hr uid) as (H & _). exact H.
Qed.

Lemma state_data_complete_witness :
  data_complete (get_ctx 7 (run initial to_city)).
Proof.
  apply (state_data_complete (run initial to_city) 7).
  apply run_reachable; exact (reachable_startup _).
Defined.

(** X12. The goals of a stored profile are those the calculators give for
    its stored weight, height, age, activity and temperature; the stored
    temperature is never falsy, and the burned calories are always 0. *)
Theorem stored_profile_consistent (w : world) (uid : Z) (p : profile) :
  reachable w ->
  user_profiles w !! uid = Some p ->
  calculate_water_goal (weight p) (activity p) (temperature p)
  = Ok (water_goal p)
  /\ calculate_calorie_goal (weight p) (height p) (age p) (activity p)
     = Ok (calorie_goal p)
  /\ truthy (temperature p) = true
  /\ burned_calories p = 0.
Proof.
  intros Hr Hp. destruct (reachable_Good w Hr uid) as (_ & _ & H).
  exact (H p Hp).
Qed.

Lemma stored_profile_consistent_witness :
  calculate_water_goal (PyFloat.of_Z 70) 45 (VFloat f20_0) = Ok 2600
  /\ calculate_calorie_goal (PyFloat.of_Z 70) (PyFloat.of_Z 170) 30 45 = Ok 1812
  /\ truthy (VFloat f20_0) = true
  /\ 0 = 0.
Proof.
  apply (stored_profile_consistent (run initial to_profile) 7 oslo_profile);
    [ apply run_reachable; exact (reachable_startup _)
    | vm_compute; reflexivity ].
Defined.

(** X13. The replies "Something went wrong. Please try again." and "Please
    set your profile first." are never sent: the branches of
    [process_log_food_amount] and [process_log_water] that send them are
    dead. *)
Theorem guard_replies_never_sent (w : world) (message : Message)
  (net : http_outcome) (r : reply) :
  reachable w ->
  In r (snd (step w message net)) ->
  body r <> SomethingWentWrong /\ body r <> SetProfileFirst.
Proof.
  intros Hr. apply reachable_Good in Hr.
  pose proof (Hr (from_user_id message)) as (Hd & Hn & _).
  unfold data_complete in Hd. revert r.
  step_cases message; intros r Hin; cbn [In] in Hin;
    try (destruct Hin as [<- | []]; split; discriminate);
    try contradiction.
  all: repeat match goal with
         | H : state _ = Some _ |- _ => rewrite H in Hd, Hn; clear H
         end; cbn iota in Hd; cbn [needs_profile] in Hn.
  all: try (exfalso; exact (is_Some_None Hd)).
  all: try (exfalso; exact (is_Some_None (Hn eq_refl))).
  destruct Hin as [<- | []]. unfold water_reply. cbn [body].
  destruct (_ <=? 0); split; discriminate.
Qed.

Lemma guard_replies_never_sent_witness :
  body {| body := EnterWater; markup := ReplyKeyboardRemove |}
  <> SomethingWentWrong
  /\ body {| body := EnterWater; markup := ReplyKeyboardRemove |}
     <> SetProfileFirst.
Proof.
  apply (guard_replies_never_sent (run initial to_profile)
           (says 7 "Log Water") TransportFailure);
    [ apply run_reachable; exact (reachable_startup _)
    | vm_compute; left; reflexivity ].
Defined.

(** *** The exceptions of the computations *)

Lemma raises_only_bind {A B} (P : exn -> bool) (c : result A)
  (k : A -> result B) :
  raises_only P c -> (forall a, raises_only P (k a)) ->
  raises_only P (bind c k).
Proof. destruct c; cbn [bind]; auto. Qed.

Lemma raises_only_text_int (t : option string) :
  raises_only handler_exn (py_int_of_text t).
Proof. destruct t as [s |]; cbn; [destruct (parse_int s)|]; cbn; auto. Qed.

Lemma raises_only_text_float (t : option string) :
  raises_only handler_exn (py_float_of_text t).
Proof. destruct t as [s |]; cbn; [destruct (parse_float s)|]; cbn; auto. Qed.

Lemma raises_only_to_float (n : pynum) : raises_only handler_exn (to_float n).
Proof.
  destruct n as [z | x]; cbn; auto.
  destruct (PyFloat.is_finite (PyFloat.of_Z z)); cbn; auto.
Qed.

Lemma raises_only_float_binop (op : float -> float -> float) (a b : pynum) :
  raises_only handler_exn (float_binop op a b).
Proof.
  unfold float_binop.
  apply raises_only_bind; [apply raises_only_to_float|]. intros x.
  apply raises_only_bind; [apply raises_only_to_float|]. intros y. exact I.
Qed.

Lemma raises_only_num_add (a b : pynum) : raises_only handler_exn (num_add a b).
Proof.
  destruct a, b; cbn [num_add]; try apply raises_only_float_binop. exact I.
Qed.

Lemma raises_only_num_sub (a b : pynum) : raises_only handler_exn (num_sub a b).
Proof.
  destruct a, b; cbn [num_sub]; try apply raises_only_float_binop. exact I.
Qed.

Lemma raises_only_num_mul (a b : pynum) : raises_only handler_exn (num_mul a b).
Proof.
  destruct a, b; cbn [num_mul]; try apply raises_only_float_binop. exact I.
Qed.

Lemma raises_only_as_num (v : pyval) : raises_only handler_exn (as_num v).
Proof. destruct v; cbn; auto. Qed.

Lemma raises_only_py_int (n : pynum) : raises_only handler_exn (py_int n).
Proof. destruct n as [| []]; cbn; auto. Qed.

Lemma raises_only_operand {A} (o : option A) :
  raises_only handler_exn (operand o).
Proof. destruct o; cbn; auto. Qed.

Ltac raises_only_step :=
  lazymatch goal with
  | |- raises_only _ (num_add _ _) => apply raises_only_num_add
  | |- raises_only _ (num_sub _ _) => apply raises_only_num_sub
  | |- raises_only _ (num_mul _ _) => apply raises_only_num_mul
  | |- raises_only _ (as_num _) => apply raises_only_as_num
  | |- raises_only _ (py_int _) => apply raises_only_py_int
  | |- raises_only _ (operand _) => apply raises_only_operand
  | |- raises_only _ (bind _ _) => apply raises_only_bind; [|intros ?]
  | |- raises_only _ (Ok _) => exact I
  end.

Lemma raises_only_water_goal (weight : float) (activity_minutes : Z)
  (temperature : pyval) :
  raises_only handler_exn
    (calculate_water_goal weight activity_minutes temperature).
Proof.
  unfold calculate_water_goal, water_sum. cbv zeta.
  repeat raises_only_step.
Qed.

Lemma raises_only_calorie_goal (weight height : float)
  (age activity_minutes : Z) :
  raises_only handler_exn
    (calculate_calorie_goal weight height age activity_minutes).
Proof.
  unfold calculate_calorie_goal, calorie_sum, bmr.
  repeat raises_only_step.
Qed.

Lemma raises_only_city_profile (d : fsm_data) (city : option string)
  (temp : pyval) :
  raises_only handler_exn (city_profile d city temp).
Proof.
  unfold city_profile.
  repeat lazymatch goal with
         | |- raises_only _ (calculate_water_goal _ _ _) =>
             apply raises_only_water_goal
         | |- raises_only _ (calculate_calorie_goal _ _ _ _) =>
             apply raises_only_calorie_goal
         | _ => raises_only_step
         end.
Qed.

(** Dividing by the integer 100 never divides by zero. *)
Lemma raises_only_div_100 (n : pynum) :
  raises_only handler_exn (num_truediv n (PInt 100)).
Proof.
  destruct n as [z | x]; unfold num_truediv.
  - change (100 =? 0) with false. cbv iota.
    destruct (PyFloat.is_finite _); [exact I | reflexivity].
  - rewrite (to_float_int 100) by reflexivity.
    change (to_float (PFloat x)) with (Ok x). cbn [bind].
    let v := eval vm_compute in (PyFloat.of_Z 100) in
    change (PyFloat.of_Z 100) with v.
    exact I.
Qed.

Lemma raises_only_portion (f : food_info) (amount : Z) :
  raises_only handler_exn (portion f amount).
Proof.
  unfold portion.
  repeat lazymatch goal with
         | |- raises_only _ (num_truediv _ _) => apply raises_only_div_100
         | _ => raises_only_step
         end.
Qed.

Lemma raises_only_Raise {A} (P : exn -> bool) (c : result A) (e : exn) :
  raises_only P c -> c = Raise e -> P e = true.
Proof. now intros H ->. Qed.

(** X14. The exceptions that leave a handler are [ValueError], [TypeError]
    and [OverflowError]. In particular none raises [KeyError]: the subscript
    [user_profiles[message.from_user.id]] of [process_log_food_amount] always
    finds the profile. *)
Theorem handler_exceptions (w : world) (message : Message)
  (net : http_outcome) (e : exn) :
  reachable w ->
  fst (fst (dispatch message net w)) = Raise e ->
  e = ValueError \/ e = TypeError \/ e = OverflowError.
Proof.
  intros Hr. apply reachable_Good in Hr.
  pose proof (Hr (from_user_id message)) as (_ & Hn & _).
  intros H.
  assert (He : handler_exn e = true);
    [|destruct e; try discriminate He; auto].
  revert H.
  unfold dispatch, dp, first_match.
  repeat match goal with
         | |- context [passes ?u ?f message ?s] =>
             let E := fresh "E" in
             destruct (passes u f message s) eqn:E;
             [ try apply bool_decide_eq_true in E | ]
         end;
    try discriminate.
  all: rewrite ?cmd_set_profile_effect, ?process_weight_effect,
    ?process_height_effect, ?process_age_effect, ?process_activity_effect,
    ?process_city_effect, ?cmd_log_water_effect, ?process_log_water_effect,
    ?cmd_log_food_effect, ?process_log_food_name_effect,
    ?process_log_food_amount_effect, ?cmd_check_progress_effect,
    ?cmd_check_food_info_effect, ?process_food_info_effect.
  all: unfold cmd_start, fallback_handler, answer.
  all: repeat match goal with
         | |- context [match ?x with _ => _ end] =>
             lazymatch x with
             | context [match _ with _ => _ end] => fail
             | _ => destruct x eqn:?
             end
         end; cbn [fst snd]; try discriminate.
  all: intros [= <-]; try reflexivity.
  all: try match goal with
         | H : py_float_of_text ?t = Raise _ |- _ =>
             exact (raises_only_Raise _ _ _ (raises_only_text_float t) H)
         | H : py_int_of_text ?t = Raise _ |- _ =>
             exact (raises_only_Raise _ _ _ (raises_only_text_int t) H)
         | H : city_profile ?d ?c ?t = Raise _ |- _ =>
             exact (raises_only_Raise _ _ _ (raises_only_city_profile d c t) H)
         | H : portion ?f ?a = Raise _ |- _ =>
             exact (raises_only_Raise _ _ _ (raises_only_portion f a) H)
         | H : num_add ?a ?b = Raise _ |- _ =>
             exact (raises_only_Raise _ _ _ (raises_only_num_add a b) H)
         end.
  match goal with
  | H : state _ = Some _ |- _ => rewrite H in Hn
  end.
  exfalso. exact (is_Some_None (Hn eq_refl)).
Qed.

Lemma handler_exceptions_witness :
  TypeError = ValueError \/ TypeError = TypeError \/ TypeError = OverflowError.
Proof.
  apply (handler_exceptions (run initial to_weight)
           {| from_user_id := 7; text := None; caption := None |}
           TransportFailure);
    [ apply run_reachable; exact (reachable_startup _)
    | vm_compute; reflexivity ].
Defined.
(** ** Turns of a dialogue *)

Lemma step_in_state (w : world) (message : Message) (net : http_outcome)
  (s : State) :
  for_state (bot_username w) message (Some s) = true ->
  state (get_ctx (from_user_id message) w) = Some s ->
  step w message net
  = let '(_, w', out) := state_handler s message net w in (w', out).
Proof.
  intros H Hs. rewrite (step_for_state w message net) by (now rewrite Hs).
  now rewrite Hs.
Qed.

Lemma turn_set_profile (w : world) (uid : Z) (net : http_outcome) :
  step w (says uid "Set Profile") net
  = (set_ctx uid {| state := Some ProfileStates_weight; data := no_data |} w,
     [ {| body := EnterWeight; markup := ReplyKeyboardRemove |} ]).
Proof.
  unfold step, dispatch. rewrite route_set_profile.
  now rewrite cmd_set_profile_effect.
Qed.

Lemma turn_weight (w : world) (uid : Z) (net : http_outcome) (s : string)
  (x : float) (d : fsm_data) :
  parse_float s = Some x ->
  get_ctx uid w = {| state := Some ProfileStates_weight; data := d |} ->
  step w (says uid s) net
  = (set_ctx uid {| state := Some ProfileStates_height;
                    data := with_weight x d |} w,
     [ {| body := EnterHeight; markup := no_markup |} ]).
Proof.
  intros Hp Hc.
  rewrite (step_in_state w (says uid s) net ProfileStates_weight
             (for_state_float _ (says uid s) s x _ eq_refl Hp))
    by (cbn [from_user_id says]; now rewrite Hc).
  cbn [state_handler]. rewrite process_weight_effect.
  cbn [text says from_user_id py_float_of_text]. now rewrite Hp, Hc.
Qed.

Lemma turn_height (w : world) (uid : Z) (net : http_outcome) (s : string)
  (x : float) (d : fsm_data) :
  parse_float s = Some x ->
  get_ctx uid w = {| state := Some ProfileStates_height; data := d |} ->
  step w (says uid s) net
  = (set_ctx uid {| state := Some ProfileStates_age;
                    data := with_height x d |} w,
     [ {| body := EnterAge; markup := no_markup |} ]).
Proof.
  intros Hp Hc.
  rewrite (step_in_state w (says uid s) net ProfileStates_height
             (for_state_float _ (says uid s) s x _ eq_refl Hp))
    by (cbn [from_user_id says]; now rewrite Hc).
  cbn [state_handler]. rewrite process_height_effect.
  cbn [text says from_user_id py_float_of_text]. now rewrite Hp, Hc.
Qed.

Lemma turn_age (w : world) (uid : Z) (net : http_outcome) (s : string)
  (n : Z) (d : fsm_data) :
  parse_int s = Some n ->
  get_ctx uid w = {| state := Some ProfileStates_age; data := d |} ->
  step w (says uid s) net
  = (set_ctx uid {| state := Some ProfileStates_activity;
                    data := with_age n d |} w,
     [ {| body := EnterActivity; markup := no_markup |} ]).
Proof.
  intros Hp Hc.
  rewrite (step_in_state w (says uid s) net ProfileStates_age
             (for_state_int _ (says uid s) s n _ eq_refl Hp))
    by (cbn [from_user_id says]; now rewrite Hc).
  cbn [state_handler]. rewrite process_age_effect.
  cbn [text says from_user_id py_int_of_text]. now rewrite Hp, Hc.
Qed.

Lemma turn_activity (w : world) (uid : Z) (net : http_outcome) (s : string)
  (n : Z) (d : fsm_data) :
  parse_int s = Some n ->
  get_ctx uid w = {| state := Some ProfileStates_activity; data := d |} ->
  step w (says uid s) net
  = (set_ctx uid {| state := Some ProfileStates_city;
                    data := with_activity n d |} w,
     [ {| body := EnterCity; markup := no_markup |} ]).
Proof.
  intros Hp Hc.
  rewrite (step_in_state w (says uid s) net ProfileStates_activity
             (for_state_int _ (says uid s) s n _ eq_refl Hp))
    by (cbn [from_user_id says]; now rewrite Hc).
  cbn [state_handler]. rewrite process_activity_effect.
  cbn [text says from_user_id py_int_of_text]. now rewrite Hp, Hc.
Qed.

(** The five turns that lead to the city step. *)
Lemma run_to_city (w : world) (uid : Z) (net : http_outcome)
  (sw sh sa sm : string) (x h : float) (g a : Z) :
  parse_float sw = Some x -> parse_float sh = Some h ->
  parse_int sa = Some g -> parse_int sm = Some a ->
  run w (says_all uid net [ "Set Profile"; sw; sh; sa; sm ])
  = set_ctx uid
      {| state := Some ProfileStates_city;
         data := {| data_weight := Some x; data_height := Some h;
                    data_age := Some g; data_activity := Some a;
                    data_current_food := None |} |} w.
Proof.
  intros Hw Hh Hg Ha. unfold says_all, run. cbn [map fold_left fst snd].
  rewrite turn_set_profile. cbn [fst].
  rewrite (turn_weight _ uid net sw x _ Hw (get_ctx_set_ctx _ _ _)).
  cbn [fst]. rewrite set_ctx_set_ctx.
  rewrite (turn_height _ uid net sh h _ Hh (get_ctx_set_ctx _ _ _)).
  cbn [fst]. rewrite set_ctx_set_ctx.
  rewrite (turn_age _ uid net sa g _ Hg (get_ctx_set_ctx _ _ _)).
  cbn [fst]. rewrite set_ctx_set_ctx.
  rewrite (turn_activity _ uid net sm a _ Ha (get_ctx_set_ctx _ _ _)).
  cbn [fst]. rewrite set_ctx_set_ctx. reflexivity.
Qed.

(** X15. During the profile dialogue every message that is neither a
    [/start] command nor the text "Set Profile" is given to the handler of
    the step: the texts of the other menu buttons are read as answers. *)
Theorem profile_state_dispatch (w : world) (message : Message)
  (net : http_outcome) (s : State) :
  state (get_ctx (from_user_id message) w) = Some s ->
  profile_state s = true ->
  is_start_command (bot_username w) message = false ->
  has_text message "Set Profile" = false ->
  dispatch message net w = state_handler s message net w.
Proof.
  intros Hs Hp Hc Ht. unfold dispatch. rewrite Hs.
  rewrite (first_match_for_state _ message (Some s)); [reflexivity|].
  unfold for_state. rewrite Hc.
  destruct s; try discriminate Hp; cbn [buttons_before forallb];
    now rewrite Ht.
Qed.

Lemma profile_state_dispatch_witness :
  dispatch (says 7 "Check Progress") TransportFailure (run initial to_height)
  = process_height (says 7 "Check Progress") (run initial to_height).
Proof.
  apply (profile_state_dispatch (run initial to_height)
           (says 7 "Check Progress") TransportFailure ProfileStates_height);
    vm_compute; reflexivity.
Defined.

Lemma turn_city (w : world) (uid : Z) (net : http_outcome) (s : string)
  (d : fsm_data) (p : profile) :
  is_start_command (bot_username w) (says uid s) = false ->
  String.eqb s "Set Profile" = false ->
  get_ctx uid w = {| state := Some ProfileStates_city; data := d |} ->
  city_profile d (Some s)
    (py_or (get_weather_temp (Some s) net) (VFloat f20_0)) = Ok p ->
  step w (says uid s) net
  = (set_ctx uid idle (set_profile uid p w),
     [ {| body := ProfileSet p; markup := get_main_menu |} ]).
Proof.
  intros Hc Ht Hd Hp.
  rewrite (step_in_state w (says uid s) net ProfileStates_city).
  - cbn [state_handler]. rewrite process_city_effect.
    cbn [text says from_user_id]. rewrite Hd. cbn [data]. now rewrite Hp.
  - unfold for_state, has_text. cbn [buttons_before forallb text says].
    now rewrite Hc, Ht.
  - cbn [from_user_id says]. now rewrite Hd.
Qed.

(** X16. The profile dialogue, from any world and any state: after "Set
    Profile", a weight, a height, an age, the minutes of activity and a city,
    the profile of the user holds these answers, the temperature found for
    the city or 20.0, the two goals computed from them, and empty logs; the
    user is in no state again. *)
Theorem profile_setup_flow (w : world) (uid : Z) (net : http_outcome)
  (sw sh sa sm sc : string) (x h : float) (g a wg cg : Z) :
  parse_float sw = Some x -> parse_float sh = Some h ->
  parse_int sa = Some g -> parse_int sm = Some a ->
  is_start_command (bot_username w) (says uid sc) = false ->
  String.eqb sc "Set Profile" = false ->
  calculate_water_goal x a
    (py_or (get_weather_temp (Some sc) net) (VFloat f20_0)) = Ok wg ->
  calculate_calorie_goal x h g a = Ok cg ->
  user_profiles
    (run w (says_all uid net [ "Set Profile"; sw; sh; sa; sm; sc ])) !! uid
  = Some {| weight := x; height := h; age := g; activity := a;
            city := Some sc;
            temperature :=
              py_or (get_weather_temp (Some sc) net) (VFloat f20_0);
            water_goal := wg; calorie_goal := cg;
            logged_water := 0; logged_calories := PInt 0;
            burned_calories := 0 |}
  /\ get_ctx uid
       (run w (says_all uid net [ "Set Profile"; sw; sh; sa; sm; sc ]))
     = idle.
Proof.
  intros Hw Hh Hg Ha Hc Ht Hwg Hcg.
  change (says_all uid net [ "Set Profile"; sw; sh; sa; sm; sc ])
    with (says_all uid net [ "Set Profile"; sw; sh; sa; sm ]
          ++ [ (says uid sc, net) ]).
  rewrite run_app, (run_to_city w uid net sw sh sa sm x h g a Hw Hh Hg Ha).
  unfold run. cbn [fold_left fst snd].
  match goal with
  | |- context [step ?w1 (says uid sc) net] =>
      erewrite (turn_city w1 uid net sc _ _ Hc Ht (get_ctx_set_ctx _ _ _))
  end.
  - cbn [fst]. rewrite get_ctx_set_ctx. split; [|reflexivity].
    unfold set_ctx, set_profile. cbn [user_profiles].
    rewrite lookup_insert_eq. reflexivity.
  - unfold city_profile. cbn [data_weight data_height data_age data_activity
                                operand bind].
    rewrite Hwg, Hcg. reflexivity.
Qed.

Lemma profile_setup_flow_witness :
  user_profiles
    (run initial
       (says_all 7 TransportFailure
          [ "Set Profile"; "70"; "170"; "30"; "45"; "Oslo" ])) !! 7
  = Some oslo_profile
  /\ get_ctx 7
       (run initial
          (says_all 7 TransportFailure
             [ "Set Profile"; "70"; "170"; "30"; "45"; "Oslo" ]))
     = idle.
Proof.
  apply (profile_setup_flow initial 7 TransportFailure
           "70" "170" "30" "45" "Oslo" (PyFloat.of_Z 70) (PyFloat.of_Z 170)
           30 45 2600 1812);
    vm_compute; reflexivity.
Defined.

(** *** Logging water *)

Lemma turn_log_water (w : world) (uid : Z) (net : http_outcome) (p : profile) :
  state (get_ctx uid w) = None ->
  user_profiles w !! uid = Some p ->
  step w (says uid "Log Water") net
  = (set_ctx uid {| state := Some LogWaterStates_amount;
                    data := data (get_ctx uid w) |} w,
     [ {| body := EnterWater; markup := ReplyKeyboardRemove |} ]).
Proof.
  intros Hs Hp. unfold step, dispatch. cbn [from_user_id says].
  rewrite Hs, route_idle_log_water, cmd_log_water_effect.
  cbn [from_user_id says]. now rewrite Hp.
Qed.

Lemma turn_water_amount (w : world) (uid : Z) (net : http_outcome)
  (s : string) (n : Z) (p : profile) :
  parse_int s = Some n ->
  state (get_ctx uid w) = Some LogWaterStates_amount ->
  user_profiles w !! uid = Some p ->
  step w (says uid s) net
  = (set_ctx uid idle
       (set_profile uid (with_logged_water (logged_water p + n) p) w),
     [ water_reply p n ]).
Proof.
  intros Hn Hs Hp.
  rewrite (step_in_state w (says uid s) net LogWaterStates_amount
             (for_state_int _ (says uid s) s n _ eq_refl Hn) Hs).
  cbn [state_handler]. rewrite process_log_water_effect.
  cbn [text says from_user_id py_int_of_text]. now rewrite Hp, Hn.
Qed.

Lemma with_logged_water_twice (u v : Z) (p : profile) :
  with_logged_water u (with_logged_water v p) = with_logged_water u p.
Proof. reflexivity. Qed.

(** X17. Water adds up: a user with a profile who, in no state, presses
    "Log Water" and answers with a text that [int] reads, again and again,
    has logged the sum of the integers on top of what was logged before, and
    is in no state at the end; the rest of the profile is as it was. *)
Theorem water_turns_accumulate (uid : Z) (net : http_outcome)
  (texts : list string) :
  forall (amounts : list Z) (w : world) (p : profile),
    map parse_int texts = map Some amounts ->
    state (get_ctx uid w) = None ->
    user_profiles w !! uid = Some p ->
    (exists p',
       user_profiles (run w (water_turns uid net texts)) !! uid = Some p'
       /\ logged_water p' = logged_water p + sum_Z amounts
       /\ logged_calories p' = logged_calories p
       /\ settings p' = settings p)
    /\ state (get_ctx uid (run w (water_turns uid net texts))) = None.
Proof.
  induction texts as [| s texts IH]; intros [| n amounts] w p Hm Hs Hp;
    try discriminate Hm.
  - cbn [water_turns flat_map run fold_left sum_Z fold_right].
    split; [|exact Hs]. exists p. rewrite Z.add_0_r. auto.
  - cbn [map] in Hm. injection Hm as Hn Hm.
    cbn [water_turns flat_map app]. fold (water_turns uid net texts).
    unfold run. cbn [fold_left fst snd]. fold (run).
    rewrite (turn_log_water w uid net p Hs Hp). cbn [fst].
    erewrite (turn_water_amount _ uid net s n p Hn).
    + cbn [fst].
      match goal with
      | |- context [fold_left _ _ ?w1] =>
          destruct (IH amounts w1
                      (with_logged_water (logged_water p + n) p) Hm)
            as [(p' & E1 & E2 & E3 & E4) E5]
      end.
      * now rewrite get_ctx_set_ctx.
      * unfold set_ctx, set_profile. cbn [user_profiles].
        now rewrite lookup_insert_eq.
      * unfold run in E1, E5. split; [|exact E5].
        exists p'. split; [exact E1|]. split; [|split; assumption].
        rewrite E2. unfold sum_Z.
        cbn [fold_right logged_water with_logged_water]. lia.
    + now rewrite get_ctx_set_ctx.
    + exact Hp.
Qed.

Lemma water_turns_accumulate_witness :
  (exists p',
     user_profiles
       (run (run initial to_profile)
          (water_turns 7 TransportFailure [ "250"; "300"; "-50" ])) !! 7
     = Some p'
     /\ logged_water p' = 0 + 500
     /\ logged_calories p' = PInt 0
     /\ settings p' = settings oslo_profile)
  /\ state (get_ctx 7
              (run (run initial to_profile)
                 (water_turns 7 TransportFailure [ "250"; "300"; "-50" ])))
     = None.
Proof.
  apply (water_turns_accumulate 7 TransportFailure [ "250"; "300"; "-50" ]
           [ 250; 300; -50 ] (run initial to_profile) oslo_profile);
    vm_compute; reflexivity.
Defined.

(** *** Logging food and looking food up *)

Lemma turn_log_food (w : world) (uid : Z) (net : http_outcome) (p : profile) :
  state (get_ctx uid w) = None ->
  user_profiles w !! uid = Some p ->
  step w (says uid "Log Food") net
  = (set_ctx uid {| state := Some LogFoodStates_food_name;
                    data := data (get_ctx uid w) |} w,
     [ {| body := EnterFoodToLog; markup := ReplyKeyboardRemove |} ]).
Proof.
  intros Hs Hp. unfold step, dispatch. cbn [from_user_id says]. rewrite Hs.
  change (first_match dp (bot_username w) (says uid "Log Food") None)
    with (Some (fun (m : Message) (_ : http_outcome) => cmd_log_food m)).
  cbv beta iota. rewrite cmd_log_food_effect. cbn [from_user_id says].
  now rewrite Hp.
Qed.

Lemma turn_food_name (w : world) (uid : Z) (net : http_outcome) (s : string)
  (f : food_info) :
  for_state (bot_username w) (says uid s) (Some LogFoodStates_food_name)
  = true ->
  state (get_ctx uid w) = Some LogFoodStates_food_name ->
  get_food_info (Some s) net = Some f ->
  step w (says uid s) net
  = (set_ctx uid {| state := Some LogFoodStates_food_amount;
                    data := with_current_food f (data (get_ctx uid w)) |} w,
     [ {| body := FoodFound f; markup := no_markup |} ]).
Proof.
  intros Hpl Hs Hf.
  rewrite (step_in_state w (says uid s) net LogFoodStates_food_name Hpl Hs).
  cbn [state_handler]. rewrite process_log_food_name_effect.
  cbn [text says from_user_id]. now rewrite Hf.
Qed.

Lemma turn_food_amount (w : world) (uid : Z) (net : http_outcome) (s : string)
  (n : Z) (d : fsm_data) (f : food_info) (p : profile) (total updated : pynum) :
  parse_int s = Some n ->
  get_ctx uid w = {| state := Some LogFoodStates_food_amount; data := d |} ->
  data_current_food d = Some f ->
  user_profiles w !! uid = Some p ->
  portion f n = Ok total ->
  num_add (logged_calories p) total = Ok updated ->
  step w (says uid s) net
  = (set_ctx uid idle (set_profile uid (with_logged_calories updated p) w),
     [ {| body := FoodLogged f n total updated; markup := get_main_menu |} ]).
Proof.
  intros Hn Hc Hf Hp Ht Hu.
  rewrite (step_in_state w (says uid s) net LogFoodStates_food_amount
             (for_state_int _ (says uid s) s n _ eq_refl Hn))
    by (cbn [from_user_id says]; now rewrite Hc).
  cbn [state_handler]. rewrite process_log_food_amount_effect.
  cbn [text says from_user_id py_int_of_text]. rewrite Hn, Hc. cbn [data].
  now rewrite Hf, Ht, Hp, Hu.
Qed.

(** X18. Logging a food: a user with a profile who, in no state, presses
    "Log Food", sends a name that the food-name step gets (no [/start]
    command, none of "Set Profile", "Log Water", "Log Food") and that the
    service finds, and answers with grams that [int] reads, has the calories
    of the portion, [(calories / 100) * grams], added to the logged
    calories; nothing else of the profile changes, and the user is in no
    state again. *)
Theorem food_log_flow (w : world) (uid : Z) (net1 net2 net3 : http_outcome)
  (sname sgrams : string) (f : food_info) (n : Z) (p : profile)
  (per_gram total updated : pynum) :
  state (get_ctx uid w) = None ->
  user_profiles w !! uid = Some p ->
  for_state (bot_username w) (says uid sname) (Some LogFoodStates_food_name)
  = true ->
  get_food_info (Some sname) net2 = Some f ->
  parse_int sgrams = Some n ->
  (calories_per_100g <- as_num (calories f) ;;
   num_truediv calories_per_100g (PInt 100)) = Ok per_gram ->
  num_mul per_gram (PInt n) = Ok total ->
  num_add (logged_calories p) total = Ok updated ->
  (exists p',
     user_profiles
       (run w [ (says uid "Log Food", net1); (says uid sname, net2);
                (says uid sgrams, net3) ]) !! uid
     = Some p'
     /\ logged_calories p' = updated
     /\ logged_water p' = logged_water p
     /\ settings p' = settings p)
  /\ get_ctx uid
       (run w [ (says uid "Log Food", net1); (says uid sname, net2);
                (says uid sgrams, net3) ])
     = idle.
Proof.
  intros Hs Hp Hpl Hf Hn Hg Ht Hu.
  assert (Hpo : portion f n = Ok total).
  { unfold portion. destruct (as_num (calories f)) as [c |]; [|discriminate].
    cbn [bind] in Hg |- *. rewrite Hg. exact Ht. }
  unfold run. cbn [fold_left fst snd].
  rewrite (turn_log_food w uid net1 p Hs Hp). cbn [fst].
  match goal with
  | |- context [step ?w1 (says uid sname) net2] =>
      rewrite (turn_food_name w1 uid net2 sname f Hpl) by
        (try exact Hf; now rewrite get_ctx_set_ctx)
  end.
  cbn [fst]. rewrite set_ctx_set_ctx.
  rewrite (turn_food_amount _ uid net3 sgrams n (with_current_food f _) f p
             total updated Hn (get_ctx_set_ctx _ _ _) eq_refl Hp Hpo Hu).
  cbn [fst]. split; [|apply get_ctx_set_ctx].
  exists (with_logged_calories updated p). split; [|repeat split].
  unfold set_ctx, set_profile. cbn [user_profiles].
  now rewrite lookup_insert_eq.
Qed.

Lemma food_log_flow_witness :
  (exists p',
     user_profiles
       (run (run initial to_profile)
          [ (says 7 "Log Food", TransportFailure);
            (says 7 "Check Progress",
             products [VDict [("product_name", VStr "Apple");
                              ("nutriments",
                               VDict [("energy-kcal_100g", VInt 52)])]]);
            (says 7 "150", TransportFailure) ]) !! 7
     = Some p'
     /\ logged_calories p' = PFloat (PyFloat.of_Z 78)
     /\ logged_water p' = 0
     /\ settings p' = settings oslo_profile)
  /\ get_ctx 7
       (run (run initial to_profile)
          [ (says 7 "Log Food", TransportFailure);
            (says 7 "Check Progress",
             products [VDict [("product_name", VStr "Apple");
                              ("nutriments",
                               VDict [("energy-kcal_100g", VInt 52)])]]);
            (says 7 "150", TransportFailure) ])
     = idle.
Proof.
  apply (food_log_flow (run initial to_profile) 7 TransportFailure
           (products [VDict [("product_name", VStr "Apple");
                             ("nutriments",
                              VDict [("energy-kcal_100g", VInt 52)])]])
           TransportFailure "Check Progress" "150"
           {| name := VStr "Apple"; calories := VInt 52 |} 150 oslo_profile
           (PFloat (PyFloat.of_decimal false 52 (-2)))
           (PFloat (PyFloat.of_Z 78)) (PFloat (PyFloat.of_Z 78)));
    vm_compute; reflexivity.
Defined.

(** X19. At the food-name step, a message that the step gets (no [/start]
    command, none of "Set Profile", "Log Water", "Log Food") and for which
    the service finds nothing keeps the user at the step: the world is
    unchanged and the bot asks for another name. *)
Theorem food_name_not_found_retries (w : world) (message : Message)
  (net : http_outcome) :
  state (get_ctx (from_user_id message) w) = Some LogFoodStates_food_name ->
  is_start_command (bot_username w) message = false ->
  has_text message "Set Profile" = false ->
  has_text message "Log Water" = false ->
  has_text message "Log Food" = false ->
  get_food_info (text message) net = None ->
  step w message net
  = (w, [ {| body := FoodNotFound; markup := no_markup |} ]).
Proof.
  intros Hs Hc H1 H2 H3 Hf.
  rewrite (step_in_state w message net LogFoodStates_food_name).
  - cbn [state_handler]. rewrite process_log_food_name_effect.
    now rewrite Hf.
  - unfold for_state. cbn [buttons_before forallb].
    now rewrite Hc, H1, H2, H3.
  - exact Hs.
Qed.

Lemma food_name_not_found_retries_witness :
  step (run (run initial to_profile) [ offline (says 7 "Log Food") ])
    (says 7 "Check Food Info") TransportFailure
  = (run (run initial to_profile) [ offline (says 7 "Log Food") ],
     [ {| body := FoodNotFound; markup := no_markup |} ]).
Proof.
  apply (food_name_not_found_retries
           (run (run initial to_profile) [ offline (says 7 "Log Food") ])
           (says 7 "Check Food Info") TransportFailure);
    vm_compute; reflexivity.
Defined.

(** X20. Looking a food up logs nothing: after "Check Food Info", sent by a
    user in no state, and a message that is no [/start] command and has not
    the text of a menu button, the world is the one of before with the
    user's conversation cleared; the reply shows the food when the service
    finds it and says that it was not found otherwise. *)
Theorem food_info_flow (w : world) (uid : Z) (net1 net2 : http_outcome)
  (sname : string) :
  state (get_ctx uid w) = None ->
  for_state (bot_username w) (says uid sname)
    (Some FoodInfoStates_food_name) = true ->
  step (fst (step w (says uid "Check Food Info") net1)) (says uid sname) net2
  = (set_ctx uid idle w,
     [ {| body := match get_food_info (Some sname) net2 with
                  | Some f => ProductInfo f
                  | None => ProductNotFound
                  end;
          markup := get_main_menu |} ]).
Proof.
  intros Hs Hpl.
  assert (E : step w (says uid "Check Food Info") net1
              = (set_ctx uid {| state := Some FoodInfoStates_food_name;
                                data := data (get_ctx uid w) |} w,
                 [ {| body := EnterFoodToCheck;
                      markup := ReplyKeyboardRemove |} ])).
  { unfold step, dispatch. cbn [from_user_id says]. rewrite Hs.
    change (first_match dp (bot_username w) (says uid "Check Food Info") None)
      with (Some (fun (m : Message) (_ : http_outcome) =>
                    cmd_check_food_info m)).
    cbv beta iota. now rewrite cmd_check_food_info_effect. }
  rewrite E. cbn [fst].
  match goal with
  | |- context [step ?w1 (says uid sname) net2] =>
      rewrite (step_in_state w1 (says uid sname) net2
                 FoodInfoStates_food_name Hpl)
        by (cbn [from_user_id says]; now rewrite get_ctx_set_ctx)
  end.
  cbn [state_handler]. rewrite process_food_info_effect.
  cbn [text says from_user_id]. now rewrite set_ctx_set_ctx.
Qed.

Lemma food_info_flow_witness :
  step (fst (step (run initial to_profile) (says 7 "Check Food Info")
               TransportFailure))
    (says 7 "apple") TransportFailure
  = (set_ctx 7 idle (run initial to_profile),
     [ {| body := ProductNotFound; markup := get_main_menu |} ]).
Proof.
  apply (food_info_flow (run initial to_profile) 7 TransportFailure
           TransportFailure "apple");
    vm_compute; reflexivity.
Defined.

(** *** What a turn never does *)

(** X21. A [/start] command changes nothing, in whatever state: it neither
    resets a dialogue nor touches a profile, and is answered with the
    welcome. *)
Theorem start_changes_nothing (w : world) (message : Message)
  (net : http_outcome) :
  is_start_command (bot_username w) message = true ->
  step w message net
  = (w, [ {| body := Welcome; markup := get_main_menu |} ]).
Proof.
  intros H. unfold step, dispatch, dp, first_match, passes.
  now rewrite H.
Qed.

Lemma start_changes_nothing_witness :
  step (run initial to_city) (says 7 " /start over") TransportFailure
  = (run initial to_city, [ {| body := Welcome; markup := get_main_menu |} ]).
Proof.
  apply (start_changes_nothing (run initial to_city) (says 7 " /start over")
           TransportFailure).
  vm_compute. reflexivity.
Defined.

Lemma no_state (username : option string) (message : Message)
  (st : option State) :
  passes username (In_state ProfileStates_weight) message st = false ->
  passes username (In_state ProfileStates_height) message st = false ->
  passes username (In_state ProfileStates_age) message st = false ->
  passes username (In_state ProfileStates_activity) message st = false ->
  passes username (In_state ProfileStates_city) message st = false ->
  passes username (In_state LogWaterStates_amount) message st = false ->
  passes username (In_state LogFoodStates_food_name) message st = false ->
  passes username (In_state LogFoodStates_food_amount) message st = false ->
  passes username (In_state FoodInfoStates_food_name) message st = false ->
  st = None.
Proof.
  destruct st as [[] |]; cbn [passes]; intros; try reflexivity;
    repeat match goal with
           | H : bool_decide (?x = ?x) = false |- _ =>
               apply bool_decide_eq_false in H; now destruct H
           end.
Qed.

(** X22. The reply of [fallback_handler], "I didn't understand that. ...",
    is the answer exactly to a message that is neither a [/start] command
    nor the text of a menu button, sent by a user who is in no state. *)
Theorem fallback_exactly (w : world) (message : Message) (net : http_outcome) :
  (exists r, In r (snd (step w message net)) /\ body r = DidNotUnderstand)
  <-> state (get_ctx (from_user_id message) w) = None
      /\ is_start_command (bot_username w) message = false
      /\ forall b, In b main_menu_buttons -> text message <> Some b.
Proof.
  split.
  - intros (r & Hin & Hb). revert r Hin Hb.
    step_cases message; intros r Hin Hb; cbn [In] in Hin;
      try contradiction;
      destruct Hin as [<- | []];
      try discriminate Hb;
      try (unfold water_reply in Hb; cbn [body] in Hb;
           destruct (_ <=? 0); discriminate Hb).
    split; [eapply no_state; eassumption|]. split; [assumption|].
    intros b Hin Ht.
    repeat match goal with
           | H : passes _ (F_text _) message _ = false |- _ =>
               cbn [passes] in H; unfold has_text in H; rewrite Ht in H
           end.
    cbn [In main_menu_buttons] in Hin.
    destruct Hin as [<- | [<- | [<- | [<- | [<- | []]]]]]; discriminate.
  - intros (Hs & Hc & Hb).
    rewrite (step_for_state w message net), Hs.
    + unfold handler_for, fallback_handler, answer. cbn [snd].
      eexists. split; [left; reflexivity | reflexivity].
    + rewrite Hs. unfold for_state. rewrite Hc.
      cbn [buttons_before forallb negb andb]. unfold has_text.
      destruct (text message) as [t |]; [|reflexivity].
      repeat match goal with
             | |- context [String.eqb t ?b] =>
                 destruct (String.eqb_spec t b) as [-> | _];
                 [exfalso; eapply Hb; [|reflexivity]; cbn; tauto|]
             end.
      reflexivity.
Qed.

(** How a turn writes a profile. *)
Lemma step_shape_profile (w : world) (message : Message) (net : http_outcome) :
  let uid := from_user_id message in
  let w' := fst (step w message net) in
  w' = w
  \/ (exists c, w' = set_ctx uid c w)
  \/ (exists c p, w' = set_ctx uid c (set_profile uid p w)
                  /\ (state (get_ctx uid w) = Some ProfileStates_city
                      \/ exists p0 : profile,
                          user_profiles w !! uid = Some p0
                          /\ settings p = settings p0)).
Proof.
  intros uid w'. unfold w', uid.
  step_cases message; eauto 9.
Qed.

(** X23. Only the city step writes the settings of a profile: a turn in
    which the user is not at the city step leaves weight, height, age,
    activity, city, temperature and both goals of the profile as they
    were. *)
Theorem settings_fixed (w : world) (message : Message) (net : http_outcome)
  (uid : Z) (p p' : profile) :
  state (get_ctx uid w) <> Some ProfileStates_city ->
  user_profiles w !! uid = Some p ->
  user_profiles (fst (step w message net)) !! uid = Some p' ->
  settings p' = settings p.
Proof.
  intros Hs Hp Hp'.
  destruct (step_shape_profile w message net)
    as [E | [[c E] | (c & p1 & E & H)]];
    rewrite E in Hp'; unfold set_ctx, set_profile in Hp';
    cbn [user_profiles] in Hp'; try congruence.
  destruct (decide (from_user_id message = uid)) as [<- | Hne].
  - rewrite lookup_insert_eq in Hp'. injection Hp' as <-.
    destruct H as [H | (p0 & H0 & H)]; [contradiction|]. congruence.
  - rewrite lookup_insert_ne in Hp' by exact Hne. congruence.
Qed.

Lemma settings_fixed_witness :
  settings (with_logged_water 250 oslo_profile) = settings oslo_profile.
Proof.
  apply (settings_fixed (run initial to_water) (says 7 "250") TransportFailure
           7 oslo_profile (with_logged_water 250 oslo_profile));
    vm_compute; [discriminate | reflexivity | reflexivity].
Defined.

(** X24. At a step that asks for a number, a message that the step gets (no
    [/start] command, none of the buttons registered before the step) and
    whose text [float], respectively [int], does not read keeps the user at
    the step: the world is unchanged and the bot asks again. *)
Theorem invalid_number_retries (w : world) (message : Message)
  (net : http_outcome) (st : State) (s : string) :
  state (get_ctx (from_user_id message) w) = Some st ->
  for_state (bot_username w) message (Some st) = true ->
  text message = Some s ->
  reads_number st s = false ->
  (st = LogWaterStates_amount ->
   is_Some (user_profiles w !! from_user_id message)) ->
  step w message net
  = (w, [ {| body := retry_reply st; markup := no_markup |} ]).
Proof.
  intros Hs Hpl Ht Hr Hp. rewrite (step_in_state w message net st Hpl Hs).
  destruct st; try discriminate Hr; cbn [state_handler reads_number] in *;
    apply bool_decide_eq_false in Hr;
    rewrite ?process_weight_effect, ?process_height_effect,
      ?process_age_effect, ?process_activity_effect,
      ?process_log_water_effect, ?process_log_food_amount_effect;
    rewrite Ht; cbn [py_float_of_text py_int_of_text].
  1,2: destruct (parse_float s); [destruct Hr; eauto | reflexivity].
  3: destruct (Hp eq_refl) as [p ->].
  all: destruct (parse_int s); [destruct Hr; eauto | reflexivity].
Qed.

Lemma invalid_number_retries_witness :
  step (run initial to_water) (says 7 "a glass") TransportFailure
  = (run initial to_water,
     [ {| body := InvalidNumber250; markup := no_markup |} ]).
Proof.
  apply (invalid_number_retries (run initial to_water) (says 7 "a glass")
           TransportFailure LogWaterStates_amount "a glass");
    try (vm_compute; reflexivity).
  intros _. vm_compute. eexists. reflexivity.
Defined.

(** *** The weather lookup *)

(** X25. [get_weather_temp] returns something else than [None] only for a
    response of status 200 whose body is a dict with a dict under "main";
    what it returns is the entry "temp" of that dict. *)
Theorem get_weather_temp_value (city : option string) (net : http_outcome)
  (v : pyval) :
  get_weather_temp city net = v ->
  v <> VNone ->
  exists d m,
    net = Response 200 (Some (VDict d))
    /\ assoc "main" d = Some (VDict m)
    /\ assoc "temp" m = Some v.
Proof.
  unfold get_weather_temp, get_weather_temp_body. intros H Hv.
  destruct net as [| status [data |]]; try congruence.
  - destruct (Z.eqb_spec status 200) as [-> | Hne]; cbn [negb] in H;
      [|congruence].
    unfold getitem in H.
    destruct data as [| | | | | | d]; cbn [bind] in H; try congruence.
    destruct (assoc "main" d) as [main |] eqn:Em; cbn [bind] in H;
      [|congruence].
    destruct main as [| | | | | | m]; try congruence.
    destruct (assoc "temp" m) as [t |] eqn:Et; [|congruence].
    exists d, m. repeat split; congruence.
  - destruct (negb (status =? 200)); congruence.
Qed.

Lemma get_weather_temp_value_witness :
  exists d m,
    weather (VFloat f20_0) = Response 200 (Some (VDict d))
    /\ assoc "main" d = Some (VDict m)
    /\ assoc "temp" m = Some (VFloat f20_0).
Proof.
  apply (get_weather_temp_value (Some "Oslo") (weather (VFloat f20_0))
           (VFloat f20_0));
    [vm_compute; reflexivity | discriminate].
Defined.
